(** * BreatheBack: zone restoration state and zone grid

    A shallow embedding of the state classification that the frontend keeps in
    two copies ([HeatmapView.calculateState] in [frontend/heatmapView.js] and
    [ZoneInspector.calculateState] in [frontend/bottomSheetManager.js]), of
    [ZoneInspector.calculateProgressInfo], and of the zone grid
    ([HeatmapView.calculateZoneId] and its copy inside
    [ActionsView.getUserLocation]).

    The functions are written with the JavaScript operators they use
    ([||], [+], [-], [>], [===], property reads, template literals), so the
    first module fixes the meaning of those operators.  A zone is an object,
    a finite map from property names to values; its scores are integers (or
    absent, [null], booleans, [NaN], infinite) and their sums and
    differences are those of doubles, rounded from 2^53 on; coordinates are
    doubles.  Console logging is left out.  The components around these
    functions follow: the objects with their fields, the part of the
    document they touch, and the requests they make, the answers being
    inputs. *)

From Stdlib Require Import ZArith Lia Floats Ascii String.
From stdpp Require Import gmap strings pretty.

Set Warnings "-inexact-float,-clear-no-such-hyp".
Local Open Scope Z_scope.
Local Open Scope string_scope.

(** ** The fragment of JavaScript the functions use *)

Module Js.

(** Scores are integer counters, so a finite number is carried as an
    integer, the value of a double that is an integer; [NaN] and the two
    infinities are kept because a score read from JSON can be infinite
    ([1e999]), a sum can overflow and [Infinity - Infinity] is [NaN].  The
    two zeros are one: nothing here tells them apart.  Fractional numbers
    only occur as coordinates; those are binary64 values, see [Math_floor]
    below. *)
Inductive Number : Set :=
| NaN
| Fin (z : Z)
| PosInf
| NegInf.

(** The values a property of a zone object can hold: [Undefined] is what
    reading an absent property yields; the others are the JSON scalars
    [null], [true]/[false] and numbers.  String- and object-valued
    properties are outside this universe. *)
Inductive Value : Set :=
| Undefined
| Null
| Bool (b : bool)
| Num (n : Number).

Coercion Fin : Z >-> Number.
Coercion Num : Number >-> Value.

(** An argument that is compared with string literals: the view mode is
    declared a string, but [===] is defined on every value, and a value that
    is no string equals no string. *)
Inductive Argument : Set :=
| Str (s : string)
| Other (v : Value).

Coercion Str : string >-> Argument.

#[global] Instance Number_eq_dec : EqDecision Number.
Proof. solve_decision. Defined.

#[global] Instance Value_eq_dec : EqDecision Value.
Proof. solve_decision. Defined.

(** An object is a finite map from property names to values; [o !!! k],
    the total lookup, is the property read [o.k]: an absent property reads
    as [undefined]. *)
#[global] Instance Value_inhabited : Inhabited Value := populate Undefined.

(** ToBoolean. *)
Definition ToBoolean (v : Value) : bool :=
  match v with
  | Undefined | Null => false
  | Bool b => b
  | Num NaN => false
  | Num (Fin z) => negb (z =? 0)%Z
  | Num _ => true
  end.

(** ToNumber. *)
Definition ToNumber (v : Value) : Number :=
  match v with
  | Undefined => NaN
  | Null => Fin 0
  | Bool true => Fin 1
  | Bool false => Fin 0
  | Num n => n
  end.

(** [a === s] for a string [s]. *)
Definition strict_eq (a : Argument) (s : string) : bool :=
  match a with
  | Str t => String.eqb t s
  | Other _ => false
  end.

(** [a || b]: the left operand when it is truthy, the right one otherwise. *)
Definition or (a b : Value) : Value := if ToBoolean a then a else b.

(** *** Arithmetic of doubles on integers

    The sum of two doubles is the double nearest to their exact sum.
    [round53] rounds a natural number to the 53 significant bits of a
    double, to nearest and ties to even: a number of more than 53 bits
    loses its [sh] low bits.  [nearest] is the double nearest to an
    integer: the rounded magnitude with the sign, and an infinity when the
    rounded magnitude reaches 2^1024.  Below 2^53 every integer is a double
    of its own. *)
Definition round53 (n : Z) : Z :=
  let bits := Z.log2 n + 1 in
  if (bits <=? 53)%Z then n
  else
    let sh := bits - 53 in
    let q := Z.shiftr n sh in
    let r := Z.land n (Z.ones sh) in
    let half := Z.shiftl 1 (sh - 1) in
    let q' := if ((half <? r)%Z || ((r =? half)%Z && Z.odd q))%bool
              then q + 1 else q in
    Z.shiftl q' sh.

Definition nearest (z : Z) : Number :=
  let r := round53 (Z.abs z) in
  if (1024 <=? Z.log2 r)%Z then (if (z <? 0)%Z then NegInf else PosInf)
  else Fin (Z.sgn z * r).

(** Number::add and Number::subtract. *)
Definition Number_add (x y : Number) : Number :=
  match x, y with
  | NaN, _ | _, NaN => NaN
  | PosInf, NegInf | NegInf, PosInf => NaN
  | PosInf, _ | _, PosInf => PosInf
  | NegInf, _ | _, NegInf => NegInf
  | Fin a, Fin b => nearest (a + b)
  end.

Definition Number_neg (x : Number) : Number :=
  match x with
  | NaN => NaN
  | Fin a => Fin (- a)
  | PosInf => NegInf
  | NegInf => PosInf
  end.

Definition Number_sub (x y : Number) : Number := Number_add x (Number_neg y).

(** Number::lessThan, with [undefined] (an operand is [NaN]) read as
    [false], as the relational operators do. *)
Definition Number_ltb (x y : Number) : bool :=
  match x, y with
  | NaN, _ | _, NaN => false
  | _, NegInf => false
  | NegInf, _ => true
  | PosInf, _ => false
  | Fin _, PosInf => true
  | Fin a, Fin b => (a <? b)%Z
  end.

(** [x <= y] is [!(y < x)] unless an operand is [NaN]. *)
Definition Number_leb (x y : Number) : bool :=
  match x, y with
  | NaN, _ | _, NaN => false
  | _, _ => negb (Number_ltb y x)
  end.

(** With no string operand, [a + b] adds the operands' numbers. *)
Definition add (a b : Value) : Number := Number_add (ToNumber a) (ToNumber b).

Definition sub (a b : Value) : Number := Number_sub (ToNumber a) (ToNumber b).

(** [a > b] is [b < a]. *)
Definition gt (a b : Value) : bool := Number_ltb (ToNumber b) (ToNumber a).

(** [Math.max(a, b)]: [NaN] when an argument is. *)
Definition Math_max (a b : Value) : Number :=
  match ToNumber a, ToNumber b with
  | NaN, _ | _, NaN => NaN
  | x, y => if Number_ltb x y then y else x
  end.

(** *** Number::toString

    A finite number prints as the shortest decimal numeral that reads back
    as the same double, in positional notation up to 21 digits and in
    exponent notation above.  [shortest] looks for the least number of
    leading digits that still round to the same double.  Below 2^53 the
    numeral is the decimal expansion of the integer. *)
Definition digits10 (n : Z) : Z := Z.of_nat (String.length (pretty n)).

(** The candidates with [k] leading digits: [n] cut after [k] digits, and
    the next numeral of that length. *)
Definition shortest_at (n k : Z) : option Z :=
  let p := 10 ^ Z.max 0 (digits10 n - k) in
  let lo := n / p * p in
  let hi := lo + p in
  let ok c := (round53 c =? round53 n)%Z in
  match ok lo, ok hi with
  | true, true =>
      if (n - lo <? hi - n)%Z then Some lo
      else if (hi - n <? n - lo)%Z then Some hi
      else if Z.even (lo / p) then Some lo else Some hi
  | true, false => Some lo
  | false, true => Some hi
  | false, false => None
  end.

Fixpoint shortest_from (n k : Z) (fuel : nat) : Z :=
  match fuel with
  | O => n
  | S fuel' =>
      match shortest_at n k with
      | Some v => v
      | None => shortest_from n (k + 1) fuel'
      end
  end.

Definition shortest (n : Z) : Z := shortest_from n 1 17.

Fixpoint strip_zeros (rev_digits : list ascii) : list ascii :=
  match rev_digits with
  | "0"%char :: l => strip_zeros l
  | l => l
  end.

(** The significant digits of a numeral: trailing zeros dropped. *)
Definition significand (numeral : string) : string :=
  string_of_list_ascii
    (rev (strip_zeros (rev (list_ascii_of_string numeral)))).

Definition exponent_form (numeral : string) : string :=
  let e := pretty (Z.of_nat (String.length numeral) - 1) in
  match significand numeral with
  | String d EmptyString => String d EmptyString +:+ "e+" +:+ e
  | String d ds => String d EmptyString +:+ "." +:+ ds +:+ "e+" +:+ e
  | EmptyString => numeral
  end.

Definition positive_toString (n : Z) : string :=
  let v := shortest n in
  if (v <? 10 ^ 21)%Z then pretty v else exponent_form (pretty v).

Definition NumberToString (x : Number) : string :=
  match x with
  | NaN => "NaN"
  | PosInf => "Infinity"
  | NegInf => "-Infinity"
  | Fin 0 => "0"
  | Fin (Zpos _ as n) => positive_toString n
  | Fin (Zneg p) => "-" +:+ positive_toString (Zpos p)
  end.

(** ToString, as a template literal applies it to a substitution. *)
Definition ToString (v : Value) : string :=
  match v with
  | Undefined => "undefined"
  | Null => "null"
  | Bool true => "true"
  | Bool false => "false"
  | Num n => NumberToString n
  end.

(** [x || d] where [x] is a string or [undefined]: the empty string is
    falsy as well. *)
Definition or_string (x : option string) (d : string) : string :=
  match x with
  | Some s => if String.eqb s "" then d else s
  | None => d
  end.

(** *** Coordinates

    Latitude and longitude are doubles; [x / y] on them is the division of
    binary64.  [Math.floor] of a double is an integer (or [NaN], or an
    infinity), which is a [Number]: for the double [(-1)^s * m * 2^e] it is
    the integer [(-1)^s * m] shifted by [e] binary places, a shift to
    the right rounding towards minus infinity.  The floor of a negative
    zero prints as [0], as that of zero does. *)
Definition Math_floor (x : float) : Number :=
  match Prim2SF x with
  | S754_nan => NaN
  | S754_infinity false => PosInf
  | S754_infinity true => NegInf
  | S754_zero _ => Fin 0
  | S754_finite s m e => Fin (Z.shiftl (cond_Zopp s (Zpos m)) e)
  end.

(** *** Comparisons of values

    [a === b], [a >= b] and [a <= b] between values that are no strings, and
    [Math.floor(a / 2)]: the half of an integer is a double with at most one
    fractional bit, so the quotient is exact and its floor is the integer
    quotient rounded down. *)
Definition strict_eq_value (a b : Value) : bool :=
  match a, b with
  | Num NaN, _ | _, Num NaN => false
  | _, _ => bool_decide (a = b)
  end.

Definition ge (a b : Value) : bool := Number_leb (ToNumber b) (ToNumber a).

Definition le (a b : Value) : bool := Number_leb (ToNumber a) (ToNumber b).

Definition Math_floor_half (a : Value) : Number :=
  match ToNumber a with
  | Fin n => Fin (n / 2)
  | x => x
  end.

(** *** Arguments that are no view mode

    Truthiness, [===] between two arguments and the conversion a template
    literal applies, for a value that is a string or one of the scalars. *)
Definition truthy (a : Argument) : bool :=
  match a with
  | Str s => negb (String.eqb s "")
  | Other v => ToBoolean v
  end.

Definition strict_equals (a b : Argument) : bool :=
  match a, b with
  | Str s, Str t => String.eqb s t
  | Other (Num NaN), Other _ => false
  | Other _, Other (Num NaN) => false
  | Other v, Other w => bool_decide (v = w)
  | _, _ => false
  end.

Definition ToString_argument (a : Argument) : string :=
  match a with
  | Str s => s
  | Other v => ToString v
  end.

(** [a || b] on arguments. *)
Definition or_argument (a b : Argument) : Argument :=
  if truthy a then a else b.

(** What [s.toUpperCase()] and [s.charAt(0).toUpperCase() + s.slice(1)]
    give for a string [s] of ASCII characters, where only the letters [a]
    to [z] change.  On other strings the two methods follow the Unicode
    tables; the view that uses them takes them as parameters, and the
    examples, whose strings are ASCII, use these. *)
Definition toUpperCase_ascii (c : ascii) : ascii :=
  let n := nat_of_ascii c in
  if (97 <=? n)%nat && (n <=? 122)%nat then ascii_of_nat (n - 32) else c.

Fixpoint ascii_toUpperCase (s : string) : string :=
  match s with
  | EmptyString => EmptyString
  | String c s => String (toUpperCase_ascii c) (ascii_toUpperCase s)
  end.

Definition ascii_capitalize (s : string) : string :=
  match s with
  | EmptyString => EmptyString
  | String c s => String (toUpperCase_ascii c) s
  end.

(** SameValueZero, the equality of the keys of a [Map]: [===], but [NaN]
    is the same as [NaN]. *)
Definition same_value_zero (a b : Argument) : bool :=
  match a, b with
  | Str s, Str t => String.eqb s t
  | Other v, Other w => bool_decide (v = w)
  | _, _ => false
  end.

(** [map.set(key, value)] on a [Map] as the list of its entries in
    insertion order: an entry with the key keeps its place and takes the
    value, else the entry is added at the end. *)
Fixpoint Map_set {V : Type} (key : Argument) (value : V)
  (entries : list (Argument * V)) : list (Argument * V) :=
  match entries with
  | [] => [(key, value)]
  | (k, v) :: entries =>
      if same_value_zero k key then (k, value) :: entries
      else (k, v) :: Map_set key value entries
  end.

(** The conversion a template literal applies to a property that holds a
    string or is absent. *)
Definition ToString_property (x : option string) : string :=
  match x with
  | Some s => s
  | None => "undefined"
  end.

(** [array.includes(a)] for an array of strings. *)
Definition includes (array : list string) (a : Argument) : bool :=
  match a with
  | Str s => bool_decide (s ∈ array)
  | Other _ => false
  end.

(** *** Exceptions and the DOM

    A function that can throw returns a completion: the state it leaves
    behind, normally or at the point where the exception is thrown (here
    always a TypeError, a property read on [null]). *)
Inductive Completion (A : Type) : Type :=
| Normal (a : A)
| Throw (a : A).
Arguments Normal {A} a.
Arguments Throw {A} a.

(** The class lists of the elements of a document, by element; an element
    is named by its id.  [classList.add] and [classList.remove]. *)
Definition classList_add (element token : string)
  (classes : gmap string (gset string)) : gmap string (gset string) :=
  <[element := {[token]} ∪ classes !!! element]> classes.

Definition classList_remove (element token : string)
  (classes : gmap string (gset string)) : gmap string (gset string) :=
  <[element := classes !!! element ∖ {[token]}]> classes.

Definition classList_contains (element token : string)
  (classes : gmap string (gset string)) : bool :=
  bool_decide (token ∈ classes !!! element).

(** [document.getElementById]: the element, or [null]. *)
Definition getElementById (document : gset string) (id : string)
  : option string :=
  if bool_decide (id ∈ document) then Some id else None.

End Js.

Export Js(Number, Value, NaN, Fin, PosInf, NegInf, Undefined, Null, Bool, Num).
Export Js(Argument, Str, Other).
Export Js(Completion, Normal, Throw).
Export (coercions) Js.

Declare Scope js_scope.
Delimit Scope js_scope with js.
Notation "a || b" := (Js.or a b) : js_scope.
Notation "a + b" := (Js.add a b) : js_scope.
Notation "a - b" := (Js.sub a b) : js_scope.
Notation "a > b" := (Js.gt a b) : js_scope.
Notation "a === b" := (Js.strict_eq a b) (at level 70, no associativity)
  : js_scope.
Notation "0" := (Num (Fin 0)) : js_scope.
Notation "1" := (Num (Fin 1)) : js_scope.

(** Strings are sequences of bytes (UTF-8); the double quote and the line
    feed of the HTML templates are named. *)
Definition dq : string := String (ascii_of_nat 34) EmptyString.
Definition nl : string := String (ascii_of_nat 10) EmptyString.

(** ** Objects passed between the components

    A zone object as the API and the application state hold it: its [id],
    its scores and its [bounds] ([None] when it has none).  The bounds are
    four numbers: JSON text has no [NaN], and Leaflet's [L.rectangle] throws
    on a coordinate that is one.  The information a tap on the map hands to
    the application, built by [HeatmapView.handleZoneTap] and read by
    [ZoneInspector.show].  The outcome of a [fetch] of the zone list as the
    code distinguishes it: [Rejected] stands for everything that throws
    inside the [try] block ([fetch] rejects, the body is no JSON, or it is
    no array of objects), [NotOk] for a response whose [ok] is false, [Ok]
    for a response that decodes to an array of zone objects.  The points
    object of the API and of the application state: its date, its numeric
    properties and its list of actions ([None] when it has none). *)

Module Zone.
Record Bounds := {
  south : float;
  west : float;
  north : float;
  east : float;
  numbers :
    PrimFloat.is_nan south || PrimFloat.is_nan west
    || PrimFloat.is_nan north || PrimFloat.is_nan east = false
}.
Record t := {
  id : Argument;
  fields : gmap string Value;
  bounds : option Bounds
}.
End Zone.

Module ZoneInfo.
Record t := {
  zoneId : Argument;
  state : Argument;
  message : option string;
  mapType : Argument
}.
End ZoneInfo.

Module UserPoints.
Record t := {
  date : Argument;
  fields : gmap string Value;
  actions : option (list Argument)
}.
End UserPoints.

Module Fetch.
Inductive Response : Type :=
| Rejected
| NotOk
| Ok (zones : list Zone.t).
End Fetch.

(** ** [frontend/heatmapView.js] *)

Module HeatmapView.
Local Open Scope js_scope.

(** The constructor's constants. *)
Definition RECOVERED_THRESHOLD : Value := Fin 20.
Definition HEALING_THRESHOLD : Value := Fin (-20).

Definition stateColors : gmap string string :=
  {[ "needs_restoration" := "#F4D03F";
     "healing" := "#52BE80";
     "recovered" := "#5DADE2" ]}.

Definition stateMessages : gmap string string :=
  {[ "needs_restoration" := "This space needs care";
     "healing" := "This space is healing";
     "recovered" := "This space has recovered" ]}.

Definition calculateZoneId (lat lng : float) : string :=
  let ZONE_GRID_SIZE := 0.01%float in
  let latGrid := Js.Math_floor (lat / ZONE_GRID_SIZE) in
  let lngGrid := Js.Math_floor (lng / ZONE_GRID_SIZE) in
  "zone_" +:+ Js.ToString latGrid +:+ "_" +:+ Js.ToString lngGrid.

Definition calculateState (zone : gmap string Value) (mapType : Argument)
  : string :=
  let '(debt, restore) :=
    if mapType === "vape" then
      (zone !!! "vape_debt" || zone !!! "vapeDebt" || 0,
       zone !!! "vape_restore" || zone !!! "vapeRestore" || 0)
    else if mapType === "smoke" then
      (zone !!! "smoke_debt" || zone !!! "smokeDebt" || 0,
       zone !!! "smoke_restore" || zone !!! "smokeRestore" || 0)
    else if mapType === "all" then
      let vapeDebt := zone !!! "vape_debt" || zone !!! "vapeDebt" || 0 in
      let vapeRestore :=
        zone !!! "vape_restore" || zone !!! "vapeRestore" || 0 in
      let smokeDebt := zone !!! "smoke_debt" || zone !!! "smokeDebt" || 0 in
      let smokeRestore :=
        zone !!! "smoke_restore" || zone !!! "smokeRestore" || 0 in
      (Num (vapeDebt + smokeDebt), Num (vapeRestore + smokeRestore))
    else
      (zone !!! "vape_debt" || zone !!! "vapeDebt" || 0,
       zone !!! "vape_restore" || zone !!! "vapeRestore" || 0)
  in
  let netScore := restore - debt in
  if netScore > RECOVERED_THRESHOLD then "recovered"
  else if netScore > HEALING_THRESHOLD then "healing"
  else "needs_restoration".

(** [renderZone]: the overlay's colour, [this.stateColors[state]]. *)
Definition renderZone_color (zone : gmap string Value) (mapType : Argument)
  : option string :=
  let state := calculateState zone mapType in
  stateColors !! state.

(** [handleZoneTap]: the message handed to the tap callback. *)
Definition handleZoneTap_message (state : string) : option string :=
  stateMessages !! state.

(** [handleZoneTap]: the object handed to the callback [onZoneTap];
    [mapType] is [this.mapType] at the time of the tap. *)
Definition handleZoneTap (mapType : Argument) (zoneId : Argument)
  (state : string) : ZoneInfo.t :=
  let message := stateMessages !! state in
  {| ZoneInfo.zoneId := zoneId;
     ZoneInfo.state := Str state;
     ZoneInfo.message := message;
     ZoneInfo.mapType := mapType |}.

(** [getCurrentZones]: the zones of the application state, if there is an
    application and its state has zones, else the empty array. *)
Definition getCurrentZones (appZones : option (list Zone.t)) : list Zone.t :=
  match appZones with
  | Some zones => zones
  | None => []
  end.

(** The click handler [highlightUserZone] installs on the highlight of the
    user's zone, for the position [lat], [lng] it was called with. *)
Definition highlightUserZone_click (lat lng : float)
  (appZones : option (list Zone.t)) (mapType : Argument) : ZoneInfo.t :=
  let userZoneId := calculateZoneId lat lng in
  let zones := getCurrentZones appZones in
  match List.find (fun z => Js.strict_equals (Zone.id z) (Str userZoneId))
          zones with
  | Some zone =>
      let state := calculateState (Zone.fields zone) mapType in
      handleZoneTap mapType (Str userZoneId) state
  | None => handleZoneTap mapType (Str userZoneId) "needs_restoration"
  end.

(** *** The map as an object

    The part of the heat map that renders the zones.  The Leaflet map is
    not part of the state: [map] says whether [this.map] is set, a rectangle
    created by [L.rectangle] is the record of its arguments and of the
    values its click handler holds, with the number of rectangles created
    before it as its identity, and the calls [addTo] and [removeLayer] made
    on the map are collected in [leaflet].  [zoneOverlays] is the [Map] from
    zone identifiers to rectangles.  The buttons in the toggle container and
    the markup of the legend are the contents of the two containers ([None]
    without one); [querySelectorAll('.toggle-button')] selects the buttons
    whose class list holds that class. *)
Record Rectangle := {
  layer : nat;
  latLngs : (float * float) * (float * float);
  color : option string;
  fillColor : option string;
  fillOpacity : float;
  weight : Z;
  opacity : float;
  click_zoneId : Argument;
  click_state : string
}.

Inductive LeafletCall : Set :=
| addTo (layer : nat)
| removeLayer (layer : nat).

Record ToggleButton := {
  dataType : string;
  classList : gset string;
  ariaPressed : string
}.

Record t := {
  mapType : Argument;
  map : bool;
  zoneOverlays : list (Argument * Rectangle);
  rectangles : nat;
  leaflet : list LeafletCall;
  toggleContainer : option (list ToggleButton);
  legendContainer : option string
}.

(** [renderToggleControl] writes three buttons; the one of the map type is
    active and pressed. *)
Definition renderToggleControl (this : t) : t :=
  match toggleContainer this with
  | None => this
  | Some _ =>
      let button (type : string) :=
        {| dataType := type;
           classList :=
             if mapType this === type then {["toggle-button"; "active"]}
             else {["toggle-button"]};
           ariaPressed := if mapType this === type then "true" else "false" |}
      in
      {| mapType := mapType this;
         map := map this;
         zoneOverlays := zoneOverlays this;
         rectangles := rectangles this;
         leaflet := leaflet this;
         toggleContainer := Some [button "vape"; button "smoke"; button "all"];
         legendContainer := legendContainer this |}
  end.

Definition renderLegend (this : t) : t :=
  match legendContainer this with
  | None => this
  | Some _ =>
      let mapTypeLabel :=
        if mapType this === "vape" then "Vape"
        else if mapType this === "smoke" then "Smoke"
        else "Combined (Vape + Smoke)" in
      {| mapType := mapType this;
         map := map this;
         zoneOverlays := zoneOverlays this;
         rectangles := rectangles this;
         leaflet := leaflet this;
         toggleContainer := toggleContainer this;
         legendContainer :=
           Some
             (nl +:+
        "      <div class=" +:+ dq +:+ "map-legend" +:+ dq +:+ ">" +:+ nl +:+
        "        <h3 class=" +:+ dq +:+ "legend-title" +:+ dq +:+ ">" +:+
          mapTypeLabel +:+ " Restoration States</h3>" +:+ nl +:+
        "        <div class=" +:+ dq +:+ "legend-items" +:+ dq +:+ ">" +:+
          nl +:+
        "          <div class=" +:+ dq +:+ "legend-item" +:+ dq +:+ ">" +:+
          nl +:+
        "            <span class=" +:+ dq +:+ "legend-color" +:+ dq +:+
          " style=" +:+ dq +:+ "background-color: " +:+
          Js.ToString_property (stateColors !! "recovered") +:+ dq +:+
          "></span>" +:+ nl +:+
        "            <span class=" +:+ dq +:+ "legend-label" +:+ dq +:+
          ">Recovered</span>" +:+ nl +:+
        "          </div>" +:+ nl +:+
        "          <div class=" +:+ dq +:+ "legend-item" +:+ dq +:+ ">" +:+
          nl +:+
        "            <span class=" +:+ dq +:+ "legend-color" +:+ dq +:+
          " style=" +:+ dq +:+ "background-color: " +:+
          Js.ToString_property (stateColors !! "healing") +:+ dq +:+
          "></span>" +:+ nl +:+
        "            <span class=" +:+ dq +:+ "legend-label" +:+ dq +:+
          ">Healing</span>" +:+ nl +:+
        "          </div>" +:+ nl +:+
        "          <div class=" +:+ dq +:+ "legend-item" +:+ dq +:+ ">" +:+
          nl +:+
        "            <span class=" +:+ dq +:+ "legend-color" +:+ dq +:+
          " style=" +:+ dq +:+ "background-color: " +:+
          Js.ToString_property (stateColors !! "needs_restoration") +:+ dq +:+
          "></span>" +:+ nl +:+
        "            <span class=" +:+ dq +:+ "legend-label" +:+ dq +:+
          ">Needs Restoration</span>" +:+ nl +:+
        "          </div>" +:+ nl +:+
        "        </div>" +:+ nl +:+
        "      </div>" +:+ nl +:+
        "    ") |}
  end.

(** [clearZoneOverlays] removes every tracked rectangle from the map and
    empties the [Map]. *)
Definition clearZoneOverlays (this : t) : t :=
  {| mapType := mapType this;
     map := map this;
     zoneOverlays := [];
     rectangles := rectangles this;
     leaflet :=
       (leaflet this
        ++ if map this
           then List.map (fun entry => removeLayer (layer (snd entry)))
                  (zoneOverlays this)
           else [])%list;
     toggleContainer := toggleContainer this;
     legendContainer := legendContainer this |}.

Definition renderZone (zone : Zone.t) (mapType : Argument) (this : t) : t :=
  if negb (map this) then this
  else
    let state := calculateState (Zone.fields zone) mapType in
    let color := stateColors !! state in
    match Zone.bounds zone with
    | None => this
    | Some bounds =>
        let rectangle :=
          {| layer := rectangles this;
             latLngs :=
               ((Zone.south bounds, Zone.west bounds),
                (Zone.north bounds, Zone.east bounds));
             color := color;
             fillColor := color;
             fillOpacity := 0.5;
             weight := 2;
             opacity := 0.8;
             click_zoneId := Zone.id zone;
             click_state := state |} in
        {| HeatmapView.mapType := HeatmapView.mapType this;
           map := map this;
           zoneOverlays :=
             Js.Map_set (Zone.id zone) rectangle (zoneOverlays this);
           rectangles := S (rectangles this);
           leaflet := (leaflet this ++ [addTo (layer rectangle)])%list;
           toggleContainer := toggleContainer this;
           legendContainer := legendContainer this |}
    end.

Definition renderZones (zones : list Zone.t) (mapType : Argument) (this : t)
  : t :=
  if negb (map this) then this
  else
    let this := clearZoneOverlays this in
    fold_left (fun this zone => renderZone zone mapType this) zones this.

(** The click handler [renderZone] installs on a rectangle: the zone and
    the state are the ones of the time it was rendered, the map type is the
    one of the time of the click. *)
Definition rectangle_click (rectangle : Rectangle) (this : t) : ZoneInfo.t :=
  handleZoneTap (mapType this) (click_zoneId rectangle)
    (click_state rectangle).

(** The loop of [handleMapTypeToggle] over the buttons of the toggle
    container that have the class [toggle-button]. *)
Definition handleMapTypeToggle_forEach (type : Argument)
  (toggleButtons : list ToggleButton) : list ToggleButton :=
  List.map
    (fun button =>
       if negb (bool_decide ("toggle-button" ∈ classList button))
       then button
       else
         let buttonType := dataType button in
         if type === buttonType then
           {| dataType := dataType button;
              classList := {["active"]} ∪ classList button;
              ariaPressed := "true" |}
         else
           {| dataType := dataType button;
              classList := classList button ∖ {["active"]};
              ariaPressed := "false" |})
    toggleButtons.

(** [handleMapTypeToggle] is asynchronous.  Its first part runs when it is
    called, up to the [fetch]; it says whether the request was issued. *)
Definition handleMapTypeToggle_begin (type : Argument) (this : t)
  : t * bool :=
  if negb (type === "vape") && negb (type === "smoke")
     && negb (type === "all")
  then (this, false)
  else if Js.strict_equals type (mapType this) then (this, false)
  else
    let this :=
      {| mapType := type;
         map := map this;
         zoneOverlays := zoneOverlays this;
         rectangles := rectangles this;
         leaflet := leaflet this;
         toggleContainer :=
           match toggleContainer this with
           | None => None
           | Some toggleButtons =>
               Some (handleMapTypeToggle_forEach type toggleButtons)
           end;
         legendContainer := legendContainer this |} in
    (renderLegend this, true).

(** Its second part runs when the request has settled: the zones of the
    response, or the zones of the application state when there is none, are
    rendered, and the callback [onMapTypeToggle] is called with the type;
    the result is the map and the argument of the callback.  (A body that
    is no array makes the [try] block throw, at the latest when
    [renderZones] has cleared the overlays, and the [catch] block renders
    the zones of the application state: the outcome is the one of
    [Rejected].) *)
Definition handleMapTypeToggle_settled (type : Argument)
  (response : Fetch.Response) (appZones : option (list Zone.t)) (this : t)
  : t * Argument :=
  let this :=
    match response with
    | Fetch.Ok zones => renderZones zones type this
    | Fetch.NotOk =>
        let zones := getCurrentZones appZones in
        renderZones zones type this
    | Fetch.Rejected =>
        let zones := getCurrentZones appZones in
        renderZones zones type this
    end in
  (this, type).

Definition getMapType (this : t) : Argument := mapType this.

End HeatmapView.

(** ** [ActionsView.getUserLocation]

    The geolocation callback derives the user's zone from the position it
    receives, with its own copy of the grid computation. *)

Module ActionsView.
Local Open Scope js_scope.

Definition getUserLocation_currentZoneId (latitude longitude : float)
  : string :=
  let ZONE_GRID_SIZE := 0.01%float in
  let latGrid := Js.Math_floor (latitude / ZONE_GRID_SIZE) in
  let lngGrid := Js.Math_floor (longitude / ZONE_GRID_SIZE) in
  "zone_" +:+ Js.ToString latGrid +:+ "_" +:+ Js.ToString lngGrid.

(** *** The view as an object

    A suggested action as the API sends it and as the view keeps it, with
    the type the view adds.  The answer to a request for actions: [Rejected]
    stands for a [fetch] or a decoding that throws, [NotOk] for a response
    whose [ok] is false, [Ok] for a decoded body with its [suggestions]
    ([None] when that property is no array).  What the browser answers to
    [getCurrentPosition]. *)
Record Suggestion := {
  id : Argument;
  title : Argument;
  description : Argument;
  points : Argument;
  actionType : Argument
}.

Inductive Response : Type :=
| Rejected
| NotOk
| Ok (suggestions : option (list Suggestion)).

Inductive Geolocation : Type :=
| Unsupported
| Position (latitude longitude : float)
| PositionError.

(** The elements of the container that the view touches after [render]
    wrote its markup: the three type buttons and the three context buttons
    with their [data-type] and [data-context], the style of the context
    selector, the content of the list container, and the messages that were
    put before the content (class and text, the last one first; each is
    removed by a timer three seconds later). *)
Record Button := { data : string; classList : gset string }.

Record Content := {
  typeButtons : list Button;
  contextSelector_display : string;
  contextButtons : list Button;
  listContainer : string;
  messages : list (string * string)
}.

(** The view: its fields, the content of its container, and the URLs it
    has requested so far. *)
Record t := {
  containerId : string;
  container : option string;
  content : Content;
  currentLocation : option (float * float);
  currentZoneId : option string;
  suggestions : list Suggestion;
  selectedType : Argument;
  selectedContext : Argument;
  requests : list string
}.

Definition with_content (f : Content -> Content) (this : t) : t :=
  {| containerId := containerId this;
     container := container this;
     content := f (content this);
     currentLocation := currentLocation this;
     currentZoneId := currentZoneId this;
     suggestions := suggestions this;
     selectedType := selectedType this;
     selectedContext := selectedContext this;
     requests := requests this |}.

(** [new ActionsView(options)], for a container element with the given
    content; [selectedType] and [selectedContext] are not set yet. *)
Definition constructor (options_containerId : option string)
  (content : Content) : t :=
  {| containerId := Js.or_string options_containerId "actions-container";
     container := None;
     content := content;
     currentLocation := None;
     currentZoneId := None;
     suggestions := [];
     selectedType := Other Undefined;
     selectedContext := Other Undefined;
     requests := [] |}.

(** The content the markup of [render] stands for. *)
Definition rendered : Content :=
  {| typeButtons :=
       [ {| data := "vape"; classList := {["type-btn"]} |};
         {| data := "smoke"; classList := {["type-btn"]} |};
         {| data := "both"; classList := {["type-btn"]} |} ];
     contextSelector_display := "none";
     contextButtons :=
       [ {| data := "indoor"; classList := {["context-btn"]} |};
         {| data := "outdoor"; classList := {["context-btn"]} |};
         {| data := "any"; classList := {["context-btn"]} |} ];
     listContainer := "";
     messages := [] |}.

Definition render (this : t) : t :=
  match container this with
  | None => this
  | Some _ => with_content (fun _ => rendered) this
  end.

Definition init (document : gset string) (this : t) : t :=
  let this :=
    {| containerId := containerId this;
       container := Js.getElementById document (containerId this);
       content := content this;
       currentLocation := currentLocation this;
       currentZoneId := currentZoneId this;
       suggestions := suggestions this;
       selectedType := selectedType this;
       selectedContext := selectedContext this;
       requests := requests this |} in
  match container this with
  | None => this
  | Some _ => render this
  end.

(** The loop that marks the button whose attribute is the selection. *)
Definition select (selection : Argument) (buttons : list Button)
  : list Button :=
  List.map
    (fun btn =>
       if Js.strict_equals (Str (data btn)) selection
       then {| data := data btn;
               classList := {["selected"]} ∪ classList btn |}
       else {| data := data btn;
               classList := classList btn ∖ {["selected"]} |})
    buttons.

(** [handleTypeSelection]: without a container the first statement
    throws. *)
Definition handleTypeSelection (type : Argument) (this : t) : Completion t :=
  match container this with
  | None => Throw this
  | Some _ =>
      let this :=
        with_content
          (fun c =>
             {| typeButtons := select type (typeButtons c);
                contextSelector_display := "block";
                contextButtons := contextButtons c;
                listContainer := listContainer c;
                messages := messages c |})
          this in
      Normal
        {| containerId := containerId this;
           container := container this;
           content := content this;
           currentLocation := currentLocation this;
           currentZoneId := currentZoneId this;
           suggestions := suggestions this;
           selectedType := type;
           selectedContext := selectedContext this;
           requests := requests this |}
  end.

(** [getUserLocation]: the promise is rejected without geolocation and on
    an error of the browser. *)
Definition getUserLocation (answer : Geolocation) (this : t) : Completion t :=
  match answer with
  | Unsupported => Throw this
  | PositionError => Throw this
  | Position latitude longitude =>
      Normal
        {| containerId := containerId this;
           container := container this;
           content := content this;
           currentLocation := Some (latitude, longitude);
           currentZoneId :=
             Some (getUserLocation_currentZoneId latitude longitude);
           suggestions := suggestions this;
           selectedType := selectedType this;
           selectedContext := selectedContext this;
           requests := requests this |}
  end.

Definition prepend (className message : string) (this : t) : Completion t :=
  match container this with
  | None => Throw this
  | Some _ =>
      Normal
        (with_content
           (fun c =>
              {| typeButtons := typeButtons c;
                 contextSelector_display := contextSelector_display c;
                 contextButtons := contextButtons c;
                 listContainer := listContainer c;
                 messages := (className, message) :: messages c |})
           this)
  end.

Definition showSuccess (message : string) (this : t) : Completion t :=
  prepend "action-success-message" message this.

Definition showError (message : string) (this : t) : Completion t :=
  prepend "action-error-message" message this.

(** The two labels of a card are made with [String.prototype.toUpperCase],
    which follows the Unicode case tables.  The view takes the two
    operations as parameters: [toUpperCase s] is [s.toUpperCase()] and
    [capitalize s] is [s.charAt(0).toUpperCase() + s.slice(1)]. *)
Section StringMethods.
Variable toUpperCase : string -> string.
Variable capitalize : string -> string.

(** The markup of one action; [toUpperCase] and [charAt] are methods of
    strings only, so a type that is no string throws. *)
Definition renderActions_card (action : Suggestion) : option string :=
  match actionType action with
  | Other _ => None
  | Str actionType =>
      let typeLabel :=
        if String.eqb actionType "both" then "BOTH (Vape + Smoke)"
        else toUpperCase actionType in
      let buttonLabel :=
        if String.eqb actionType "both" then "Complete Both Action"
        else "Complete " +:+ capitalize actionType +:+ " Action" in
      Some
        (nl +:+
         "            <div class=" +:+ dq +:+ "action-card" +:+ dq +:+ ">" +:+ nl +:+
         "              <div class=" +:+ dq +:+ "action-header" +:+ dq +:+ ">" +:+
           nl +:+
         "                <h4>" +:+ Js.ToString_argument (title action) +:+ "</h4>" +:+
           nl +:+
         "                <span class=" +:+ dq +:+ "action-points" +:+ dq +:+ ">+" +:+
           Js.ToString_argument (points action) +:+ " pts</span>" +:+ nl +:+
         "              </div>" +:+ nl +:+
         "              <p class=" +:+ dq +:+ "action-description" +:+ dq +:+ ">" +:+
           Js.ToString_argument (description action) +:+ "</p>" +:+ nl +:+
         "              <div class=" +:+ dq +:+ "action-footer" +:+ dq +:+ ">" +:+
           nl +:+
         "                <span class=" +:+ dq +:+ "action-type-badge " +:+
           actionType +:+ dq +:+ ">" +:+ typeLabel +:+ "</span>" +:+ nl +:+
         "                <button class=" +:+ dq +:+
           "btn-primary complete-action-btn" +:+ dq +:+ " data-action-id=" +:+ dq +:+
           Js.ToString_argument (id action) +:+ dq +:+ " data-points=" +:+ dq +:+
           Js.ToString_argument (points action) +:+ dq +:+ " data-type=" +:+ dq +:+
           actionType +:+ dq +:+ ">" +:+ nl +:+
         "                  " +:+ buttonLabel +:+ nl +:+
         "                </button>" +:+ nl +:+
         "              </div>" +:+ nl +:+
         "            </div>" +:+ nl +:+
         "          ")
  end.

Fixpoint renderActions_cards (suggestions : list Suggestion)
  : option string :=
  match suggestions with
  | [] => Some ""
  | action :: suggestions =>
      match renderActions_card action, renderActions_cards suggestions with
      | Some card, Some cards => Some (card +:+ cards)
      | _, _ => None
      end
  end.

Definition renderActions_html (currentZoneId cards : string) : string :=
  nl +:+
  "      <div class=" +:+ dq +:+ "actions-list" +:+ dq +:+ ">" +:+ nl +:+
  "        <h3>Available Actions</h3>" +:+ nl +:+
  "        <p class=" +:+ dq +:+ "zone-info" +:+ dq +:+
    ">Helping zone: <strong>" +:+ currentZoneId +:+ "</strong></p>" +:+ nl +:+
  "        " +:+ cards +:+ nl +:+
  "      </div>" +:+ nl +:+
  "    ".

Definition renderActions (this : t) : Completion t :=
  match container this with
  | None => Throw this
  | Some _ =>
      let write (html : string) :=
        with_content
          (fun c =>
             {| typeButtons := typeButtons c;
                contextSelector_display := contextSelector_display c;
                contextButtons := contextButtons c;
                listContainer := html;
                messages := messages c |})
          this in
      if (length (suggestions this) =? 0)%nat then
        Normal
          (write
             ("<p class=" +:+ dq +:+ "no-actions" +:+ dq
              +:+ ">No actions available at this time.</p>"))
      else
        match renderActions_cards (suggestions this) with
        | None => Throw this
        | Some cards =>
            Normal
              (write
                 (renderActions_html
                    (match currentZoneId this with
                     | Some zone => zone
                     | None => "null"
                     end)
                    cards))
        end
  end.

(** The URL [loadActions] requests for a type. *)
Definition loadActions_url (currentZoneId : option string)
  (type context : Argument) : string :=
  "http://localhost:5000/api/zones/"
  +:+ match currentZoneId with
      | Some zone => zone
      | None => "null"
      end
  +:+ "/actions?type=" +:+ Js.ToString_argument type
  +:+ (if Js.truthy context
       then "&context=" +:+ Js.ToString_argument context
       else "").

(** The loop of [loadActions]: the requests made, and the suggestions
    collected, or nothing when a request or a body threw. *)
Fixpoint loadActions_loop (respond : string -> Response)
  (currentZoneId : option string) (selectedType context : Argument)
  (types : list Argument) (requests : list string)
  (allSuggestions : list Suggestion)
  : list string * option (list Suggestion) :=
  match types with
  | [] => (requests, Some allSuggestions)
  | type :: types =>
      let url := loadActions_url currentZoneId type context in
      let requests := (requests ++ [url])%list in
      match respond url with
      | Rejected => (requests, None)
      | NotOk =>
          loadActions_loop respond currentZoneId selectedType context types
            requests allSuggestions
      | Ok None => (requests, None)
      | Ok (Some suggestions) =>
          let actionType :=
            if selectedType === "both" then Str "both" else type in
          let allSuggestions :=
            (allSuggestions
             ++ List.map
                  (fun s =>
                     {| id := id s;
                        title := title s;
                        description := description s;
                        points := points s;
                        actionType := actionType |})
                  suggestions)%list in
          loadActions_loop respond currentZoneId selectedType context types
            requests allSuggestions
      end
  end.

(** [loadActions], with the answers of the server given by URL. *)
Definition loadActions (context : Argument) (respond : string -> Response)
  (this : t) : Completion t :=
  let this :=
    {| containerId := containerId this;
       container := container this;
       content := content this;
       currentLocation := currentLocation this;
       currentZoneId := currentZoneId this;
       suggestions := suggestions this;
       selectedType := selectedType this;
       selectedContext := context;
       requests := requests this |} in
  let types :=
    if selectedType this === "both" then [Str "vape"; Str "smoke"]
    else [selectedType this] in
  let '(requested, allSuggestions) :=
    loadActions_loop respond (currentZoneId this) (selectedType this)
      context types (requests this) [] in
  let this :=
    {| containerId := containerId this;
       container := container this;
       content := content this;
       currentLocation := currentLocation this;
       currentZoneId := currentZoneId this;
       suggestions := suggestions this;
       selectedType := selectedType this;
       selectedContext := selectedContext this;
       requests := requested |} in
  match allSuggestions with
  | None => showError "Failed to load actions. Please try again." this
  | Some allSuggestions =>
      let this :=
        {| containerId := containerId this;
           container := container this;
           content := content this;
           currentLocation := currentLocation this;
           currentZoneId := currentZoneId this;
           suggestions := allSuggestions;
           selectedType := selectedType this;
           selectedContext := selectedContext this;
           requests := requests this |} in
      match renderActions this with
      | Normal this => Normal this
      | Throw this =>
          showError "Failed to load actions. Please try again." this
      end
  end.

(** [handleContextSelection]: a rejected [getUserLocation] ends it before
    any action is loaded. *)
Definition handleContextSelection (context : Argument) (answer : Geolocation)
  (respond : string -> Response) (this : t) : Completion t :=
  match container this with
  | None => Throw this
  | Some _ =>
      let this :=
        with_content
          (fun c =>
             {| typeButtons := typeButtons c;
                contextSelector_display := contextSelector_display c;
                contextButtons := select context (contextButtons c);
                listContainer := listContainer c;
                messages := messages c |})
          this in
      match getUserLocation answer this with
      | Throw this => Throw this
      | Normal this =>
          loadActions (if context === "any" then Other Null else context)
            respond this
      end
  end.

Definition update (respond : string -> Response) (this : t) : Completion t :=
  if (0 <? length (suggestions this))%nat && Js.truthy (selectedContext this)
  then loadActions (selectedContext this) respond this
  else Normal this.

End StringMethods.

End ActionsView.

(** ** [frontend/bottomSheetManager.js] *)

Module ZoneInspector.
Local Open Scope js_scope.

Definition stateMessages : gmap string string :=
  {[ "needs_restoration" := "This space needs care";
     "healing" := "This space is healing";
     "recovered" := "This space has recovered" ]}.

Definition stateColors : gmap string string :=
  {[ "needs_restoration" := "#F4D03F";
     "healing" := "#52BE80";
     "recovered" := "#5DADE2" ]}.

Definition calculateState
  (zoneData : gmap string Value) (mapType : Argument) : string :=
  let RECOVERED_THRESHOLD : Value := Fin 20 in
  let HEALING_THRESHOLD : Value := Fin (-20) in
  let '(debt, restore) :=
    if mapType === "vape" then
      (zoneData !!! "vape_debt" || zoneData !!! "vapeDebt" || 0,
       zoneData !!! "vape_restore" || zoneData !!! "vapeRestore" || 0)
    else if mapType === "smoke" then
      (zoneData !!! "smoke_debt" || zoneData !!! "smokeDebt" || 0,
       zoneData !!! "smoke_restore" || zoneData !!! "smokeRestore" || 0)
    else if mapType === "all" then
      let vapeDebt :=
        zoneData !!! "vape_debt" || zoneData !!! "vapeDebt" || 0 in
      let vapeRestore :=
        zoneData !!! "vape_restore" || zoneData !!! "vapeRestore" || 0 in
      let smokeDebt :=
        zoneData !!! "smoke_debt" || zoneData !!! "smokeDebt" || 0 in
      let smokeRestore :=
        zoneData !!! "smoke_restore" || zoneData !!! "smokeRestore" || 0 in
      (Num (vapeDebt + smokeDebt), Num (vapeRestore + smokeRestore))
    else
      (zoneData !!! "vape_debt" || zoneData !!! "vapeDebt" || 0,
       zoneData !!! "vape_restore" || zoneData !!! "vapeRestore" || 0)
  in
  let netScore := restore - debt in
  if netScore > RECOVERED_THRESHOLD then "recovered"
  else if netScore > HEALING_THRESHOLD then "healing"
  else "needs_restoration".

(** [show], after the zone data has been fetched: the state is recomputed
    and its message and colour looked up, with a default for a state the
    tables do not have. *)
Definition show_message (zoneData : gmap string Value) (mapType : Argument)
  : string :=
  let actualState := calculateState zoneData mapType in
  Js.or_string (stateMessages !! actualState) "Zone information unavailable".

Definition show_stateColor
  (zoneData : gmap string Value) (mapType : Argument) : string :=
  let actualState := calculateState zoneData mapType in
  Js.or_string (stateColors !! actualState) "#B8C4D0".

(** The markup of one line of [calculateProgressInfo]: the template
    literals of the function repeat it with another icon, number and
    target state. *)
Definition progressItem (icon : string) (points : Value) (target : string)
  : string :=
  nl +:+
  "        <div class=" +:+ dq +:+ "progress-item" +:+ dq +:+ ">" +:+ nl +:+
  "          <span class=" +:+ dq +:+ "progress-icon" +:+ dq +:+ ">"
    +:+ icon +:+ "</span>" +:+ nl +:+
  "          <span class=" +:+ dq +:+ "progress-text" +:+ dq +:+ "><strong>"
    +:+ Js.ToString points
    +:+ "</strong> restoration points to reach <strong>" +:+ target
    +:+ "</strong></span>" +:+ nl +:+
  "        </div>".

Definition recoveredItem : string :=
  nl +:+
  "        <div class=" +:+ dq +:+ "progress-item recovered" +:+ dq +:+ ">"
    +:+ nl +:+
  "          <span class=" +:+ dq +:+ "progress-icon" +:+ dq +:+ ">🎉</span>"
    +:+ nl +:+
  "          <span class=" +:+ dq +:+ "progress-text" +:+ dq
    +:+ ">This zone has fully recovered! Keep up the great work.</span>"
    +:+ nl +:+
  "        </div>".

Definition scoreInfo (netScore restore debt : Value) : string :=
  nl +:+
  "      <div class=" +:+ dq +:+ "zone-score-info" +:+ dq +:+ ">" +:+ nl +:+
  "        <small>Current net score: <strong>" +:+ Js.ToString netScore
    +:+ "</strong> (" +:+ Js.ToString restore +:+ " restore - "
    +:+ Js.ToString debt +:+ " debt)</small>" +:+ nl +:+
  "      </div>" +:+ nl +:+
  "    ".

(** The function returns markup; the console logging is left out. *)
Definition calculateProgressInfo
  (zoneData : gmap string Value) (mapType currentState : Argument) : string :=
  let RECOVERED_THRESHOLD : Value := Fin 20 in
  let HEALING_THRESHOLD : Value := Fin (-20) in
  let '(debt, restore) :=
    if mapType === "vape" then
      (zoneData !!! "vape_debt" || zoneData !!! "vapeDebt" || 0,
       zoneData !!! "vape_restore" || zoneData !!! "vapeRestore" || 0)
    else if mapType === "smoke" then
      (zoneData !!! "smoke_debt" || zoneData !!! "smokeDebt" || 0,
       zoneData !!! "smoke_restore" || zoneData !!! "smokeRestore" || 0)
    else if mapType === "all" then
      let vapeDebt :=
        zoneData !!! "vape_debt" || zoneData !!! "vapeDebt" || 0 in
      let vapeRestore :=
        zoneData !!! "vape_restore" || zoneData !!! "vapeRestore" || 0 in
      let smokeDebt :=
        zoneData !!! "smoke_debt" || zoneData !!! "smokeDebt" || 0 in
      let smokeRestore :=
        zoneData !!! "smoke_restore" || zoneData !!! "smokeRestore" || 0 in
      (Num (vapeDebt + smokeDebt), Num (vapeRestore + smokeRestore))
    else
      (zoneData !!! "vape_debt" || zoneData !!! "vapeDebt" || 0,
       zoneData !!! "vape_restore" || zoneData !!! "vapeRestore" || 0)
  in
  let netScore := restore - debt in
  let progressHTML :=
    "<div class=" +:+ dq +:+ "zone-progress-info" +:+ dq +:+ ">" in
  let progressHTML :=
    if currentState === "needs_restoration" then
      let pointsToHealing :=
        Js.Math_max 0 (HEALING_THRESHOLD - netScore + 1) in
      let pointsToRecovered :=
        Js.Math_max 0 (RECOVERED_THRESHOLD - netScore + 1) in
      progressHTML
        +:+ progressItem "🌱" pointsToHealing "Healing"
        +:+ progressItem "✨" pointsToRecovered "Recovered"
        +:+ nl +:+ "      "
    else if currentState === "healing" then
      let pointsToRecovered :=
        Js.Math_max 0 (RECOVERED_THRESHOLD - netScore + 1) in
      progressHTML
        +:+ progressItem "✨" pointsToRecovered "Recovered"
        +:+ nl +:+ "      "
    else if currentState === "recovered" then
      progressHTML +:+ recoveredItem +:+ nl +:+ "      "
    else progressHTML
  in
  let progressHTML := progressHTML +:+ scoreInfo netScore restore debt in
  progressHTML +:+ "</div>".

(** *** The inspector as an object

    The fields of the inspector, with the part of the document it touches:
    the class list, the inline [display] style and the content of its
    container element.  The listeners [attachEventListeners] registers are
    not part of the state; what they call is [handleClose]. *)
Record t := {
  containerId : string;
  container : option string;
  currentZone : option ZoneInfo.t;
  classList : gset string;
  display : string;
  innerHTML : string
}.

(** [new ZoneInspector(options)], for a container element with the given
    class list, style and content. *)
Definition constructor (options_containerId : option string)
  (classList : gset string) (display innerHTML : string) : t :=
  {| containerId :=
       Js.or_string options_containerId "zone-inspector-container";
     container := None;
     currentZone := None;
     classList := classList;
     display := display;
     innerHTML := innerHTML |}.

Definition hide (this : t) : t :=
  match container this with
  | None => this
  | Some _ =>
      {| containerId := containerId this;
         container := container this;
         currentZone := None;
         classList := {["hidden"]} ∪ classList this;
         display := "none";
         innerHTML := innerHTML this |}
  end.

Definition init (document : gset string) (this : t) : t :=
  let this :=
    {| containerId := containerId this;
       container := Js.getElementById document (containerId this);
       currentZone := currentZone this;
       classList := classList this;
       display := display this;
       innerHTML := innerHTML this |} in
  match container this with
  | None => this
  | Some _ => hide this
  end.

(** The template literal of [render]. *)
Definition render_html (message zoneId : string) : string :=
  nl +:+
  "      <div class=" +:+ dq +:+ "zone-inspector" +:+ dq +:+ ">" +:+ nl +:+
  "        <div class=" +:+ dq +:+ "zone-state-message" +:+ dq +:+ ">"
    +:+ message +:+ "</div>" +:+ nl +:+
  "        <div class=" +:+ dq +:+ "zone-details" +:+ dq +:+ ">" +:+ nl +:+
  "          <p>Zone: " +:+ zoneId +:+ "</p>" +:+ nl +:+
  "        </div>" +:+ nl +:+
  "      </div>" +:+ nl +:+
  "    ".

(** [render]: reading [zoneId] of a [currentZone] that is [null] throws. *)
Definition render (message stateColor state : string) (zoneData : Zone.t)
  (this : t) : Completion t :=
  match container this with
  | None => Normal this
  | Some _ =>
      match currentZone this with
      | None => Throw this
      | Some zone =>
          Normal
            {| containerId := containerId this;
               container := container this;
               currentZone := currentZone this;
               classList := classList this;
               display := display this;
               innerHTML :=
                 render_html message
                   (Js.ToString_argument (ZoneInfo.zoneId zone)) |}
      end
  end.

(** The data [show] uses for a zone the list does not have. *)
Definition defaultZoneData (zoneInfo : ZoneInfo.t) : Zone.t :=
  {| Zone.id := ZoneInfo.zoneId zoneInfo;
     Zone.fields :=
       {[ "vape_debt" := 0; "vape_restore" := 0;
          "smoke_debt" := 0; "smoke_restore" := 0 ]};
     Zone.bounds := None |}.

(** [show] is asynchronous.  Its first part runs when it is called, up to
    the [fetch]: it returns the object the request was issued for, or
    nothing when it returned before.  [zoneInfo] is [None] for a falsy
    argument. *)
Definition show_begin (zoneInfo : option ZoneInfo.t) (this : t)
  : t * option ZoneInfo.t :=
  match container this with
  | None => (this, None)
  | Some _ =>
      match zoneInfo with
      | None => (this, None)
      | Some zoneInfo =>
          if negb (Js.truthy (ZoneInfo.state zoneInfo)) then (this, None)
          else
            ({| containerId := containerId this;
                container := container this;
                currentZone := Some zoneInfo;
                classList := classList this;
                display := display this;
                innerHTML := innerHTML this |},
             Some zoneInfo)
      end
  end.

(** Its second part runs when the request has settled, on the inspector as
    it is then.  A response that is not OK leaves [zoneData] [null], and
    [calculateState] throws when it reads a property of it. *)
Definition show_resume (zoneInfo : ZoneInfo.t) (response : Fetch.Response)
  (this : t) : Completion t :=
  let zoneData : option Zone.t :=
    match response with
    | Fetch.Ok zones =>
        match List.find
                (fun z => Js.strict_equals (Zone.id z)
                            (ZoneInfo.zoneId zoneInfo)) zones with
        | Some zoneData => Some zoneData
        | None => Some (defaultZoneData zoneInfo)
        end
    | Fetch.NotOk => None
    | Fetch.Rejected => Some (defaultZoneData zoneInfo)
    end in
  match zoneData with
  | None => Throw this
  | Some zoneData =>
      let actualState :=
        calculateState (Zone.fields zoneData) (ZoneInfo.mapType zoneInfo) in
      let message :=
        show_message (Zone.fields zoneData) (ZoneInfo.mapType zoneInfo) in
      let stateColor :=
        show_stateColor (Zone.fields zoneData) (ZoneInfo.mapType zoneInfo) in
      match render message stateColor actualState zoneData this with
      | Throw this => Throw this
      | Normal this =>
          match container this with
          | None => Throw this
          | Some _ =>
              Normal
                {| containerId := containerId this;
                   container := container this;
                   currentZone := currentZone this;
                   classList := classList this ∖ {["hidden"]};
                   display := "block";
                   innerHTML := innerHTML this |}
          end
      end
  end.

(** [show] when nothing else happens while the request is pending. *)
Definition show (zoneInfo : option ZoneInfo.t) (response : Fetch.Response)
  (this : t) : Completion t :=
  match show_begin zoneInfo this with
  | (this, None) => Normal this
  | (this, Some zoneInfo) => show_resume zoneInfo response this
  end.

(** [handleClose]: the callback [onClose] acts on the rest of the page, of
    some type [W], and may throw. *)
Definition handleClose {W : Type}
  (onClose : option ZoneInfo.t -> W -> Completion W) (this : t) (w : W)
  : t * Completion W :=
  let this := hide this in
  (this, onClose (currentZone this) w).

Definition isVisible (this : t) : bool :=
  match container this with
  | None => false
  | Some _ =>
      negb (bool_decide ("hidden" ∈ classList this))
      && negb (String.eqb (display this) "none")
  end.

Definition getCurrentZone (this : t) : option ZoneInfo.t := currentZone this.

Definition destroy (this : t) : t :=
  {| containerId := containerId this;
     container := container this;
     currentZone := None;
     classList := classList this;
     display := display this;
     innerHTML :=
       match container this with
       | None => innerHTML this
       | Some _ => ""
       end |}.

End ZoneInspector.

(** ** [BottomSheetManager], in [frontend/bottomSheetManager.js]

    The manager holds the overlay element, the current sheet and the map of
    registered sheets; it shows and hides elements through the class
    [hidden].  The state below is the manager together with the class lists
    of the document and a count of the calls to [window.pointsSummary.update]
    ([hasPointsSummary] says whether that global exists). *)

Module BottomSheetManager.

Record State := {
  overlay : option string;
  currentSheet : option string;
  sheets : gmap string string;
  classes : gmap string (gset string);
  hasPointsSummary : bool;
  pointsSummaryUpdates : nat
}.

(** [new BottomSheetManager()], in a document with the given class lists. *)
Definition constructor (classes : gmap string (gset string))
  (hasPointsSummary : bool) : State :=
  {| overlay := None; currentSheet := None; sheets := ∅;
     classes := classes; hasPointsSummary := hasPointsSummary;
     pointsSummaryUpdates := 0 |}.

Definition with_classes (f : gmap string (gset string)
                             -> gmap string (gset string)) (st : State)
  : State :=
  {| overlay := overlay st; currentSheet := currentSheet st;
     sheets := sheets st; classes := f (classes st);
     hasPointsSummary := hasPointsSummary st;
     pointsSummaryUpdates := pointsSummaryUpdates st |}.

Definition with_currentSheet (sheet : option string) (st : State) : State :=
  {| overlay := overlay st; currentSheet := sheet;
     sheets := sheets st; classes := classes st;
     hasPointsSummary := hasPointsSummary st;
     pointsSummaryUpdates := pointsSummaryUpdates st |}.

Definition registerSheet (id : string) (element : option string)
  (st : State) : State :=
  match element with
  | Some e =>
      {| overlay := overlay st; currentSheet := currentSheet st;
         sheets := <[id := e]> (sheets st); classes := classes st;
         hasPointsSummary := hasPointsSummary st;
         pointsSummaryUpdates := pointsSummaryUpdates st |}
  | None => st
  end.

(** [init], up to the listeners it attaches: those are [overlayClick],
    [closeAll] and [open "points"] below. *)
Definition init (document : gset string) (st : State) : State :=
  match Js.getElementById document "bottom-sheet-overlay" with
  | None => st
  | Some o =>
      let st :=
        {| overlay := Some o; currentSheet := currentSheet st;
           sheets := sheets st; classes := classes st;
           hasPointsSummary := hasPointsSummary st;
           pointsSummaryUpdates := pointsSummaryUpdates st |} in
      let st :=
        registerSheet "points" (Js.getElementById document "points-panel") st in
      let st :=
        registerSheet "zone"
          (Js.getElementById document "zone-inspector-panel") st in
      registerSheet "actions" (Js.getElementById document "actions-panel") st
  end.

Definition triggerUpdate (sheetId : string) (st : State) : State :=
  if (String.eqb sheetId "points" && hasPointsSummary st)%bool then
    {| overlay := overlay st; currentSheet := currentSheet st;
       sheets := sheets st; classes := classes st;
       hasPointsSummary := hasPointsSummary st;
       pointsSummaryUpdates := S (pointsSummaryUpdates st) |}
  else st.

Definition open (sheetId : string) (st : State) : Completion State :=
  match sheets st !! sheetId with
  | None => Normal st
  | Some sheet =>
      let st :=
        match currentSheet st with
        | Some current => with_classes (Js.classList_add current "hidden") st
        | None => st
        end in
      match overlay st with
      | None => Throw st
      | Some o =>
          let st := with_classes (Js.classList_remove o "hidden") st in
          let st := with_classes (Js.classList_remove sheet "hidden") st in
          let st := with_currentSheet (Some sheet) st in
          Normal (triggerUpdate sheetId st)
      end
  end.

Definition closeAll (st : State) : Completion State :=
  let st :=
    match currentSheet st with
    | Some current =>
        with_currentSheet None
          (with_classes (Js.classList_add current "hidden") st)
    | None => st
    end in
  match overlay st with
  | None => Throw st
  | Some o => Normal (with_classes (Js.classList_add o "hidden") st)
  end.

(** The overlay's click listener: only a click on the overlay itself, not on
    a sheet inside it, closes. *)
Definition overlayClick (target : string) (st : State) : Completion State :=
  if bool_decide (Some target = overlay st) then closeAll st else Normal st.

Definition isOpen (st : State) : bool :=
  match currentSheet st with
  | Some _ => true
  | None => false
  end.

End BottomSheetManager.

(** ** [PointsSummary], in [frontend/pointsSummary.js] *)

Module PointsSummary.
Local Open Scope js_scope.

Record t := {
  containerId : string;
  container : option string;
  innerHTML : string
}.

(** [new PointsSummary(config)], for a container element with the given
    content. *)
Definition constructor (config_containerId innerHTML : string) : t :=
  {| containerId := config_containerId;
     container := None;
     innerHTML := innerHTML |}.

Definition getSummaryMessage (totalPoints actionsCompleted : Value)
  : string :=
  if Js.strict_eq_value totalPoints 0 then
    "Ready to help the air heal today?"
  else if Js.ge totalPoints 1 && Js.le totalPoints (Fin 20) then
    "Small actions add up—nice work."
  else if Js.ge totalPoints (Fin 21) && Js.le totalPoints (Fin 50) then
    let spacesHelped : Value :=
      Num (Js.Math_max 1 (Num (Js.Math_floor_half actionsCompleted))) in
    "You helped " +:+ Js.ToString spacesHelped +:+ " "
      +:+ (if Js.strict_eq_value spacesHelped 1 then "space" else "spaces")
      +:+ " start healing today."
  else
    "Amazing effort! The community feels your impact.".

Definition renderBreakdown (vapePoints smokePoints totalPoints : Value)
  : string :=
  if Js.strict_eq_value totalPoints 0 then ""
  else
    nl +:+
    "      <div class=" +:+ dq +:+ "points-breakdown" +:+ dq +:+ ">" +:+ nl +:+
    "        <h3>Breakdown</h3>" +:+ nl +:+
    "        <div class=" +:+ dq +:+ "breakdown-items" +:+ dq +:+ ">" +:+ nl +:+
    "          <div class=" +:+ dq +:+ "breakdown-item" +:+ dq +:+ ">" +:+
      nl +:+
    "            <span class=" +:+ dq +:+ "breakdown-label" +:+ dq +:+
      ">Vape Restoration</span>" +:+ nl +:+
    "            <span class=" +:+ dq +:+ "breakdown-value" +:+ dq +:+ ">" +:+
      Js.ToString vapePoints +:+ " pts</span>" +:+ nl +:+
    "          </div>" +:+ nl +:+
    "          <div class=" +:+ dq +:+ "breakdown-item" +:+ dq +:+ ">" +:+
      nl +:+
    "            <span class=" +:+ dq +:+ "breakdown-label" +:+ dq +:+
      ">Smoke Restoration</span>" +:+ nl +:+
    "            <span class=" +:+ dq +:+ "breakdown-value" +:+ dq +:+ ">" +:+
      Js.ToString smokePoints +:+ " pts</span>" +:+ nl +:+
    "          </div>" +:+ nl +:+
    "        </div>" +:+ nl +:+
    "      </div>" +:+ nl +:+
    "    ".

(** [render], for the points of the application state ([None] when there is
    no application or it has no points). *)
Definition render (userPoints : option UserPoints.t) (this : t) : t :=
  match container this with
  | None => this
  | Some _ =>
      let read (camel snake : string) : Value :=
        match userPoints with
        | Some userPoints =>
            UserPoints.fields userPoints !!! camel
            || UserPoints.fields userPoints !!! snake || 0
        | None => 0
        end in
      let totalPoints := read "totalPoints" "total_points" in
      let actionsCompleted := read "actionsCompleted" "actions_completed" in
      let vapePoints := read "vapePoints" "vape_points" in
      let smokePoints := read "smokePoints" "smoke_points" in
      let summaryMessage := getSummaryMessage totalPoints actionsCompleted in
      let html :=
        nl +:+
        "      <div class=" +:+ dq +:+ "points-summary" +:+ dq +:+ ">" +:+ nl +:+
        "        <div class=" +:+ dq +:+ "points-header" +:+ dq +:+ ">" +:+ nl +:+
        "          <h2>My Points</h2>" +:+ nl +:+
        "          <p class=" +:+ dq +:+ "points-date" +:+ dq +:+ ">Today</p>" +:+
          nl +:+
        "        </div>" +:+ nl +:+
        nl +:+
        "        <div class=" +:+ dq +:+ "points-main" +:+ dq +:+ ">" +:+ nl +:+
        "          <div class=" +:+ dq +:+ "points-total" +:+ dq +:+ ">" +:+ nl +:+
        "            <div class=" +:+ dq +:+ "points-number" +:+ dq +:+ ">" +:+
          Js.ToString totalPoints +:+ "</div>" +:+ nl +:+
        "            <div class=" +:+ dq +:+ "points-label" +:+ dq +:+
          ">Clean Air Points</div>" +:+ nl +:+
        "          </div>" +:+ nl +:+
        nl +:+
        "          <div class=" +:+ dq +:+ "actions-count" +:+ dq +:+ ">" +:+ nl +:+
        "            <div class=" +:+ dq +:+ "actions-number" +:+ dq +:+ ">" +:+
          Js.ToString actionsCompleted +:+ "</div>" +:+ nl +:+
        "            <div class=" +:+ dq +:+ "actions-label" +:+ dq +:+ ">" +:+
          (if Js.strict_eq_value actionsCompleted 1 then "Action" else "Actions") +:+
          " Completed</div>" +:+ nl +:+
        "          </div>" +:+ nl +:+
        "        </div>" +:+ nl +:+
        nl +:+
        "        " +:+ renderBreakdown vapePoints smokePoints totalPoints +:+ nl +:+
        nl +:+
        "        <div class=" +:+ dq +:+ "points-summary-message" +:+ dq +:+ ">" +:+
          nl +:+
        "          <p>" +:+ summaryMessage +:+ "</p>" +:+ nl +:+
        "        </div>" +:+ nl +:+
        "      </div>" +:+ nl +:+
        "    " in
      {| containerId := containerId this;
         container := container this;
         innerHTML := html |}
  end.

Definition update (userPoints : option UserPoints.t) (this : t) : t :=
  render userPoints this.

Definition init (document : gset string) (userPoints : option UserPoints.t)
  (this : t) : t :=
  let this :=
    {| containerId := containerId this;
       container := Js.getElementById document (containerId this);
       innerHTML := innerHTML this |} in
  match container this with
  | None => this
  | Some _ => render userPoints this
  end.

Definition destroy (this : t) : t :=
  match container this with
  | Some _ =>
      {| containerId := containerId this;
         container := container this;
         innerHTML := "" |}
  | None => this
  end.

End PointsSummary.

(** ** [NavigationBar], in [unnamed/part_000]

    The bar and the buttons it created in its container: for each button its
    attributes, its two spans and its class list. *)

Module NavigationBar.
Local Open Scope js_scope.

Record Item := { id : string; icon : string; label : string }.

Record Button := {
  dataView : string;
  ariaLabel : string;
  iconSpan : string;
  labelSpan : string;
  classList : gset string;
  ariaCurrent : option string
}.

Record t := {
  containerId : string;
  currentView : Argument;
  container : option string;
  buttons : list Button
}.

Definition navItems : list Item :=
  [ {| id := "report"; icon := "📝"; label := "Report" |};
    {| id := "actions"; icon := "✨"; label := "Actions" |};
    {| id := "heatmap"; icon := "🗺️"; label := "Heatmap" |};
    {| id := "community"; icon := "👥"; label := "Community" |};
    {| id := "mypoints"; icon := "⭐"; label := "My Points" |} ].

(** [new NavigationBar(options)]; an option that is absent is [undefined]. *)
Definition constructor (options_containerId : option string)
  (options_currentView : Argument) : t :=
  {| containerId := Js.or_string options_containerId "navigation-bar";
     currentView := Js.or_argument options_currentView (Str "report");
     container := None;
     buttons := [] |}.

Definition createNavItem (item : Item) : Button :=
  {| dataView := id item;
     ariaLabel := "Navigate to " +:+ label item;
     iconSpan := icon item;
     labelSpan := label item;
     classList := {["nav-item"]};
     ariaCurrent := None |}.

Definition highlightActiveView (view : Argument) (this : t) : t :=
  match container this with
  | None => this
  | Some _ =>
      {| containerId := containerId this;
         currentView := currentView this;
         container := container this;
         buttons :=
           List.map
             (fun button =>
                let buttonView := dataView button in
                if view === buttonView then
                  {| dataView := dataView button;
                     ariaLabel := ariaLabel button;
                     iconSpan := iconSpan button;
                     labelSpan := labelSpan button;
                     classList := {["active"]} ∪ classList button;
                     ariaCurrent := Some "page" |}
                else
                  {| dataView := dataView button;
                     ariaLabel := ariaLabel button;
                     iconSpan := iconSpan button;
                     labelSpan := labelSpan button;
                     classList := classList button ∖ {["active"]};
                     ariaCurrent := None |})
             (buttons this) |}
  end.

Definition render (this : t) : t :=
  match container this with
  | None => this
  | Some _ =>
      let this :=
        {| containerId := containerId this;
           currentView := currentView this;
           container := container this;
           buttons := List.map createNavItem navItems |} in
      highlightActiveView (currentView this) this
  end.

(** [init], up to the listeners it attaches: those call [click]. *)
Definition init (document : gset string) (this : t) : t :=
  let this :=
    {| containerId := containerId this;
       currentView := currentView this;
       container := Js.getElementById document (containerId this);
       buttons := buttons this |} in
  match container this with
  | None => this
  | Some _ => render this
  end.

Definition validViews : list string :=
  ["report"; "actions"; "heatmap"; "community"; "mypoints"].

(** [handleViewChange]: the bar after the call, and the argument of the
    callback [onViewChange] when it is called. *)
Definition handleViewChange (view : Argument) (this : t)
  : t * option Argument :=
  if negb (Js.includes validViews view) then (this, None)
  else if Js.strict_equals view (currentView this) then (this, None)
  else
    let this :=
      {| containerId := containerId this;
         currentView := view;
         container := container this;
         buttons := buttons this |} in
    let this := highlightActiveView view this in
    (this, Some view).

(** The click listener of a button (and its keydown listener for Enter and
    Space). *)
Definition click (button : Button) (this : t) : t * option Argument :=
  let view := dataView button in
  if negb (String.eqb view "") then handleViewChange (Str view) this
  else (this, None).

Definition setCurrentView (view : Argument) (this : t) : t :=
  if negb (Js.includes validViews view) then this
  else
    let this :=
      {| containerId := containerId this;
         currentView := view;
         container := container this;
         buttons := buttons this |} in
    highlightActiveView view this.

Definition getCurrentView (this : t) : Argument := currentView this.

End NavigationBar.

(** ** The application, in [unnamed/part_002]

    The part of the application state and of the page that the view, the map
    type and the zone selection pass through.  What the functions do to
    local storage and to the other components is recorded as the sequence of
    calls they make. *)

Module App.
Local Open Scope js_scope.

Inductive Call : Set :=
| saveStateToStorage
| reportFlow_update
| setTimeout_heatmapView_update
| eventList_update
| eventForm_update.

Record t := {
  currentView : Argument;
  currentMapType : Argument;
  selectedZone : option Argument;
  userPoints : option UserPoints.t;
  document : gset string;
  classes : gmap string (gset string);
  navItems : list NavigationBar.Button;
  navigationBar : option NavigationBar.t;
  reportFlow : bool;
  heatmapView : bool;
  eventList : bool;
  eventForm : bool;
  zoneInspector : option ZoneInspector.t;
  bottomSheetManager : option BottomSheetManager.State;
  calls : list Call
}.

Definition call (c : Call) (app : t) : t :=
  {| currentView := currentView app;
     currentMapType := currentMapType app;
     selectedZone := selectedZone app;
     userPoints := userPoints app;
     document := document app;
     classes := classes app;
     navItems := navItems app;
     navigationBar := navigationBar app;
     reportFlow := reportFlow app;
     heatmapView := heatmapView app;
     eventList := eventList app;
     eventForm := eventForm app;
     zoneInspector := zoneInspector app;
     bottomSheetManager := bottomSheetManager app;
     calls := calls app ++ [c] |}.

Definition with_classes
  (f : gmap string (gset string) -> gmap string (gset string)) (app : t)
  : t :=
  {| currentView := currentView app;
     currentMapType := currentMapType app;
     selectedZone := selectedZone app;
     userPoints := userPoints app;
     document := document app;
     classes := f (classes app);
     navItems := navItems app;
     navigationBar := navigationBar app;
     reportFlow := reportFlow app;
     heatmapView := heatmapView app;
     eventList := eventList app;
     eventForm := eventForm app;
     zoneInspector := zoneInspector app;
     bottomSheetManager := bottomSheetManager app;
     calls := calls app |}.

Definition with_navigation (navItems : list NavigationBar.Button)
  (navigationBar : option NavigationBar.t) (app : t) : t :=
  {| currentView := currentView app;
     currentMapType := currentMapType app;
     selectedZone := selectedZone app;
     userPoints := userPoints app;
     document := document app;
     classes := classes app;
     navItems := navItems;
     navigationBar := navigationBar;
     reportFlow := reportFlow app;
     heatmapView := heatmapView app;
     eventList := eventList app;
     eventForm := eventForm app;
     zoneInspector := zoneInspector app;
     bottomSheetManager := bottomSheetManager app;
     calls := calls app |}.

Definition with_sheets (zoneInspector : option ZoneInspector.t)
  (bottomSheetManager : option BottomSheetManager.State) (app : t) : t :=
  {| currentView := currentView app;
     currentMapType := currentMapType app;
     selectedZone := selectedZone app;
     userPoints := userPoints app;
     document := document app;
     classes := classes app;
     navItems := navItems app;
     navigationBar := navigationBar app;
     reportFlow := reportFlow app;
     heatmapView := heatmapView app;
     eventList := eventList app;
     eventForm := eventForm app;
     zoneInspector := zoneInspector;
     bottomSheetManager := bottomSheetManager;
     calls := calls app |}.

(** [updateNavigationHighlight]: through the component if there is one,
    else on the elements of class [nav-item] of the page. *)
Definition updateNavigationHighlight (app : t) : t :=
  match navigationBar app with
  | Some bar =>
      with_navigation (navItems app)
        (Some (NavigationBar.setCurrentView (currentView app) bar)) app
  | None =>
      with_navigation
        (List.map
           (fun item =>
              let view := NavigationBar.dataView item in
              {| NavigationBar.dataView := NavigationBar.dataView item;
                 NavigationBar.ariaLabel := NavigationBar.ariaLabel item;
                 NavigationBar.iconSpan := NavigationBar.iconSpan item;
                 NavigationBar.labelSpan := NavigationBar.labelSpan item;
                 NavigationBar.classList :=
                   if currentView app === view
                   then {["active"]} ∪ NavigationBar.classList item
                   else NavigationBar.classList item ∖ {["active"]};
                 NavigationBar.ariaCurrent :=
                   NavigationBar.ariaCurrent item |})
           (navItems app))
        None app
  end.

Definition renderCurrentView (app : t) : t :=
  let views := ["report"; "map"; "community"] in
  let app :=
    fold_left
      (fun app view =>
         match Js.getElementById (document app) (view +:+ "-view") with
         | Some element =>
             with_classes (Js.classList_remove element "active") app
         | None => app
         end)
      views app in
  let app :=
    match Js.getElementById (document app)
            (Js.ToString_argument (currentView app) +:+ "-view") with
    | Some currentElement =>
        with_classes (Js.classList_add currentElement "active") app
    | None => app
    end in
  let app :=
    if (currentView app === "report") && reportFlow app
    then call reportFlow_update app else app in
  let app :=
    if (currentView app === "map") && heatmapView app
    then call setTimeout_heatmapView_update app else app in
  let app :=
    if currentView app === "community" then
      let app := if eventList app then call eventList_update app else app in
      if eventForm app then call eventForm_update app else app
    else app in
  updateNavigationHighlight app.

Definition updateView (view : Argument) (app : t) : t :=
  let validViews := ["report"; "map"; "community"] in
  if negb (Js.includes validViews view) then app
  else
    let app :=
      {| currentView := view;
         currentMapType := currentMapType app;
         selectedZone := selectedZone app;
         userPoints := userPoints app;
         document := document app;
         classes := classes app;
         navItems := navItems app;
         navigationBar := navigationBar app;
         reportFlow := reportFlow app;
         heatmapView := heatmapView app;
         eventList := eventList app;
         eventForm := eventForm app;
         zoneInspector := zoneInspector app;
         bottomSheetManager := bottomSheetManager app;
         calls := calls app |} in
    let app := call saveStateToStorage app in
    renderCurrentView app.

Definition updateMapType (mapType : Argument) (app : t) : t :=
  if negb (mapType === "vape") && negb (mapType === "smoke") then app
  else
    let app :=
      {| currentView := currentView app;
         currentMapType := mapType;
         selectedZone := selectedZone app;
         userPoints := userPoints app;
         document := document app;
         classes := classes app;
         navItems := navItems app;
         navigationBar := navigationBar app;
         reportFlow := reportFlow app;
         heatmapView := heatmapView app;
         eventList := eventList app;
         eventForm := eventForm app;
         zoneInspector := zoneInspector app;
         bottomSheetManager := bottomSheetManager app;
         calls := calls app |} in
    call saveStateToStorage app.

Definition updateSelectedZone (zoneId : option Argument) (app : t) : t :=
  {| currentView := currentView app;
     currentMapType := currentMapType app;
     selectedZone := zoneId;
     userPoints := userPoints app;
     document := document app;
     classes := classes app;
     navItems := navItems app;
     navigationBar := navigationBar app;
     reportFlow := reportFlow app;
     heatmapView := heatmapView app;
     eventList := eventList app;
     eventForm := eventForm app;
     zoneInspector := zoneInspector app;
     bottomSheetManager := bottomSheetManager app;
     calls := calls app |}.

(** [updatePoints]: a points object of the API, with names in snake case,
    becomes the object of the application state, with names in camel
    case. *)
Definition updatePoints (points : option UserPoints.t) (app : t) : t :=
  let convert (points : UserPoints.t) (snake camel : string) : Value :=
    if negb (Js.strict_eq_value (UserPoints.fields points !!! snake)
               Undefined)
    then UserPoints.fields points !!! snake
    else UserPoints.fields points !!! camel || 0 in
  let app :=
    {| currentView := currentView app;
       currentMapType := currentMapType app;
       selectedZone := selectedZone app;
       userPoints :=
         match points with
         | Some points =>
             Some
               {| UserPoints.date := UserPoints.date points;
                  UserPoints.fields :=
                    {[ "totalPoints" :=
                         convert points "total_points" "totalPoints";
                       "actionsCompleted" :=
                         convert points "actions_completed"
                           "actionsCompleted";
                       "vapePoints" :=
                         convert points "vape_points" "vapePoints";
                       "smokePoints" :=
                         convert points "smoke_points" "smokePoints" ]};
                  UserPoints.actions :=
                    match UserPoints.actions points with
                    | Some actions => Some actions
                    | None => Some []
                    end |}
         | None => None
         end;
       document := document app;
       classes := classes app;
       navItems := navItems app;
       navigationBar := navigationBar app;
       reportFlow := reportFlow app;
       heatmapView := heatmapView app;
       eventList := eventList app;
       eventForm := eventForm app;
       zoneInspector := zoneInspector app;
       bottomSheetManager := bottomSheetManager app;
       calls := calls app |} in
  call saveStateToStorage app.

(** [initializeNavigationBar]: the bar starts from the view of the
    application state, and its callback is [updateView]. *)
Definition initializeNavigationBar (app : t) : t :=
  let bar :=
    NavigationBar.constructor (Some "navigation-bar") (currentView app) in
  with_navigation (navItems app)
    (Some (NavigationBar.init (document app) bar)) app.

(** A click on a button of the bar: [handleViewChange], then the callback
    of [initializeNavigationBar] on the application, which holds the bar. *)
Definition navigationClick (button : NavigationBar.Button) (app : t) : t :=
  match navigationBar app with
  | None => app
  | Some bar =>
      let '(bar, called) := NavigationBar.click button bar in
      let app := with_navigation (navItems app) (Some bar) app in
      match called with
      | Some view => updateView view app
      | None => app
      end
  end.

(** The callback [onZoneTap] of [initializeHeatmapView], up to the point
    where [show] waits for its request: the object the request is pending
    for comes with the state. *)
Definition onZoneTap (zoneInfo : ZoneInfo.t) (app : t)
  : Completion (t * option ZoneInfo.t) :=
  let app := updateSelectedZone (Some (ZoneInfo.zoneId zoneInfo)) app in
  match zoneInspector app, bottomSheetManager app with
  | Some inspector, Some manager =>
      let '(inspector, pending) :=
        ZoneInspector.show_begin (Some zoneInfo) inspector in
      match BottomSheetManager.open "zone" manager with
      | Normal manager =>
          Normal (with_sheets (Some inspector) (Some manager) app, pending)
      | Throw manager =>
          Throw (with_sheets (Some inspector) (Some manager) app, pending)
      end
  | _, _ => Normal (app, None)
  end.

(** The rest of [show], when the request has settled. *)
Definition onZoneTap_settled (zoneInfo : ZoneInfo.t)
  (response : Fetch.Response) (app : t) : Completion t :=
  match zoneInspector app with
  | None => Normal app
  | Some inspector =>
      match ZoneInspector.show_resume zoneInfo response inspector with
      | Normal inspector =>
          Normal (with_sheets (Some inspector) (bottomSheetManager app) app)
      | Throw inspector =>
          Throw (with_sheets (Some inspector) (bottomSheetManager app) app)
      end
  end.

(** The callback [onClose] of [initializeZoneInspector], on the selection
    and the sheet manager. *)
Definition onClose (zoneInfo : option ZoneInfo.t)
  (w : option Argument * option BottomSheetManager.State)
  : Completion (option Argument * option BottomSheetManager.State) :=
  let selectedZone : option Argument := None in
  match snd w with
  | Some manager =>
      match BottomSheetManager.closeAll manager with
      | Normal manager => Normal (selectedZone, Some manager)
      | Throw manager => Throw (selectedZone, Some manager)
      end
  | None => Normal (selectedZone, None)
  end.

(** The inspector's [handleClose] in the application. *)
Definition inspectorClose (app : t) : Completion t :=
  match zoneInspector app with
  | None => Normal app
  | Some inspector =>
      let '(inspector, result) :=
        ZoneInspector.handleClose onClose inspector
          (selectedZone app, bottomSheetManager app) in
      match result with
      | Normal (selected, manager) =>
          Normal
            (updateSelectedZone selected
               (with_sheets (Some inspector) manager app))
      | Throw (selected, manager) =>
          Throw
            (updateSelectedZone selected
               (with_sheets (Some inspector) manager app))
      end
  end.

(** A close button of a sheet, or a click on the overlay itself. *)
Definition sheetClose (app : t) : Completion t :=
  match bottomSheetManager app with
  | None => Normal app
  | Some manager =>
      match BottomSheetManager.closeAll manager with
      | Normal manager =>
          Normal (with_sheets (zoneInspector app) (Some manager) app)
      | Throw manager =>
          Throw (with_sheets (zoneInspector app) (Some manager) app)
      end
  end.

End App.

(** * The classification, stated once

    The functions above repeat one computation.  It is stated here the way
    the specification words it, to be compared with each copy. *)

(** A score is read under its snake_case name when that value is truthy,
    otherwise under its camelCase name when that value is truthy, otherwise
    it is 0. *)
Definition score (zone : gmap string Value) (snake camel : string) : Value :=
  if Js.ToBoolean (zone !!! snake) then zone !!! snake
  else if Js.ToBoolean (zone !!! camel) then zone !!! camel
  else Num (Fin 0).

Definition vapeDebt zone := score zone "vape_debt" "vapeDebt".
Definition vapeRestore zone := score zone "vape_restore" "vapeRestore".
Definition smokeDebt zone := score zone "smoke_debt" "smokeDebt".
Definition smokeRestore zone := score zone "smoke_restore" "smokeRestore".

(** The debt and the restore score a view mode selects: the vape pair, the
    smoke pair, or the sums of both for [all]; any other mode selects the
    vape pair. *)
Definition selectedDebt (zone : gmap string Value) (mapType : Argument)
  : Value :=
  if Js.strict_eq mapType "smoke" then smokeDebt zone
  else if Js.strict_eq mapType "all"
       then Num (Js.add (vapeDebt zone) (smokeDebt zone))
       else vapeDebt zone.

Definition selectedRestore (zone : gmap string Value) (mapType : Argument)
  : Value :=
  if Js.strict_eq mapType "smoke" then smokeRestore zone
  else if Js.strict_eq mapType "all"
       then Num (Js.add (vapeRestore zone) (smokeRestore zone))
       else vapeRestore zone.

(** The net score, [restore - debt]. *)
Definition netScore (zone : gmap string Value) (mapType : Argument)
  : Number :=
  Js.sub (selectedRestore zone mapType) (selectedDebt zone mapType).

(** Thresholds, in this order: above 20 recovered, else above -20 healing,
    else in need of restoration. *)
Definition stateOfNet (net : Number) : string :=
  if Js.Number_ltb (Fin 20) net then "recovered"
  else if Js.Number_ltb (Fin (-20)) net then "healing"
  else "needs_restoration".

(** The order of the states: needs_restoration < healing < recovered. *)
Definition stateRank (state : string) : Z :=
  if String.eqb state "recovered" then 2
  else if String.eqb state "healing" then 1
  else if String.eqb state "needs_restoration" then 0
  else -1.

(** [net > t] and [net <= t] as the JavaScript comparisons decide them. *)
Definition net_gt (net : Number) (t : Z) : Prop :=
  Js.Number_ltb (Fin t) net = true.
Definition net_le (net : Number) (t : Z) : Prop :=
  Js.Number_leb net (Fin t) = true.

(** What the thresholds promise of the state returned for a net score. *)
Definition thresholds_hold (state : string) (net : Number) : Prop :=
  (state = "recovered" <-> net_gt net 20)
  /\ (state = "healing" <-> net_le net 20 /\ net_gt net (-20))
  /\ (state = "needs_restoration" <-> net_le net (-20)).

(** The same with a net score that is no number counted: [NaN] is above no
    threshold, which leaves the last state. *)
Definition thresholds_with_NaN (state : string) (net : Number) : Prop :=
  (state = "recovered" <-> net_gt net 20)
  /\ (state = "healing" <-> net_le net 20 /\ net_gt net (-20))
  /\ (state = "needs_restoration" <-> net_le net (-20) \/ net = NaN).

(** An integer every integer around which is a double of its own
    ([Number.isSafeInteger]), and scores small enough for their sums and
    differences to be such integers. *)
Definition safeInteger (z : Z) : Prop := - 2 ^ 53 < z < 2 ^ 53.

Definition smallScores (vapeDebt vapeRestore smokeDebt smokeRestore : Z)
  : Prop :=
  Z.abs vapeDebt <= 2 ^ 50 /\ Z.abs vapeRestore <= 2 ^ 50
  /\ Z.abs smokeDebt <= 2 ^ 50 /\ Z.abs smokeRestore <= 2 ^ 50.

(** The net score of four integer scores in integer arithmetic. *)
Definition exactNet (mapType : Argument)
  (vapeDebt vapeRestore smokeDebt smokeRestore : Z) : Z :=
  if Js.strict_eq mapType "smoke" then smokeRestore - smokeDebt
  else if Js.strict_eq mapType "all"
       then (vapeRestore + smokeRestore) - (vapeDebt + smokeDebt)
       else vapeRestore - vapeDebt.

(** The two point deltas, as [calculateProgressInfo] computes them from the
    net score. *)
Definition pointsToHealing (net : Number) : Number :=
  Js.Math_max (Num (Fin 0))
    (Js.add (Js.sub (Num (Fin (-20))) net) (Num (Fin 1))).
Definition pointsToRecovered (net : Number) : Number :=
  Js.Math_max (Num (Fin 0))
    (Js.add (Js.sub (Num (Fin 20)) net) (Num (Fin 1))).

(** What [calculateProgressInfo] is expected to return for each of the
    three states, written out: the text of its template literals with the
    numbers, already printed, in their places. *)
Definition needsRestorationMarkup
  (toHealing toRecovered netScore restore debt : string) : string :=
  "<div class=" +:+ dq +:+ "zone-progress-info" +:+ dq +:+ ">" +:+
  nl +:+
  "        <div class=" +:+ dq +:+ "progress-item" +:+ dq +:+ ">" +:+ nl +:+
  "          <span class=" +:+ dq +:+ "progress-icon" +:+ dq +:+ ">🌱</span>" +:+
    nl +:+
  "          <span class=" +:+ dq +:+ "progress-text" +:+ dq +:+ "><strong>" +:+
    toHealing +:+
    "</strong> restoration points to reach <strong>Healing</strong></span>" +:+
    nl +:+
  "        </div>" +:+ nl +:+
  "        <div class=" +:+ dq +:+ "progress-item" +:+ dq +:+ ">" +:+ nl +:+
  "          <span class=" +:+ dq +:+ "progress-icon" +:+ dq +:+ ">✨</span>" +:+
    nl +:+
  "          <span class=" +:+ dq +:+ "progress-text" +:+ dq +:+ "><strong>" +:+
    toRecovered +:+
    "</strong> restoration points to reach <strong>Recovered</strong></span>" +:+
    nl +:+
  "        </div>" +:+ nl +:+
  "      " +:+ nl +:+
  "      <div class=" +:+ dq +:+ "zone-score-info" +:+ dq +:+ ">" +:+ nl +:+
  "        <small>Current net score: <strong>" +:+ netScore +:+
    "</strong> (" +:+ restore +:+ " restore - " +:+ debt +:+
    " debt)</small>" +:+ nl +:+
  "      </div>" +:+ nl +:+
  "    " +:+
  "</div>".

Definition healingMarkup (toRecovered netScore restore debt : string)
  : string :=
  "<div class=" +:+ dq +:+ "zone-progress-info" +:+ dq +:+ ">" +:+
  nl +:+
  "        <div class=" +:+ dq +:+ "progress-item" +:+ dq +:+ ">" +:+ nl +:+
  "          <span class=" +:+ dq +:+ "progress-icon" +:+ dq +:+ ">✨</span>" +:+
    nl +:+
  "          <span class=" +:+ dq +:+ "progress-text" +:+ dq +:+ "><strong>" +:+
    toRecovered +:+
    "</strong> restoration points to reach <strong>Recovered</strong></span>" +:+
    nl +:+
  "        </div>" +:+ nl +:+
  "      " +:+ nl +:+
  "      <div class=" +:+ dq +:+ "zone-score-info" +:+ dq +:+ ">" +:+ nl +:+
  "        <small>Current net score: <strong>" +:+ netScore +:+
    "</strong> (" +:+ restore +:+ " restore - " +:+ debt +:+
    " debt)</small>" +:+ nl +:+
  "      </div>" +:+ nl +:+
  "    " +:+
  "</div>".

Definition recoveredMarkup (netScore restore debt : string) : string :=
  "<div class=" +:+ dq +:+ "zone-progress-info" +:+ dq +:+ ">" +:+
  nl +:+
  "        <div class=" +:+ dq +:+ "progress-item recovered" +:+ dq +:+ ">" +:+
    nl +:+
  "          <span class=" +:+ dq +:+ "progress-icon" +:+ dq +:+ ">🎉</span>" +:+
    nl +:+
  "          <span class=" +:+ dq +:+ "progress-text" +:+ dq +:+
    ">This zone has fully recovered! Keep up the great work.</span>" +:+ nl +:+
  "        </div>" +:+ nl +:+
  "      " +:+ nl +:+
  "      <div class=" +:+ dq +:+ "zone-score-info" +:+ dq +:+ ">" +:+ nl +:+
  "        <small>Current net score: <strong>" +:+ netScore +:+
    "</strong> (" +:+ restore +:+ " restore - " +:+ debt +:+
    " debt)</small>" +:+ nl +:+
  "      </div>" +:+ nl +:+
  "    " +:+
  "</div>".


(** The cell index of a coordinate: what both copies of the grid computation
    call [latGrid] and [lngGrid]. *)
Definition gridIndex (x : float) : Number := Js.Math_floor (x / 0.01)%float.





(** The zone with each of the listed fields set to 0. *)
Definition withZeros (fields : list string) (zone : gmap string Value)
  : gmap string Value :=
  foldr (fun field z => <[field := Num (Fin 0)]> z) zone fields.

(** ** Zones used as examples *)

(** A zone of the data model: four integer scores under their camelCase
    names. *)
Definition zoneOf (vapeDebt vapeRestore smokeDebt smokeRestore : Z)
  : gmap string Value :=
  {[ "vapeDebt" := Num (Fin vapeDebt);
     "vapeRestore" := Num (Fin vapeRestore);
     "smokeDebt" := Num (Fin smokeDebt);
     "smokeRestore" := Num (Fin smokeRestore) ]}.

(** A zone whose vape debt is the boolean [true]. *)
Definition zoneWithTrueDebt : gmap string Value :=
  {[ "vape_debt" := Bool true; "vape_restore" := Num (Fin 21) ]}.

(** A zone whose vape debt is [null]. *)
Definition zoneWithNullDebt : gmap string Value :=
  {[ "vape_debt" := Null; "vape_restore" := Num (Fin 21) ]}.

(** A zone that carries the vape debt under both names. *)
Definition zoneWithBothNames : gmap string Value :=
  {[ "vape_debt" := Num (Fin 0); "vapeDebt" := Num (Fin 7) ]}.


(** A zone whose two vape scores are infinite: its net score is [NaN]. *)
Definition zoneWithInfiniteScores : gmap string Value :=
  {[ "vape_debt" := Num PosInf; "vape_restore" := Num PosInf ]}.

(** The zone of the data model with the restore score of the view mode
    raised by [d]: the smoke score for [smoke], the vape score otherwise (for
    [all] either one raises the sum). *)
Definition raiseRestore (mapType : Argument) (d : Z)
  (vapeDebt vapeRestore smokeDebt smokeRestore : Z) : gmap string Value :=
  if Js.strict_eq mapType "smoke"
  then zoneOf vapeDebt vapeRestore smokeDebt (smokeRestore + d)
  else zoneOf vapeDebt (vapeRestore + d) smokeDebt smokeRestore.

(** ** The bottom sheets, driven by events

    What can happen to a manager after [init]: some code calls [open] with an
    identifier (the application opens [zone], the points chip [points]), a
    close button calls [closeAll], or the overlay receives a click whose
    target is some element.  An exception ends the handler that raised it,
    not the page: the next event finds the state the handler left. *)

Inductive SheetEvent : Type :=
| Open (sheetId : string)
| CloseAll
| OverlayClick (target : string).

Definition handleSheetEvent (event : SheetEvent)
  (st : BottomSheetManager.State) : Completion BottomSheetManager.State :=
  match event with
  | Open sheetId => BottomSheetManager.open sheetId st
  | CloseAll => BottomSheetManager.closeAll st
  | OverlayClick target => BottomSheetManager.overlayClick target st
  end.

Definition stateAfter {A : Type} (c : Completion A) : A :=
  match c with
  | Normal a => a
  | Throw a => a
  end.

Definition runSheetEvents (events : list SheetEvent)
  (st : BottomSheetManager.State) : BottomSheetManager.State :=
  fold_left (fun st event => stateAfter (handleSheetEvent event st)) events st.

(** An element is visible when its class list does not hold [hidden]. *)
Definition visible (element : string) (st : BottomSheetManager.State) : bool :=
  negb (Js.classList_contains element "hidden" (BottomSheetManager.classes st)).

(** What [open], [closeAll] and the overlay's listener keep true of a manager
    whose overlay was found: the overlay is no sheet, the current sheet is a
    registered one, a registered sheet is visible exactly when it is the
    current one, and the overlay is hidden exactly when there is none. *)
Definition sheets_consistent (st : BottomSheetManager.State) : Prop :=
  exists o,
    BottomSheetManager.overlay st = Some o
    /\ (forall id e, BottomSheetManager.sheets st !! id = Some e -> e <> o)
    /\ (forall c, BottomSheetManager.currentSheet st = Some c ->
          exists id, BottomSheetManager.sheets st !! id = Some c)
    /\ (forall id e, BottomSheetManager.sheets st !! id = Some e ->
          "hidden" ∈ BottomSheetManager.classes st !!! e
          <-> BottomSheetManager.currentSheet st <> Some e)
    /\ ("hidden" ∈ BottomSheetManager.classes st !!! o
        <-> BottomSheetManager.currentSheet st = None).

(** The elements [init] looks up. *)
Definition sheetElements : list string :=
  ["bottom-sheet-overlay"; "points-panel"; "zone-inspector-panel";
   "actions-panel"].

(** A page with the overlay and two of the three panels, all hidden. *)
Definition exampleDocument : gset string :=
  {["bottom-sheet-overlay"; "points-panel"; "zone-inspector-panel"]}.

Definition exampleClasses : gmap string (gset string) :=
  <["bottom-sheet-overlay" := {["bottom-sheet-overlay"; "hidden"]}]>
    (<["points-panel" := {["bottom-sheet"; "hidden"]}]>
       (<["zone-inspector-panel" := {["bottom-sheet"; "hidden"]}]> ∅)).

(** ** The inspector and the map, driven by events *)

(** The zone object of a response that [show] finds for an identifier: the
    first element whose [id] is strictly equal to it. *)
Definition reportedZone (zoneId : Argument) (response : Fetch.Response)
  : option Zone.t :=
  match response with
  | Fetch.Ok zones =>
      List.find (fun z => Js.strict_equals (Zone.id z) zoneId) zones
  | _ => None
  end.

(** The properties the response reports for a zone: none when the zone is
    not in the list, or when there is no list. *)
Definition reportedFields (zoneId : Argument) (response : Fetch.Response)
  : gmap string Value :=
  match reportedZone zoneId response with
  | Some zone => Zone.fields zone
  | None => ∅
  end.

(** The message [show_resume] passes to [render]. *)
Definition resumedMessage (zoneInfo : ZoneInfo.t) (response : Fetch.Response)
  : string :=
  match reportedZone (ZoneInfo.zoneId zoneInfo) response with
  | Some zone =>
      ZoneInspector.show_message (Zone.fields zone)
        (ZoneInfo.mapType zoneInfo)
  | None => "This space is healing"
  end.

(** What can happen to an inspector; the arguments of the calls of
    [onClose] are collected in a list. *)
Inductive InspectorEvent : Type :=
| InspectorInit
| ShowBegin (zoneInfo : option ZoneInfo.t)
| ShowResume (zoneInfo : ZoneInfo.t) (response : Fetch.Response)
| Hide
| HandleClose
| Destroy.

Definition logClose (zoneInfo : option ZoneInfo.t)
  (log : list (option ZoneInfo.t)) : Completion (list (option ZoneInfo.t)) :=
  Normal (log ++ [zoneInfo])%list.

Definition handleInspectorEvent (document : gset string)
  (event : InspectorEvent)
  (st : ZoneInspector.t * list (option ZoneInfo.t))
  : ZoneInspector.t * list (option ZoneInfo.t) :=
  let '(this, log) := st in
  match event with
  | InspectorInit => (ZoneInspector.init document this, log)
  | ShowBegin zoneInfo => (fst (ZoneInspector.show_begin zoneInfo this), log)
  | ShowResume zoneInfo response =>
      (stateAfter (ZoneInspector.show_resume zoneInfo response this), log)
  | Hide => (ZoneInspector.hide this, log)
  | HandleClose =>
      let '(this, log) := ZoneInspector.handleClose logClose this log in
      (this, stateAfter log)
  | Destroy => (ZoneInspector.destroy this, log)
  end.

Definition runInspectorEvents (document : gset string)
  (events : list InspectorEvent)
  (st : ZoneInspector.t * list (option ZoneInfo.t))
  : ZoneInspector.t * list (option ZoneInfo.t) :=
  fold_left (fun st event => handleInspectorEvent document event st) events st.

(** An inspector whose container was found and is hidden. *)
Definition exampleInspector : ZoneInspector.t :=
  ZoneInspector.init {["zone-inspector-container"]}
    (ZoneInspector.constructor None ∅ "" "").

Definition exampleZoneInfo (zoneId state : string) (mapType : Argument)
  : ZoneInfo.t :=
  HeatmapView.handleZoneTap mapType (Str zoneId) state.

(** ** The navigation bar, driven by events *)

Inductive NavigationEvent : Type :=
| ButtonClick (button : NavigationBar.Button)
| HandleViewChange (view : Argument)
| SetCurrentView (view : Argument).

Definition handleNavigationEvent (event : NavigationEvent)
  (bar : NavigationBar.t) : NavigationBar.t :=
  match event with
  | ButtonClick button => fst (NavigationBar.click button bar)
  | HandleViewChange view => fst (NavigationBar.handleViewChange view bar)
  | SetCurrentView view => NavigationBar.setCurrentView view bar
  end.

Definition runNavigationEvents (events : list NavigationEvent)
  (bar : NavigationBar.t) : NavigationBar.t :=
  fold_left (fun bar event => handleNavigationEvent event bar) events bar.

Definition isActive (button : NavigationBar.Button) : bool :=
  bool_decide ("active" ∈ NavigationBar.classList button).

(** A button as [highlightActiveView] leaves it. *)
Definition highlighted (view : Argument) (button : NavigationBar.Button)
  : NavigationBar.Button :=
  {| NavigationBar.dataView := NavigationBar.dataView button;
     NavigationBar.ariaLabel := NavigationBar.ariaLabel button;
     NavigationBar.iconSpan := NavigationBar.iconSpan button;
     NavigationBar.labelSpan := NavigationBar.labelSpan button;
     NavigationBar.classList :=
       if Js.strict_eq view (NavigationBar.dataView button)
       then {["active"]} ∪ NavigationBar.classList button
       else NavigationBar.classList button ∖ {["active"]};
     NavigationBar.ariaCurrent :=
       if Js.strict_eq view (NavigationBar.dataView button)
       then Some "page" else None |}.

(** The bar as [render] leaves it for its current view: it has its
    container, and its buttons are the five created ones, highlighted for
    the current view. *)
Definition rendered (bar : NavigationBar.t) : Prop :=
  (exists element, NavigationBar.container bar = Some element)
  /\ NavigationBar.buttons bar
     = List.map (highlighted (NavigationBar.currentView bar))
         (List.map NavigationBar.createNavItem NavigationBar.navItems).

(** ** An example page

    A page with the overlay, two panels, the inspector's container, the
    navigation bar and the three views, and the application on it after its
    components were initialised, showing the report view. *)
Definition exampleManager : BottomSheetManager.State :=
  BottomSheetManager.init exampleDocument
    (BottomSheetManager.constructor exampleClasses true).

Definition exampleApp : App.t :=
  App.initializeNavigationBar
    {| App.currentView := Str "report";
       App.currentMapType := Str "vape";
       App.selectedZone := None;
       App.userPoints := None;
       App.document :=
         exampleDocument
         ∪ {["zone-inspector-container"; "navigation-bar";
             "report-view"; "map-view"; "community-view"]};
       App.classes := {["report-view" := {["view"; "active"]}]};
       App.navItems := [];
       App.navigationBar := None;
       App.reportFlow := true;
       App.heatmapView := true;
       App.eventList := true;
       App.eventForm := true;
       App.zoneInspector := Some exampleInspector;
       App.bottomSheetManager := Some exampleManager;
       App.calls := [] |}.

Definition heatmapButton : NavigationBar.Button :=
  NavigationBar.createNavItem
    {| NavigationBar.id := "heatmap";
       NavigationBar.icon := "🗺️";
       NavigationBar.label := "Heatmap" |}.

(** ** Points *)

(** The names of the numeric properties of a points object, as the API
    spells them and as the application state does. *)
Definition pointNames : list (string * string) :=
  [ ("total_points", "totalPoints");
    ("actions_completed", "actionsCompleted");
    ("vape_points", "vapePoints");
    ("smoke_points", "smokePoints") ].

(** The points of a day as the API reports them. *)
Definition apiPoints (total actions vape smoke : Z) : UserPoints.t :=
  {| UserPoints.date := Str "2024-01-01";
     UserPoints.fields :=
       {[ "total_points" := Num (Fin total);
          "actions_completed" := Num (Fin actions);
          "vape_points" := Num (Fin vape);
          "smoke_points" := Num (Fin smoke) ]};
     UserPoints.actions := None |}.

Definition exampleSummary : PointsSummary.t :=
  {| PointsSummary.containerId := "points-summary-container";
     PointsSummary.container := Some "points-summary-container";
     PointsSummary.innerHTML := "" |}.

(** ** The actions view *)

(** The type [loadActions] asks for first. *)
Definition firstType (selectedType : Argument) : Argument :=
  if Js.strict_eq selectedType "both" then Str "vape" else selectedType.

(** An answer that makes the [try] block of [loadActions] throw. *)
Definition throwsInLoad (response : ActionsView.Response) : bool :=
  match response with
  | ActionsView.Rejected => true
  | ActionsView.Ok None => true
  | _ => false
  end.

(** The error element [loadActions] shows. *)
Definition loadError : string * string :=
  ("action-error-message", "Failed to load actions. Please try again.").

(** A view on a page that has its container. *)
Definition exampleActions : ActionsView.t :=
  ActionsView.init {["actions-container"]}
    (ActionsView.constructor None ActionsView.rendered).

Definition exampleSuggestion (id title : string) : ActionsView.Suggestion :=
  {| ActionsView.id := Str id;
     ActionsView.title := Str title;
     ActionsView.description := Str "";
     ActionsView.points := Other (Num (Fin 10));
     ActionsView.actionType := Other Undefined |}.

(** A server that has one suggestion for smoke and fails for vape. *)
Definition smokeOnly (url : string) : ActionsView.Response :=
  if String.eqb url
       "http://localhost:5000/api/zones/zone_1_2/actions?type=smoke&context=indoor"
  then ActionsView.Ok (Some [exampleSuggestion "a1" "Open a window"])
  else ActionsView.NotOk.

(** ** The overlays of the heat map *)

(** The identifiers of the layers the [Map] tracks. *)
Definition tracked (this : HeatmapView.t) : list nat :=
  List.map (fun entry => HeatmapView.layer (snd entry))
    (HeatmapView.zoneOverlays this).

(** The layers a sequence of calls leaves on a Leaflet map: [addTo] adds a
    layer the map does not have, [removeLayer] takes it away. *)
Definition applyCall (layers : list nat) (call : HeatmapView.LeafletCall)
  : list nat :=
  match call with
  | HeatmapView.addTo layer =>
      if bool_decide (layer ∈ layers) then layers
      else (layers ++ [layer])%list
  | HeatmapView.removeLayer layer =>
      List.filter (fun l => negb (Nat.eqb l layer)) layers
  end.

Definition leftOnMap (calls : list HeatmapView.LeafletCall) : list nat :=
  fold_left applyCall calls [].

(** No two zones of a list have the same identifier, as a [Map] compares
    keys. *)
Fixpoint distinctIds (zones : list Zone.t) : bool :=
  match zones with
  | [] => true
  | zone :: zones =>
      forallb
        (fun other =>
           negb (Js.same_value_zero (Zone.id zone) (Zone.id other)))
        zones
      && distinctIds zones
  end.

(** The colour and the message that go with each state. *)
Definition stateLooks : list (string * (string * string)) :=
  [("needs_restoration", ("#F4D03F", "This space needs care"));
   ("healing", ("#52BE80", "This space is healing"));
   ("recovered", ("#5DADE2", "This space has recovered"))].

(** What an overlay of a zone list rendered with a map type looks like: it
    is tracked under the identifier of a zone of the list, has the bounds
    of the zone and the colour of the state of its net score, and a click
    on it reports the zone, that state and its message. *)
Definition overlayOf (zones : list Zone.t) (mapType : Argument)
  (entry : Argument * HeatmapView.Rectangle) : Prop :=
  exists zone bounds colour message,
    zone ∈ zones
    /\ Zone.bounds zone = Some bounds
    /\ Js.same_value_zero (fst entry) (Zone.id zone) = true
    /\ HeatmapView.latLngs (snd entry)
       = ((Zone.south bounds, Zone.west bounds),
          (Zone.north bounds, Zone.east bounds))
    /\ (stateOfNet (netScore (Zone.fields zone) mapType), (colour, message))
       ∈ stateLooks
    /\ HeatmapView.color (snd entry) = Some colour
    /\ HeatmapView.fillColor (snd entry) = Some colour
    /\ forall later : HeatmapView.t,
         HeatmapView.rectangle_click (snd entry) later
         = {| ZoneInfo.zoneId := Zone.id zone;
              ZoneInfo.state :=
                Str (stateOfNet (netScore (Zone.fields zone) mapType));
              ZoneInfo.message := Some message;
              ZoneInfo.mapType := HeatmapView.mapType later |}.

(** What every event keeps, whatever the identifiers: the map is set, and
    the tracked layers were created before. *)
Definition created_before (this : HeatmapView.t) : Prop :=
  HeatmapView.map this = true
  /\ Forall (fun layer => (layer < HeatmapView.rectangles this)%nat)
       (tracked this).

(** The rectangles on the map are the tracked ones, each once. *)
Definition overlays_on_map (this : HeatmapView.t) : Prop :=
  created_before this
  /\ leftOnMap (HeatmapView.leaflet this) = tracked this
  /\ NoDup (tracked this).

(** What can happen to the overlays: [renderZones], which
    [handleMapTypeToggle] and [update] call with the zones they fetched, and
    [clearZoneOverlays]. *)
Inductive OverlayEvent : Type :=
| RenderZones (zones : list Zone.t) (mapType : Argument)
| ClearZoneOverlays.

Definition handleOverlayEvent (event : OverlayEvent) (this : HeatmapView.t)
  : HeatmapView.t :=
  match event with
  | RenderZones zones mapType => HeatmapView.renderZones zones mapType this
  | ClearZoneOverlays => HeatmapView.clearZoneOverlays this
  end.

Definition runOverlayEvents (events : list OverlayEvent)
  (this : HeatmapView.t) : HeatmapView.t :=
  fold_left (fun this event => handleOverlayEvent event this) events this.

Definition eventZones (event : OverlayEvent) : list Zone.t :=
  match event with
  | RenderZones zones _ => zones
  | ClearZoneOverlays => []
  end.

(** A heat map whose Leaflet map is set and has no overlay yet. *)
Definition emptyMap (mapType : Argument) : HeatmapView.t :=
  {| HeatmapView.mapType := mapType;
     HeatmapView.map := true;
     HeatmapView.zoneOverlays := [];
     HeatmapView.rectangles := 0;
     HeatmapView.leaflet := [];
     HeatmapView.toggleContainer := None;
     HeatmapView.legendContainer := None |}.

Definition exampleBounds : Zone.Bounds :=
  {| Zone.south := 37.77; Zone.west := (-122.43);
     Zone.north := 37.78; Zone.east := (-122.42);
     Zone.numbers := eq_refl |}.

Definition exampleZone (id : string) (vapeDebt vapeRestore : Z) : Zone.t :=
  {| Zone.id := Str id;
     Zone.fields := zoneOf vapeDebt vapeRestore 0 0;
     Zone.bounds := Some exampleBounds |}.

(** The layer a call on the map is about. *)
Definition callLayer (call : HeatmapView.LeafletCall) : nat :=
  match call with
  | HeatmapView.addTo layer => layer
  | HeatmapView.removeLayer layer => layer
  end.

(** A rectangle that was added to the map and never removed from it, and
    that the [Map] does not track. *)
Definition leftBehind (layer : nat) (this : HeatmapView.t) : Prop :=
  HeatmapView.addTo layer ∈ HeatmapView.leaflet this
  /\ (HeatmapView.removeLayer layer ∉ HeatmapView.leaflet this)
  /\ layer ∉ tracked this.

(** What every event keeps: the keys of the [Map] are distinct, and every
    rectangle the [Map] or a call mentions was created before. *)
Definition overlays_created (this : HeatmapView.t) : Prop :=
  created_before this
  /\ NoDup (List.map fst (HeatmapView.zoneOverlays this))
  /\ Forall (fun call => (callLayer call < HeatmapView.rectangles this)%nat)
       (HeatmapView.leaflet this).

(** A rectangle on the map that the [Map] tracks under [key] at most. *)
Definition tracked_under (layer : nat) (key : Argument)
  (this : HeatmapView.t) : Prop :=
  overlays_created this
  /\ (layer < HeatmapView.rectangles this)%nat
  /\ HeatmapView.addTo layer ∈ HeatmapView.leaflet this
  /\ (HeatmapView.removeLayer layer ∉ HeatmapView.leaflet this)
  /\ forall entry,
       entry ∈ HeatmapView.zoneOverlays this ->
       HeatmapView.layer (snd entry) = layer -> fst entry = key.

Definition untracked (layer : nat) (this : HeatmapView.t) : Prop :=
  (layer < HeatmapView.rectangles this)%nat /\ leftBehind layer this.

(** ** The map type toggle *)

(** What can happen to the toggle: a call of [handleMapTypeToggle], by a
    click on a button or by [setMapType], and the settling of the request
    of an earlier call. *)
Inductive ToggleEvent : Type :=
| ToggleBegin (type : Argument)
| ToggleSettled (type : Argument) (response : Fetch.Response)
    (appZones : option (list Zone.t)).

Definition handleToggleEvent (event : ToggleEvent) (this : HeatmapView.t)
  : HeatmapView.t :=
  match event with
  | ToggleBegin type => fst (HeatmapView.handleMapTypeToggle_begin type this)
  | ToggleSettled type response appZones =>
      fst (HeatmapView.handleMapTypeToggle_settled type response appZones
             this)
  end.

Definition runToggleEvents (events : list ToggleEvent)
  (this : HeatmapView.t) : HeatmapView.t :=
  fold_left (fun this event => handleToggleEvent event this) events this.

(** A heat map with its two containers, as [init] leaves it when the
    document has them. *)
Definition exampleMap (mapType : Argument) : HeatmapView.t :=
  HeatmapView.renderLegend
    (HeatmapView.renderToggleControl
       {| HeatmapView.mapType := mapType;
          HeatmapView.map := true;
          HeatmapView.zoneOverlays := [];
          HeatmapView.rectangles := 0;
          HeatmapView.leaflet := [];
          HeatmapView.toggleContainer := Some [];
          HeatmapView.legendContainer := Some "" |}).

(** The three buttons [renderToggleControl] writes for a map type: the one
    of the map type is active and pressed. *)
Definition freshButtons (mapType : Argument)
  : list HeatmapView.ToggleButton :=
  List.map
    (fun type =>
       {| HeatmapView.dataType := type;
          HeatmapView.classList :=
            if Js.strict_eq mapType type then {["toggle-button"; "active"]}
            else {["toggle-button"]};
          HeatmapView.ariaPressed :=
            if Js.strict_eq mapType type then "true" else "false" |})
    ["vape"; "smoke"; "all"].

(** The buttons and the legend are the ones a rendering for the current
    map type would write. *)
Definition followsMapType (this : HeatmapView.t) : Prop :=
  HeatmapView.toggleContainer (HeatmapView.renderToggleControl this)
  = HeatmapView.toggleContainer this
  /\ HeatmapView.legendContainer (HeatmapView.renderLegend this)
     = HeatmapView.legendContainer this.

(** The zones [handleMapTypeToggle] renders once its request has settled:
    those of the response, or those of the application state. *)
Definition renderedZones (response : Fetch.Response)
  (appZones : option (list Zone.t)) : list Zone.t :=
  match response with
  | Fetch.Ok zones => zones
  | _ => HeatmapView.getCurrentZones appZones
  end.

(** * Properties *)

(** ** Number printing and the floor, on examples *)

Lemma NumberToString_examples :
  Js.NumberToString (Fin 0) = "0"
  /\ Js.NumberToString (Fin (-12242)) = "-12242"
  /\ Js.NumberToString (Fin (2 ^ 53 - 1)) = "9007199254740991"
  /\ Js.NumberToString (Fin (2 ^ 60)) = "1152921504606847000"
  /\ Js.NumberToString (Fin (10 ^ 21)) = "1e+21"
  /\ Js.NumberToString (Fin (2 ^ 70)) = "1.1805916207174113e+21"
  /\ Js.NumberToString NaN = "NaN"
  /\ Js.NumberToString NegInf = "-Infinity".
Proof. repeat split; vm_compute; reflexivity. Qed.

(** ** Rounding to the nearest double

    Below 2^53 nothing is rounded; from there on a number keeps its 53
    leading bits, and rounding keeps the order. *)

Lemma round53_small (n : Z) : n < 2 ^ 53 -> Js.round53 n = n.
Proof.
  intros Hn. unfold Js.round53.
  destruct (Z.leb_spec (Z.log2 n + 1) 53) as [_|Hbits]; [reflexivity|].
  exfalso. destruct (Z_le_gt_dec n 0) as [Hle|Hpos].
  - rewrite Z.log2_nonpos in Hbits by assumption. lia.
  - assert (Z.log2 n < 53) by (apply Z.log2_lt_pow2; lia). lia.
Qed.

(** For a number of 54 bits or more: with [s] the number of bits dropped,
    the result is a multiple [q' * 2^s] with [q'] the quotient or the next
    integer. *)
Lemma round53_big (n : Z) :
  2 ^ 53 <= n ->
  let s := Z.log2 n - 52 in
  let q := n / 2 ^ s in
  let r := n mod 2 ^ s in
  0 < s /\ 2 ^ 52 <= q < 2 ^ 53 /\ 0 <= r < 2 ^ s
  /\ Js.round53 n
     = (if ((2 ^ (s - 1) <? r)%Z || ((r =? 2 ^ (s - 1))%Z && Z.odd q))%bool
        then q + 1 else q) * 2 ^ s.
Proof.
  intros Hn s q r.
  assert (Hlog : 53 <= Z.log2 n) by (apply Z.log2_le_pow2; lia).
  assert (Hs : 0 < s) by (unfold s; lia).
  assert (Hp : 0 < 2 ^ s) by (apply Z.pow_pos_nonneg; lia).
  destruct (Z.log2_spec n ltac:(lia)) as [Hlo Hhi].
  replace (Z.log2 n) with (52 + s) in Hlo by (unfold s; lia).
  replace (Z.succ (Z.log2 n)) with (53 + s) in Hhi by (unfold s; lia).
  rewrite Z.pow_add_r in Hlo, Hhi by lia.
  split; [exact Hs|]. split; [|split].
  - unfold q. split.
    + apply Z.div_le_lower_bound; lia.
    + apply Z.div_lt_upper_bound; lia.
  - apply Z.mod_pos_bound. exact Hp.
  - unfold Js.round53.
    destruct (Z.leb_spec (Z.log2 n + 1) 53) as [Hbits|_]; [lia|].
    replace (Z.log2 n + 1 - 53) with s by (unfold s; lia).
    rewrite Z.shiftr_div_pow2, Z.land_ones, !Z.shiftl_mul_pow2 by lia.
    rewrite Z.mul_1_l. reflexivity.
Qed.

Lemma round53_bounds (n : Z) :
  2 ^ 53 <= n ->
  2 ^ Z.log2 n <= Js.round53 n <= 2 ^ (Z.log2 n + 1).
Proof.
  intros Hn. destruct (round53_big n Hn) as (Hs & Hq & Hr & ->).
  set (s := Z.log2 n - 52) in *.
  assert (Hp : 0 < 2 ^ s) by (apply Z.pow_pos_nonneg; lia).
  replace (Z.log2 n) with (52 + s) by (unfold s; lia).
  replace (52 + s + 1) with (53 + s) by lia.
  rewrite !Z.pow_add_r by lia.
  destruct (_ || _)%bool; nia.
Qed.

Lemma round53_large (n : Z) : 2 ^ 53 <= n -> 2 ^ 53 <= Js.round53 n.
Proof.
  intros Hn. destruct (round53_bounds n Hn) as [Hlo _].
  assert (53 <= Z.log2 n) by (apply Z.log2_le_pow2; lia).
  assert (2 ^ 53 <= 2 ^ Z.log2 n) by (apply Z.pow_le_mono_r; lia). lia.
Qed.

Lemma round53_nonneg (n : Z) : 0 <= n -> 0 <= Js.round53 n.
Proof.
  intros Hn. destruct (Z_lt_ge_dec n (2 ^ 53)).
  - now rewrite round53_small.
  - pose proof (round53_large n). lia.
Qed.

Lemma round53_monotone (x y : Z) : x <= y -> Js.round53 x <= Js.round53 y.
Proof.
  intros Hxy. destruct (Z_lt_ge_dec y (2 ^ 53)) as [Hy|Hy].
  { rewrite !round53_small by lia. exact Hxy. }
  destruct (Z_lt_ge_dec x (2 ^ 53)) as [Hx|Hx].
  { rewrite (round53_small x) by lia. pose proof (round53_large y). lia. }
  assert (Hlog : Z.log2 x <= Z.log2 y) by (apply Z.log2_le_mono; lia).
  destruct (Z_lt_ge_dec (Z.log2 x) (Z.log2 y)) as [Hlt|Hge].
  { pose proof (round53_bounds x ltac:(lia)) as [_ Hhi].
    pose proof (round53_bounds y ltac:(lia)) as [Hlo _].
    assert (2 ^ (Z.log2 x + 1) <= 2 ^ Z.log2 y)
      by (apply Z.pow_le_mono_r; lia).
    lia. }
  assert (Heq : Z.log2 x = Z.log2 y) by lia.
  destruct (round53_big x ltac:(lia)) as (Hs & Hqx & Hrx & ->).
  destruct (round53_big y ltac:(lia)) as (_ & Hqy & Hry & ->).
  rewrite <- Heq in *.
  set (s := Z.log2 x - 52) in *.
  assert (Hp : 0 < 2 ^ s) by (apply Z.pow_pos_nonneg; lia).
  pose proof (Z.div_mod x (2 ^ s) ltac:(lia)) as Ex.
  pose proof (Z.div_mod y (2 ^ s) ltac:(lia)) as Ey.
  set (qx := x / 2 ^ s) in *. set (qy := y / 2 ^ s) in *.
  set (rx := x mod 2 ^ s) in *. set (ry := y mod 2 ^ s) in *.
  set (h := 2 ^ (s - 1)) in *.
  apply Z.mul_le_mono_nonneg_r; [lia|].
  assert (Hq : qx <= qy) by (apply Z.div_le_mono; lia).
  destruct (Z_lt_ge_dec qx qy) as [Hqlt|Hqge].
  { destruct (_ || _)%bool; destruct (_ || _)%bool; lia. }
  assert (Eq : qx = qy) by lia. rewrite Eq in *.
  assert (Hr : rx <= ry) by nia.
  destruct (Z.ltb_spec h rx), (Z.ltb_spec h ry),
    (Z.eqb_spec rx h), (Z.eqb_spec ry h), (Z.odd qy); simpl; lia.
Qed.

Lemma nearest_small (z : Z) : - 2 ^ 53 < z < 2 ^ 53 -> Js.nearest z = Fin z.
Proof.
  intros Hz. unfold Js.nearest. rewrite round53_small by lia.
  destruct (Z.leb_spec 1024 (Z.log2 (Z.abs z))) as [Hbig|_].
  - exfalso. destruct (Z.eq_dec z 0) as [->|Hne]; [simpl in Hbig; lia|].
    assert (Z.log2 (Z.abs z) < 53) by (apply Z.log2_lt_pow2; lia). lia.
  - f_equal. lia.
Qed.

(** The double Js.nearest to an integer is on the same side of a safe integer
    as the integer. *)
Lemma nearest_threshold (t z : Z) :
  - 2 ^ 53 < t < 2 ^ 53 ->
  Js.Number_ltb (Fin t) (Js.nearest z) = (t <? z)%Z.
Proof.
  intros Ht.
  destruct (Z_lt_ge_dec (Z.abs z) (2 ^ 53)) as [Hz|Hz].
  { now rewrite nearest_small by lia. }
  unfold Js.nearest. pose proof (round53_large (Z.abs z) ltac:(lia)) as Hr.
  set (r := Js.round53 (Z.abs z)) in *.
  destruct (Z.leb_spec 1024 (Z.log2 r)); destruct (Z.ltb_spec z 0);
    cbn [Js.Number_ltb]; symmetry.
  - apply Z.ltb_ge. lia.
  - apply Z.ltb_lt. lia.
  - rewrite Z.sgn_neg by lia.
    destruct (Z.ltb_spec t (-1 * r)); [lia|]. apply Z.ltb_ge. lia.
  - rewrite Z.sgn_pos by lia.
    destruct (Z.ltb_spec t (1 * r)); [|lia]. apply Z.ltb_lt. lia.
Qed.

Lemma Number_leb_Fin (a b : Z) : a <= b -> Js.Number_leb (Fin a) (Fin b) = true.
Proof. intros H. cbn. apply negb_true_iff, Z.ltb_ge. exact H. Qed.

Lemma nearest_monotone (x y : Z) :
  x <= y -> Js.Number_leb (Js.nearest x) (Js.nearest y) = true.
Proof.
  intros Hxy. unfold Js.nearest.
  pose proof (round53_nonneg (Z.abs x) ltac:(lia)) as Hx0.
  pose proof (round53_nonneg (Z.abs y) ltac:(lia)) as Hy0.
  assert (Hmono : forall a b, a <= b -> Z.log2 a <= Z.log2 b)
    by (intros; now apply Z.log2_le_mono).
  destruct (Z.ltb_spec x 0) as [Hx|Hx], (Z.ltb_spec y 0) as [Hy|Hy];
    try lia.
  - pose proof (round53_monotone (Z.abs y) (Z.abs x) ltac:(lia)) as Hr.
    pose proof (Hmono _ _ Hr).
    destruct (Z.leb_spec 1024 (Z.log2 (Js.round53 (Z.abs x)))),
      (Z.leb_spec 1024 (Z.log2 (Js.round53 (Z.abs y))));
      try reflexivity; try lia.
    apply Number_leb_Fin. rewrite !Z.sgn_neg by lia. lia.
  - destruct (Z.leb_spec 1024 (Z.log2 (Js.round53 (Z.abs x)))),
      (Z.leb_spec 1024 (Z.log2 (Js.round53 (Z.abs y))));
      try reflexivity.
    apply Number_leb_Fin. rewrite Z.sgn_neg by lia.
    destruct (Z.sgn_spec y) as [[? ->]|[[? ->]|[? ->]]]; lia.
  - pose proof (round53_monotone (Z.abs x) (Z.abs y) ltac:(lia)) as Hr.
    pose proof (Hmono _ _ Hr).
    destruct (Z.leb_spec 1024 (Z.log2 (Js.round53 (Z.abs x)))),
      (Z.leb_spec 1024 (Z.log2 (Js.round53 (Z.abs y))));
      try reflexivity; try lia.
    apply Number_leb_Fin.
    destruct (Z.sgn_spec x) as [[? ->]|[[? ->]|[? ->]]],
      (Z.sgn_spec y) as [[? ->]|[[? ->]|[? ->]]]; lia.
Qed.

(** Below 2^53 a number prints as its decimal expansion. *)
Lemma shortest_at_small (n k : Z) :
  0 < n < 2 ^ 53 ->
  Js.shortest_at n k = None \/ Js.shortest_at n k = Some n.
Proof.
  intros Hn. unfold Js.shortest_at.
  set (p := 10 ^ Z.max 0 (Js.digits10 n - k)).
  assert (Hp : 0 < p) by (apply Z.pow_pos_nonneg; lia).
  pose proof (Z.mul_div_le n p Hp) as Hlo.
  pose proof (Z.mul_succ_div_gt n p Hp) as Hhi.
  set (lo := n / p * p) in *.
  assert (Hlo' : lo <= n) by (unfold lo; lia).
  assert (Hhi' : n < lo + p) by (unfold lo; lia).
  rewrite (round53_small n) by lia.
  rewrite (round53_small lo) by lia.
  assert (Hnhi : (Js.round53 (lo + p) =? n)%Z = false).
  { apply Z.eqb_neq. destruct (Z_lt_ge_dec (lo + p) (2 ^ 53)).
    - rewrite round53_small by assumption. lia.
    - pose proof (round53_large (lo + p)). lia. }
  rewrite Hnhi.
  destruct (Z.eqb_spec lo n) as [->|]; [right|left]; reflexivity.
Qed.

Lemma shortest_from_small (n k : Z) (fuel : nat) :
  0 < n < 2 ^ 53 -> Js.shortest_from n k fuel = n.
Proof.
  intros Hn. revert k. induction fuel as [|fuel IH]; intros k; simpl.
  - reflexivity.
  - destruct (shortest_at_small n k Hn) as [-> | ->]; [apply IH|reflexivity].
Qed.

Lemma NumberToString_safe_integer (z : Z) :
  - 2 ^ 53 < z < 2 ^ 53 -> Js.NumberToString (Fin z) = pretty z.
Proof.
  intros Hz.
  assert (Hpos : forall p, Z.pos p < 2 ^ 53 ->
                           Js.positive_toString (Z.pos p) = pretty (Z.pos p)).
  { intros p Hp. unfold Js.positive_toString, Js.shortest.
    rewrite shortest_from_small by lia.
    destruct (Z.ltb_spec (Z.pos p) (10 ^ 21)) as [_|Hbig]; [reflexivity|].
    exfalso. assert (2 ^ 53 < 10 ^ 21) by reflexivity. lia. }
  destruct z as [|p|p]; simpl.
  - reflexivity.
  - apply Hpos. lia.
  - rewrite Hpos by lia. reflexivity.
Qed.


(** The cell of a point is decided by the division of doubles: 0.29 / 0.01
    is 28.999999999999996, so 0.29 is in cell 28, while 0.06 / 0.01 is 6. *)
Lemma gridIndex_follows_double_division :
  gridIndex 0.29%float = Fin 28 /\ gridIndex 0.06%float = Fin 6.
Proof. split; vm_compute; reflexivity. Qed.

(** ** Each copy computes the classification *)

Lemma or_chain_score (zone : gmap string Value) (snake camel : string) :
  (zone !!! snake || zone !!! camel || 0)%js = score zone snake camel.
Proof.
  unfold score, Js.or.
  destruct (Js.ToBoolean (zone !!! snake)) eqn:Hs.
  - now rewrite Hs.
  - now destruct (Js.ToBoolean (zone !!! camel)).
Qed.

Lemma strict_eq_spec (a : Argument) (s : string) :
  reflect (a = Str s) (Js.strict_eq a s).
Proof.
  destruct a as [t|v]; simpl.
  - destruct (String.eqb_spec t s) as [->|Hne]; constructor;
      [reflexivity|congruence].
  - constructor. discriminate.
Qed.

Lemma selected_other zone (mapType : Argument) :
  mapType <> "smoke" -> mapType <> "all" ->
  selectedDebt zone mapType = vapeDebt zone
  /\ selectedRestore zone mapType = vapeRestore zone.
Proof.
  intros Hs Ha. unfold selectedDebt, selectedRestore.
  destruct (strict_eq_spec mapType "smoke"); [contradiction|].
  destruct (strict_eq_spec mapType "all"); [contradiction|].
  split; reflexivity.
Qed.

Ltac by_map_type mapType :=
  destruct (strict_eq_spec mapType "vape") as [->|?]; [reflexivity|];
  destruct (strict_eq_spec mapType "smoke") as [->|?]; [reflexivity|];
  destruct (strict_eq_spec mapType "all") as [->|?]; reflexivity.

Ltac unfold_selection :=
  unfold netScore, selectedDebt, selectedRestore,
    vapeDebt, vapeRestore, smokeDebt, smokeRestore.

Lemma HeatmapView_calculateState_net zone mapType :
  HeatmapView.calculateState zone mapType = stateOfNet (netScore zone mapType).
Proof.
  unfold HeatmapView.calculateState. unfold_selection.
  rewrite !or_chain_score. by_map_type mapType.
Qed.

Lemma ZoneInspector_calculateState_net zone mapType :
  ZoneInspector.calculateState zone mapType
  = stateOfNet (netScore zone mapType).
Proof.
  unfold ZoneInspector.calculateState. unfold_selection.
  rewrite !or_chain_score. by_map_type mapType.
Qed.

Ltac to_net :=
  rewrite ?HeatmapView_calculateState_net, ?ZoneInspector_calculateState_net.

(** ** The states of a net score *)

Lemma net_gt_Fin (n t : Z) : net_gt (Fin n) t <-> t < n.
Proof. unfold net_gt; simpl. apply Z.ltb_lt. Qed.

Lemma net_le_Fin (n t : Z) : net_le (Fin n) t <-> n <= t.
Proof.
  unfold net_le; simpl. rewrite negb_true_iff, Z.ltb_ge. reflexivity.
Qed.

Lemma stateOfNet_Fin (n : Z) :
  stateOfNet (Fin n)
  = if Z_lt_dec 20 n then "recovered"
    else if Z_lt_dec (-20) n then "healing" else "needs_restoration".
Proof.
  unfold stateOfNet; simpl.
  destruct (Z.ltb_spec 20 n), (Z_lt_dec 20 n); try lia;
    destruct (Z.ltb_spec (-20) n), (Z_lt_dec (-20) n); try lia; reflexivity.
Qed.

Lemma stateOfNet_thresholds (net : Number) :
  net <> NaN -> thresholds_hold (stateOfNet net) net.
Proof.
  intros Hnan. destruct net as [|n| |]; [contradiction| | |].
  - unfold thresholds_hold. rewrite stateOfNet_Fin, !net_gt_Fin, !net_le_Fin.
    destruct (Z_lt_dec 20 n); [|destruct (Z_lt_dec (-20) n)];
      (repeat split; intros; try discriminate; try lia).
  - unfold thresholds_hold, net_gt, net_le; simpl.
    repeat split; intros; try discriminate; intuition discriminate.
  - unfold thresholds_hold, net_gt, net_le; simpl.
    repeat split; intros; try discriminate; intuition discriminate.
Qed.

Lemma stateOfNet_total (net : Number) :
  stateOfNet net = "needs_restoration"
  \/ stateOfNet net = "healing"
  \/ stateOfNet net = "recovered".
Proof.
  unfold stateOfNet.
  destruct (Js.Number_ltb (Fin 20) net); [tauto|].
  destruct (Js.Number_ltb (Fin (-20)) net); tauto.
Qed.

Lemma stateRank_stateOfNet (net : Number) :
  stateRank (stateOfNet net)
  = if Js.Number_ltb (Fin 20) net then 2
    else if Js.Number_ltb (Fin (-20)) net then 1 else 0.
Proof.
  unfold stateOfNet.
  destruct (Js.Number_ltb (Fin 20) net); [reflexivity|].
  destruct (Js.Number_ltb (Fin (-20)) net); reflexivity.
Qed.

(** The state of a sum or difference is the state of the exact integer:
    rounding does not cross 20 or -20. *)
Lemma stateOfNet_nearest (z : Z) :
  stateOfNet (Js.nearest z) = stateOfNet (Fin z).
Proof.
  unfold stateOfNet. rewrite !nearest_threshold by lia. reflexivity.
Qed.

Lemma stateOfNet_monotone (debt restore1 restore2 : Number) :
  Js.Number_leb restore1 restore2 = true ->
  stateRank (stateOfNet (Js.Number_sub restore1 debt))
  <= stateRank (stateOfNet (Js.Number_sub restore2 debt)).
Proof.
  intros Hle.
  destruct debt as [|d| |], restore1 as [|r1| |], restore2 as [|r2| |];
    cbn [Js.Number_sub Js.Number_add Js.Number_neg Js.Number_leb
           Js.Number_ltb negb] in *;
    try discriminate; rewrite ?stateOfNet_nearest, ?stateRank_stateOfNet;
    cbn [Js.Number_ltb]; try lia.
  all: try (apply negb_true_iff, Z.ltb_ge in Hle).
  all: repeat match goal with
         | |- context [(?a <? ?b)%Z] => destruct (Z.ltb_spec a b)
         end; lia.
Qed.

(** ** Zones of the data model *)

Lemma zoneOf_lookups (vd vr sd sr : Z) :
  let zone := zoneOf vd vr sd sr in
  zone !!! "vape_debt" = Undefined /\ zone !!! "vapeDebt" = Num (Fin vd)
  /\ zone !!! "vape_restore" = Undefined /\ zone !!! "vapeRestore" = Num (Fin vr)
  /\ zone !!! "smoke_debt" = Undefined /\ zone !!! "smokeDebt" = Num (Fin sd)
  /\ zone !!! "smoke_restore" = Undefined
  /\ zone !!! "smokeRestore" = Num (Fin sr).
Proof. repeat split; reflexivity. Qed.

Lemma score_Fin (zone : gmap string Value) (snake camel : string) (z : Z) :
  zone !!! snake = Undefined -> zone !!! camel = Num (Fin z) ->
  score zone snake camel = Num (Fin z).
Proof.
  intros Hs Hc. unfold score. rewrite Hs, Hc. simpl.
  destruct (Z.eqb_spec z 0) as [->|]; reflexivity.
Qed.

Lemma zoneOf_scores (vd vr sd sr : Z) :
  let zone := zoneOf vd vr sd sr in
  vapeDebt zone = Num (Fin vd) /\ vapeRestore zone = Num (Fin vr)
  /\ smokeDebt zone = Num (Fin sd) /\ smokeRestore zone = Num (Fin sr).
Proof.
  destruct (zoneOf_lookups vd vr sd sr) as (?&?&?&?&?&?&?&?).
  repeat split; apply score_Fin; assumption.
Qed.

Lemma add_Fin (a b : Z) :
  Js.add (Num (Fin a)) (Num (Fin b)) = Js.nearest (a + b).
Proof. reflexivity. Qed.

Lemma sub_Fin (a b : Z) :
  Js.sub (Num (Fin a)) (Num (Fin b)) = Js.nearest (a - b).
Proof.
  unfold Js.sub, Js.Number_sub.
  cbn [Js.ToNumber Js.Number_neg Js.Number_add]. now rewrite Z.add_opp_r.
Qed.

Lemma selected_zoneOf (vd vr sd sr : Z) (mapType : Argument) :
  selectedDebt (zoneOf vd vr sd sr) mapType
  = (if Js.strict_eq mapType "smoke" then Num (Fin sd)
     else if Js.strict_eq mapType "all" then Num (Js.nearest (vd + sd))
     else Num (Fin vd))
  /\ selectedRestore (zoneOf vd vr sd sr) mapType
     = (if Js.strict_eq mapType "smoke" then Num (Fin sr)
        else if Js.strict_eq mapType "all" then Num (Js.nearest (vr + sr))
        else Num (Fin vr)).
Proof.
  destruct (zoneOf_scores vd vr sd sr) as (Hvd & Hvr & Hsd & Hsr).
  cbv zeta in *. unfold selectedDebt, selectedRestore.
  rewrite Hvd, Hvr, Hsd, Hsr, !add_Fin.
  destruct (Js.strict_eq mapType "smoke"); [split; reflexivity|].
  destruct (Js.strict_eq mapType "all"); split; reflexivity.
Qed.

(** With small scores the selected pair and the net score are the exact
    integers. *)
Lemma selected_zoneOf_small (vd vr sd sr : Z) (mapType : Argument) :
  smallScores vd vr sd sr ->
  selectedDebt (zoneOf vd vr sd sr) mapType
  = Num (Fin (if Js.strict_eq mapType "smoke" then sd
              else if Js.strict_eq mapType "all" then vd + sd else vd))
  /\ selectedRestore (zoneOf vd vr sd sr) mapType
     = Num (Fin (if Js.strict_eq mapType "smoke" then sr
                 else if Js.strict_eq mapType "all" then vr + sr else vr)).
Proof.
  intros (Hvd & Hvr & Hsd & Hsr).
  destruct (selected_zoneOf vd vr sd sr mapType) as [-> ->].
  rewrite !nearest_small by lia.
  destruct (Js.strict_eq mapType "smoke"); [split; reflexivity|].
  destruct (Js.strict_eq mapType "all"); split; reflexivity.
Qed.

Lemma netScore_zoneOf (vd vr sd sr : Z) :
  netScore (zoneOf vd vr sd sr) "vape" = Js.nearest (vr - vd)
  /\ netScore (zoneOf vd vr sd sr) "smoke" = Js.nearest (sr - sd)
  /\ netScore (zoneOf vd vr sd sr) "all"
     = Js.Number_sub (Js.nearest (vr + sr)) (Js.nearest (vd + sd)).
Proof.
  unfold netScore.
  repeat split;
    match goal with
    | |- context [selectedDebt _ ?m] =>
        destruct (selected_zoneOf vd vr sd sr m) as [-> ->]
    end; cbn [Js.strict_eq String.eqb Ascii.eqb Bool.eqb];
    [apply sub_Fin | apply sub_Fin | reflexivity].
Qed.

Lemma netScore_zoneOf_small (vd vr sd sr : Z) (mapType : Argument) :
  smallScores vd vr sd sr ->
  netScore (zoneOf vd vr sd sr) mapType
  = Fin (exactNet mapType vd vr sd sr).
Proof.
  intros Hsmall. unfold netScore, exactNet.
  destruct (selected_zoneOf_small vd vr sd sr mapType Hsmall) as [-> ->].
  destruct Hsmall as (Hvd & Hvr & Hsd & Hsr). rewrite sub_Fin.
  destruct (Js.strict_eq mapType "smoke"); [apply nearest_small; lia|].
  destruct (Js.strict_eq mapType "all"); apply nearest_small; lia.
Qed.

(** The state of a zone of the data model is the state of its exact net
    score; for [all], when the two sums are safe integers. *)
Lemma stateOfNet_zoneOf (vd vr sd sr : Z) :
  stateOfNet (netScore (zoneOf vd vr sd sr) "vape") = stateOfNet (Fin (vr - vd))
  /\ stateOfNet (netScore (zoneOf vd vr sd sr) "smoke")
     = stateOfNet (Fin (sr - sd))
  /\ (safeInteger (vd + sd) -> safeInteger (vr + sr) ->
      stateOfNet (netScore (zoneOf vd vr sd sr) "all")
      = stateOfNet (Fin ((vr + sr) - (vd + sd)))).
Proof.
  destruct (netScore_zoneOf vd vr sd sr) as (-> & -> & ->).
  split; [apply stateOfNet_nearest|]. split; [apply stateOfNet_nearest|].
  unfold safeInteger. intros Hd Hr. rewrite !nearest_small by lia.
  change (Js.Number_sub (Fin (vr + sr)) (Fin (vd + sd)))
    with (Js.sub (Num (Fin (vr + sr))) (Num (Fin (vd + sd)))).
  rewrite sub_Fin. apply stateOfNet_nearest.
Qed.

(** ** Falsy fields *)

Lemma score_insert_falsy
  (zone : gmap string Value) (field : string) (v : Value)
  (snake camel : string) :
  Js.ToBoolean (zone !!! field) = false -> Js.ToBoolean v = false ->
  score (<[field := v]> zone) snake camel = score zone snake camel.
Proof.
  intros Hold Hnew. unfold score.
  destruct (decide (field = snake)) as [<-|Hs];
    destruct (decide (field = camel)) as [<-|Hc];
    rewrite ?lookup_total_insert_eq, ?lookup_total_insert_ne by assumption;
    rewrite ?Hold, ?Hnew; reflexivity.
Qed.

Lemma netScore_insert_falsy
  (zone : gmap string Value) (field : string) (v : Value) (mapType : Argument) :
  Js.ToBoolean (zone !!! field) = false -> Js.ToBoolean v = false ->
  netScore (<[field := v]> zone) mapType = netScore zone mapType.
Proof.
  intros Hold Hnew. unfold_selection.
  now rewrite !(score_insert_falsy zone field v) by assumption.
Qed.

Lemma withZeros_falsy
  (zone : gmap string Value) (fields : list string) (field : string) :
  Js.ToBoolean (zone !!! field) = false ->
  Js.ToBoolean (withZeros fields zone !!! field) = false.
Proof.
  intros Hfalsy. induction fields as [|f fields IH]; simpl; [assumption|].
  destruct (decide (f = field)) as [->|Hne].
  - now rewrite lookup_total_insert_eq.
  - now rewrite lookup_total_insert_ne.
Qed.

Lemma netScore_withZeros
  (zone : gmap string Value) (fields : list string) (mapType : Argument) :
  Forall (fun field => Js.ToBoolean (zone !!! field) = false) fields ->
  netScore (withZeros fields zone) mapType = netScore zone mapType.
Proof.
  induction 1 as [|f fields Hf _ IH]; simpl; [reflexivity|].
  rewrite netScore_insert_falsy; [exact IH| |reflexivity].
  apply withZeros_falsy, Hf.
Qed.

Lemma absent_reads_undefined (zone : gmap string Value) (field : string) :
  zone !! field = None \/ zone !! field = Some Undefined ->
  zone !!! field = Undefined.
Proof.
  intros [H|H]; rewrite lookup_total_alt, H; reflexivity.
Qed.

(** ** The points *)

Lemma Math_max_Fin (a b : Z) :
  Js.Math_max (Num (Fin a)) (Num (Fin b)) = Fin (Z.max a b).
Proof.
  unfold Js.Math_max; simpl.
  destruct (Z.ltb_spec a b); f_equal; lia.
Qed.

Lemma points_Fin (n : Z) :
  - 2 ^ 52 <= n <= 2 ^ 52 ->
  pointsToHealing (Fin n) = Fin (Z.max 0 (-20 - n + 1))
  /\ pointsToRecovered (Fin n) = Fin (Z.max 0 (20 - n + 1)).
Proof.
  intros Hn. unfold pointsToHealing, pointsToRecovered.
  rewrite !sub_Fin, !nearest_small by lia.
  rewrite !add_Fin, !nearest_small by lia.
  split; apply Math_max_Fin.
Qed.

(** ** The tables *)

Lemma stateColors_stateOfNet (net : Number) :
  HeatmapView.stateColors !! stateOfNet net
  = Some (Js.or_string (ZoneInspector.stateColors !! stateOfNet net) "#B8C4D0").
Proof.
  destruct (stateOfNet_total net) as [-> | [-> | ->]]; reflexivity.
Qed.

Lemma stateMessages_stateOfNet (net : Number) :
  HeatmapView.stateMessages !! stateOfNet net
  = Some (Js.or_string (ZoneInspector.stateMessages !! stateOfNet net)
            "Zone information unavailable").
Proof.
  destruct (stateOfNet_total net) as [-> | [-> | ->]]; reflexivity.
Qed.

(** * The claims *)

(** C1, as stated, fails on a net score that is no number: infinity minus
    infinity is [NaN], which is neither above -20 nor at most -20, and the
    state is needs_restoration.  (A score is infinite when the JSON text
    holds a numeral too large for a double.) *)
Lemma NaN_net_needs_restoration :
  zoneWithInfiniteScores !! "vape_debt" = Some (Num PosInf)
  /\ zoneWithInfiniteScores !! "vape_restore" = Some (Num PosInf)
  /\ netScore zoneWithInfiniteScores "vape" = NaN
  /\ HeatmapView.calculateState zoneWithInfiniteScores "vape"
     = "needs_restoration"
  /\ ZoneInspector.calculateState zoneWithInfiniteScores "vape"
     = "needs_restoration"
  /\ ~ net_le (netScore zoneWithInfiniteScores "vape") (-20)
  /\ ~ thresholds_hold
         (HeatmapView.calculateState zoneWithInfiniteScores "vape")
         (netScore zoneWithInfiniteScores "vape").
Proof.
  assert (Hnot : ~ net_le (netScore zoneWithInfiniteScores "vape") (-20))
    by discriminate.
  repeat split; try reflexivity; try exact Hnot.
  intros (_ & _ & Hneeds). apply Hnot, Hneeds. reflexivity.
Qed.

Lemma stateOfNet_thresholds_with_NaN (net : Number) :
  thresholds_with_NaN (stateOfNet net) net.
Proof.
  destruct net as [|n| |].
  - unfold thresholds_with_NaN, net_gt, net_le. cbn.
    repeat split; intros; try discriminate; try tauto.
    destruct H; discriminate.
  - destruct (stateOfNet_thresholds (Fin n) ltac:(discriminate))
      as (Hr & Hh & Hd).
    split; [exact Hr|]. split; [exact Hh|].
    rewrite Hd. split; [now left | intros [H|H]; [exact H | discriminate]].
  - destruct (stateOfNet_thresholds PosInf ltac:(discriminate))
      as (Hr & Hh & Hd).
    split; [exact Hr|]. split; [exact Hh|].
    rewrite Hd. split; [now left | intros [H|H]; [exact H | discriminate]].
  - destruct (stateOfNet_thresholds NegInf ltac:(discriminate))
      as (Hr & Hh & Hd).
    split; [exact Hr|]. split; [exact Hh|].
    rewrite Hd. split; [now left | intros [H|H]; [exact H | discriminate]].
Qed.

(** C1, amended.  With [net] the net score [restore - debt] of the selected
    pair, as the subtraction of doubles gives it, for every zone and every
    mode (one outside vape, smoke and all selects the vape pair): both
    copies of [calculateState] answer [recovered] exactly when [net > 20],
    [healing] exactly when [net <= 20] and [net > -20], and
    [needs_restoration] exactly when [net <= -20] or [net] is [NaN]; when
    [net] is a number, exactly when [net <= -20].  On a zone of the data
    model with small scores the net score is the integer difference.  The
    comparisons are strict: a net score of 20 is healing, 21 recovered, -20
    in need of restoration, -19 healing. *)
Theorem calculateState_thresholds :
  (forall (zone : gmap string Value) (mapType : Argument),
      thresholds_with_NaN (HeatmapView.calculateState zone mapType)
        (netScore zone mapType)
      /\ thresholds_with_NaN (ZoneInspector.calculateState zone mapType)
           (netScore zone mapType))
  /\ (forall (zone : gmap string Value) (mapType : Argument),
         netScore zone mapType <> NaN ->
         thresholds_hold (HeatmapView.calculateState zone mapType)
           (netScore zone mapType)
         /\ thresholds_hold (ZoneInspector.calculateState zone mapType)
              (netScore zone mapType))
  /\ (forall (zone : gmap string Value) (mapType : Argument) (n : Z)
             (state : string),
         netScore zone mapType = Fin n ->
         state = HeatmapView.calculateState zone mapType
         \/ state = ZoneInspector.calculateState zone mapType ->
         (state = "recovered" <-> n > 20)
         /\ (state = "healing" <-> n <= 20 /\ n > -20)
         /\ (state = "needs_restoration" <-> n <= -20))
  /\ (forall (vd vr sd sr : Z) (mapType : Argument),
         smallScores vd vr sd sr ->
         netScore (zoneOf vd vr sd sr) mapType
         = Fin (exactNet mapType vd vr sd sr))
  /\ HeatmapView.calculateState (zoneOf 0 20 0 0) "vape" = "healing"
  /\ HeatmapView.calculateState (zoneOf 0 21 0 0) "vape" = "recovered"
  /\ HeatmapView.calculateState (zoneOf 20 0 0 0) "vape" = "needs_restoration"
  /\ HeatmapView.calculateState (zoneOf 19 0 0 0) "vape" = "healing"
  /\ ZoneInspector.calculateState (zoneOf 0 20 0 0) "vape" = "healing"
  /\ ZoneInspector.calculateState (zoneOf 0 21 0 0) "vape" = "recovered"
  /\ ZoneInspector.calculateState (zoneOf 20 0 0 0) "vape"
     = "needs_restoration"
  /\ ZoneInspector.calculateState (zoneOf 19 0 0 0) "vape" = "healing".
Proof.
  split; [|split; [|split; [|split]]].
  - intros zone mapType. to_net.
    split; apply stateOfNet_thresholds_with_NaN.
  - intros zone mapType Hnan. to_net.
    split; apply stateOfNet_thresholds, Hnan.
  - intros zone mapType n state Hn Hstate.
    assert (Hs : state = stateOfNet (Fin n)).
    { rewrite <- Hn. destruct Hstate as [-> | ->]; to_net; reflexivity. }
    assert (Hth : thresholds_hold state (Fin n)).
    { rewrite Hs. apply stateOfNet_thresholds. discriminate. }
    destruct Hth as (Hr & Hh & Hd).
    rewrite net_gt_Fin in Hr. rewrite net_le_Fin, net_gt_Fin in Hh.
    rewrite net_le_Fin in Hd.
    rewrite Hr, Hh, Hd. repeat split; lia.
  - apply netScore_zoneOf_small.
  - repeat split; vm_compute; reflexivity.
Qed.

Lemma calculateState_thresholds_witness :
  smallScores 0 20 0 0
  /\ netScore (zoneOf 0 20 0 0) "vape" = Fin 20
  /\ netScore (zoneOf 0 20 0 0) "vape" <> NaN
  /\ thresholds_hold (HeatmapView.calculateState (zoneOf 0 20 0 0) "vape")
       (netScore (zoneOf 0 20 0 0) "vape")
  /\ thresholds_hold (ZoneInspector.calculateState (zoneOf 0 20 0 0) "vape")
       (netScore (zoneOf 0 20 0 0) "vape").
Proof.
  assert (Hsmall : smallScores 0 20 0 0) by (unfold smallScores; lia).
  assert (H : netScore (zoneOf 0 20 0 0) "vape" <> NaN) by discriminate.
  split; [exact Hsmall|].
  split;
    [exact (proj1 (proj2 (proj2 (proj2 calculateState_thresholds)))
              0 20 0 0 "vape" Hsmall)|].
  split; [exact H|].
  exact (proj1 (proj2 calculateState_thresholds) (zoneOf 0 20 0 0) "vape" H).
Defined.

(** C2.  [calculateState] selects its pair by view mode: the vape scores for
    [vape], the smoke scores for [smoke], and for [all] the sum of the two
    debts and the sum of the two restore scores, the sums and the
    difference being those of doubles.  On a zone of the data model the
    state is that of the integer [vapeRestore - vapeDebt] or
    [smokeRestore - smokeDebt], and for [all], when the two sums are safe
    integers, that of [(vapeRestore + smokeRestore) - (vapeDebt +
    smokeDebt)]; the zone
    [{vapeDebt: 5, vapeRestore: 30, smokeDebt: 5, smokeRestore: 0}] in mode
    [all] has net score 20 and is healing.  Past 2^53 the sums are rounded:
    [{vapeDebt: 2^53 - 20, vapeRestore: 2^53, smokeRestore: 1}] is healing
    in mode [all]. *)
Theorem calculateState_selection :
  (forall zone : gmap string Value,
      HeatmapView.calculateState zone "vape"
      = stateOfNet (Js.sub (vapeRestore zone) (vapeDebt zone))
      /\ HeatmapView.calculateState zone "smoke"
         = stateOfNet (Js.sub (smokeRestore zone) (smokeDebt zone))
      /\ HeatmapView.calculateState zone "all"
         = stateOfNet
             (Js.sub (Js.add (vapeRestore zone) (smokeRestore zone))
                     (Js.add (vapeDebt zone) (smokeDebt zone)))
      /\ ZoneInspector.calculateState zone "vape"
         = stateOfNet (Js.sub (vapeRestore zone) (vapeDebt zone))
      /\ ZoneInspector.calculateState zone "smoke"
         = stateOfNet (Js.sub (smokeRestore zone) (smokeDebt zone))
      /\ ZoneInspector.calculateState zone "all"
         = stateOfNet
             (Js.sub (Js.add (vapeRestore zone) (smokeRestore zone))
                     (Js.add (vapeDebt zone) (smokeDebt zone))))
  /\ (forall vd vr sd sr : Z,
         HeatmapView.calculateState (zoneOf vd vr sd sr) "vape"
         = stateOfNet (Fin (vr - vd))
         /\ HeatmapView.calculateState (zoneOf vd vr sd sr) "smoke"
            = stateOfNet (Fin (sr - sd))
         /\ ZoneInspector.calculateState (zoneOf vd vr sd sr) "vape"
            = stateOfNet (Fin (vr - vd))
         /\ ZoneInspector.calculateState (zoneOf vd vr sd sr) "smoke"
            = stateOfNet (Fin (sr - sd)))
  /\ (forall vd vr sd sr : Z,
         safeInteger (vd + sd) -> safeInteger (vr + sr) ->
         HeatmapView.calculateState (zoneOf vd vr sd sr) "all"
         = stateOfNet (Fin ((vr + sr) - (vd + sd)))
         /\ ZoneInspector.calculateState (zoneOf vd vr sd sr) "all"
            = stateOfNet (Fin ((vr + sr) - (vd + sd))))
  /\ netScore (zoneOf 5 30 5 0) "all" = Fin ((30 + 0) - (5 + 5))
  /\ stateOfNet (Fin 20) = "healing"
  /\ HeatmapView.calculateState (zoneOf 5 30 5 0) "all" = "healing"
  /\ ZoneInspector.calculateState (zoneOf 5 30 5 0) "all" = "healing"
  /\ netScore (zoneOf (2 ^ 53 - 20) (2 ^ 53) 0 1) "all" = Fin 20
  /\ HeatmapView.calculateState (zoneOf (2 ^ 53 - 20) (2 ^ 53) 0 1) "all"
     = "healing"
  /\ ZoneInspector.calculateState (zoneOf (2 ^ 53 - 20) (2 ^ 53) 0 1) "all"
     = "healing".
Proof.
  split; [|split; [|split]].
  - intros zone. to_net. repeat split; reflexivity.
  - intros vd vr sd sr. to_net.
    destruct (stateOfNet_zoneOf vd vr sd sr) as (-> & -> & _).
    repeat split; reflexivity.
  - intros vd vr sd sr Hd Hr. to_net.
    destruct (stateOfNet_zoneOf vd vr sd sr) as (_ & _ & Hall).
    rewrite (Hall Hd Hr). split; reflexivity.
  - repeat split; vm_compute; reflexivity.
Qed.

Lemma calculateState_selection_witness :
  safeInteger (5 + 5) /\ safeInteger (30 + 0)
  /\ HeatmapView.calculateState (zoneOf 5 30 5 0) "all"
     = stateOfNet (Fin ((30 + 0) - (5 + 5)))
  /\ ZoneInspector.calculateState (zoneOf 5 30 5 0) "all"
     = stateOfNet (Fin ((30 + 0) - (5 + 5))).
Proof.
  assert (Hd : safeInteger (5 + 5)) by (unfold safeInteger; lia).
  assert (Hr : safeInteger (30 + 0)) by (unfold safeInteger; lia).
  split; [exact Hd|]. split; [exact Hr|].
  exact (proj1 (proj2 (proj2 calculateState_selection)) 5 30 5 0 Hd Hr).
Defined.

Lemma append_assoc (a b c : string) : (a +:+ b) +:+ c = a +:+ (b +:+ c).
Proof.
  induction a as [|x a IH]; [reflexivity|].
  change (String x ((a +:+ b) +:+ c) = String x (a +:+ (b +:+ c))).
  now rewrite IH.
Qed.

Lemma append_nil_r (a : string) : a +:+ "" = a.
Proof.
  induction a as [|x a IH]; [reflexivity|].
  change (String x (a +:+ "") = String x a). now rewrite IH.
Qed.

(** The markup of [calculateProgressInfo], for every zone and mode. *)
Lemma calculateProgressInfo_markup
  (zone : gmap string Value) (mapType : Argument) :
  ZoneInspector.calculateProgressInfo zone mapType "needs_restoration"
  = needsRestorationMarkup
      (Js.NumberToString (pointsToHealing (netScore zone mapType)))
      (Js.NumberToString (pointsToRecovered (netScore zone mapType)))
      (Js.NumberToString (netScore zone mapType))
      (Js.ToString (selectedRestore zone mapType))
      (Js.ToString (selectedDebt zone mapType))
  /\ ZoneInspector.calculateProgressInfo zone mapType "healing"
     = healingMarkup
         (Js.NumberToString (pointsToRecovered (netScore zone mapType)))
         (Js.NumberToString (netScore zone mapType))
         (Js.ToString (selectedRestore zone mapType))
         (Js.ToString (selectedDebt zone mapType))
  /\ ZoneInspector.calculateProgressInfo zone mapType "recovered"
     = recoveredMarkup
         (Js.NumberToString (netScore zone mapType))
         (Js.ToString (selectedRestore zone mapType))
         (Js.ToString (selectedDebt zone mapType)).
Proof.
  assert (Hcode :
    forall currentState : Argument,
      ZoneInspector.calculateProgressInfo zone mapType currentState
      = ((("<div class=" +:+ dq +:+ "zone-progress-info" +:+ dq +:+ ">")
          +:+ (if Js.strict_eq currentState "needs_restoration" then
                 ZoneInspector.progressItem "🌱"
                   (pointsToHealing (netScore zone mapType)) "Healing"
                 +:+ ZoneInspector.progressItem "✨"
                       (pointsToRecovered (netScore zone mapType))
                       "Recovered"
                 +:+ nl +:+ "      "
               else if Js.strict_eq currentState "healing" then
                 ZoneInspector.progressItem "✨"
                   (pointsToRecovered (netScore zone mapType)) "Recovered"
                 +:+ nl +:+ "      "
               else if Js.strict_eq currentState "recovered" then
                 ZoneInspector.recoveredItem +:+ nl +:+ "      "
               else ""))
         +:+ ZoneInspector.scoreInfo (netScore zone mapType)
               (selectedRestore zone mapType) (selectedDebt zone mapType))
        +:+ "</div>").
  { intros currentState.
    unfold ZoneInspector.calculateProgressInfo. unfold_selection.
    unfold pointsToHealing, pointsToRecovered. rewrite !or_chain_score.
    destruct (strict_eq_spec mapType "vape") as [->|?];
      [|destruct (strict_eq_spec mapType "smoke") as [->|?];
        [|destruct (strict_eq_spec mapType "all") as [->|?]]];
      cbn [Js.strict_eq String.eqb Ascii.eqb Bool.eqb];
      (destruct (Js.strict_eq currentState "needs_restoration");
       [reflexivity|]);
      (destruct (Js.strict_eq currentState "healing"); [reflexivity|]);
      (destruct (Js.strict_eq currentState "recovered"); [reflexivity|]);
      cbv zeta; now rewrite append_nil_r. }
  rewrite !Hcode.
  cbn [Js.strict_eq String.eqb Ascii.eqb Bool.eqb].
  unfold needsRestorationMarkup, healingMarkup, recoveredMarkup,
    ZoneInspector.progressItem, ZoneInspector.recoveredItem,
    ZoneInspector.scoreInfo.
  cbn [Js.ToString].
  repeat split; rewrite ?append_assoc; reflexivity.
Qed.











(** C5.  For a fixed view mode, a zone whose selected debt is the same number
    and whose selected restore score is at least as large is in a state at
    least as good, in the order needs_restoration < healing < recovered.  On
    zones of the data model: raising the restore scores with the debts
    unchanged never lowers the state, in any mode. *)
Theorem calculateState_monotone :
  (forall (zone1 zone2 : gmap string Value) (mapType : Argument),
      Js.ToNumber (selectedDebt zone1 mapType)
      = Js.ToNumber (selectedDebt zone2 mapType) ->
      Js.Number_leb (Js.ToNumber (selectedRestore zone1 mapType))
        (Js.ToNumber (selectedRestore zone2 mapType)) = true ->
      stateRank (HeatmapView.calculateState zone1 mapType)
      <= stateRank (HeatmapView.calculateState zone2 mapType)
      /\ stateRank (ZoneInspector.calculateState zone1 mapType)
         <= stateRank (ZoneInspector.calculateState zone2 mapType))
  /\ (forall (vd sd vr vr' sr sr' : Z) (mapType : Argument),
         vr <= vr' -> sr <= sr' ->
         stateRank (HeatmapView.calculateState (zoneOf vd vr sd sr) mapType)
         <= stateRank
              (HeatmapView.calculateState (zoneOf vd vr' sd sr') mapType)
         /\ stateRank
              (ZoneInspector.calculateState (zoneOf vd vr sd sr) mapType)
            <= stateRank
                 (ZoneInspector.calculateState (zoneOf vd vr' sd sr') mapType)).
Proof.
  assert (Hgen :
    forall (zone1 zone2 : gmap string Value) (mapType : Argument),
      Js.ToNumber (selectedDebt zone1 mapType)
      = Js.ToNumber (selectedDebt zone2 mapType) ->
      Js.Number_leb (Js.ToNumber (selectedRestore zone1 mapType))
        (Js.ToNumber (selectedRestore zone2 mapType)) = true ->
      stateRank (stateOfNet (netScore zone1 mapType))
      <= stateRank (stateOfNet (netScore zone2 mapType))).
  { intros zone1 zone2 mapType Hdebt Hrestore.
    unfold netScore, Js.sub. rewrite Hdebt.
    apply stateOfNet_monotone, Hrestore. }
  split.
  - intros zone1 zone2 mapType Hdebt Hrestore. to_net.
    split; apply Hgen; assumption.
  - intros vd sd vr vr' sr sr' mapType Hvr Hsr. to_net.
    assert (Hle :
      stateRank (stateOfNet (netScore (zoneOf vd vr sd sr) mapType))
      <= stateRank (stateOfNet (netScore (zoneOf vd vr' sd sr') mapType))).
    { apply Hgen.
      - destruct (selected_zoneOf vd vr sd sr mapType) as [-> _].
        destruct (selected_zoneOf vd vr' sd sr' mapType) as [-> _].
        reflexivity.
      - destruct (selected_zoneOf vd vr sd sr mapType) as [_ ->].
        destruct (selected_zoneOf vd vr' sd sr' mapType) as [_ ->].
        destruct (Js.strict_eq mapType "smoke");
          [now apply Number_leb_Fin|].
        destruct (Js.strict_eq mapType "all");
          [apply nearest_monotone; lia | now apply Number_leb_Fin]. }
    split; exact Hle.
Qed.

Lemma calculateState_monotone_witness :
  stateRank (HeatmapView.calculateState (zoneOf 30 5 0 0) "vape")
  <= stateRank (HeatmapView.calculateState (zoneOf 30 60 0 0) "vape")
  /\ stateRank (ZoneInspector.calculateState (zoneOf 30 5 0 0) "vape")
     <= stateRank (ZoneInspector.calculateState (zoneOf 30 60 0 0) "vape").
Proof.
  apply (proj1 calculateState_monotone
           (zoneOf 30 5 0 0) (zoneOf 30 60 0 0) "vape");
    reflexivity.
Defined.

(** C6.  On every zone object and for every view mode, a string or not, both
    copies of [calculateState] return one of the three states (property
    reads on an object and the operators they use are defined on every
    value, so nothing is thrown), and a field that is absent or [undefined]
    counts as 0: giving it, or any set of such fields, the value 0 changes
    nothing.  A zone with no field at all is healing. *)
Theorem calculateState_total (zone : gmap string Value) (mapType : Argument) :
  (HeatmapView.calculateState zone mapType = "needs_restoration"
   \/ HeatmapView.calculateState zone mapType = "healing"
   \/ HeatmapView.calculateState zone mapType = "recovered")
  /\ (ZoneInspector.calculateState zone mapType = "needs_restoration"
      \/ ZoneInspector.calculateState zone mapType = "healing"
      \/ ZoneInspector.calculateState zone mapType = "recovered")
  /\ (forall field : string,
         zone !! field = None \/ zone !! field = Some Undefined ->
         HeatmapView.calculateState (<[field := Num (Fin 0)]> zone) mapType
         = HeatmapView.calculateState zone mapType
         /\ ZoneInspector.calculateState (<[field := Num (Fin 0)]> zone) mapType
            = ZoneInspector.calculateState zone mapType)
  /\ (forall fields : list string,
         Forall (fun field =>
                   zone !! field = None \/ zone !! field = Some Undefined)
           fields ->
         HeatmapView.calculateState (withZeros fields zone) mapType
         = HeatmapView.calculateState zone mapType
         /\ ZoneInspector.calculateState (withZeros fields zone) mapType
            = ZoneInspector.calculateState zone mapType)
  /\ HeatmapView.calculateState ∅ mapType = "healing"
  /\ ZoneInspector.calculateState ∅ mapType = "healing".
Proof.
  to_net.
  split; [apply stateOfNet_total|]. split; [apply stateOfNet_total|].
  split; [|split].
  - intros field Habsent. to_net.
    rewrite netScore_insert_falsy; [split; reflexivity| |reflexivity].
    now rewrite (absent_reads_undefined zone field Habsent).
  - intros fields Habsent. to_net.
    rewrite netScore_withZeros; [split; reflexivity|].
    eapply Forall_impl; [exact Habsent|].
    intros field H. simpl. now rewrite (absent_reads_undefined zone field H).
  - unfold netScore, selectedDebt, selectedRestore.
    destruct (Js.strict_eq mapType "smoke"); [split; reflexivity|].
    destruct (Js.strict_eq mapType "all"); split; reflexivity.
Qed.

Lemma calculateState_total_witness :
  zoneOf 0 30 0 0 !! "smoke_debt" = None
  /\ HeatmapView.calculateState
       (<["smoke_debt" := Num (Fin 0)]> (zoneOf 0 30 0 0)) "all"
     = HeatmapView.calculateState (zoneOf 0 30 0 0) "all"
  /\ ZoneInspector.calculateState
       (<["smoke_debt" := Num (Fin 0)]> (zoneOf 0 30 0 0)) "all"
     = ZoneInspector.calculateState (zoneOf 0 30 0 0) "all".
Proof.
  assert (H : zoneOf 0 30 0 0 !! "smoke_debt" = None) by reflexivity.
  split; [exact H|].
  exact (proj1 (proj2 (proj2 (calculateState_total (zoneOf 0 30 0 0) "all")))
           "smoke_debt" (or_introl H)).
Defined.

(** C7.  A view mode other than vape, smoke and all, be it another string or
    no string at all, is no error: both copies of [calculateState] return
    what they return for vape. *)
Theorem calculateState_unknown_mode
  (zone : gmap string Value) (mapType : Argument) :
  mapType <> "vape" -> mapType <> "smoke" -> mapType <> "all" ->
  HeatmapView.calculateState zone mapType
  = HeatmapView.calculateState zone "vape"
  /\ ZoneInspector.calculateState zone mapType
     = ZoneInspector.calculateState zone "vape".
Proof.
  intros _ Hs Ha. to_net. unfold netScore.
  destruct (selected_other zone mapType Hs Ha) as [-> ->].
  split; reflexivity.
Qed.

Lemma calculateState_unknown_mode_witness :
  (HeatmapView.calculateState (zoneOf 0 30 50 0) "combined"
   = HeatmapView.calculateState (zoneOf 0 30 50 0) "vape"
   /\ ZoneInspector.calculateState (zoneOf 0 30 50 0) "combined"
      = ZoneInspector.calculateState (zoneOf 0 30 50 0) "vape")
  /\ (HeatmapView.calculateState (zoneOf 0 30 50 0) (Other Undefined)
      = HeatmapView.calculateState (zoneOf 0 30 50 0) "vape"
      /\ ZoneInspector.calculateState (zoneOf 0 30 50 0) (Other Undefined)
         = ZoneInspector.calculateState (zoneOf 0 30 50 0) "vape").
Proof.
  split.
  - apply (calculateState_unknown_mode (zoneOf 0 30 50 0) "combined");
      discriminate.
  - apply (calculateState_unknown_mode (zoneOf 0 30 50 0) (Other Undefined));
      discriminate.
Defined.

(** C8, as stated, fails: the debt [true] is not a number, yet it is not
    counted as 0.  It is truthy, so [||] keeps it, and the subtraction reads
    it as 1: with a restore score of 21 the net score is 20 and the zone is
    healing, where the zone with the debt replaced by 0 is recovered. *)
Lemma truthy_malformed_field_is_not_zero :
  zoneWithTrueDebt !! "vape_debt" = Some (Bool true)
  /\ netScore zoneWithTrueDebt "vape" = Fin 20
  /\ HeatmapView.calculateState zoneWithTrueDebt "vape" = "healing"
  /\ ZoneInspector.calculateState zoneWithTrueDebt "vape" = "healing"
  /\ HeatmapView.calculateState
       (<["vape_debt" := Num (Fin 0)]> zoneWithTrueDebt) "vape" = "recovered"
  /\ ZoneInspector.calculateState
       (<["vape_debt" := Num (Fin 0)]> zoneWithTrueDebt) "vape" = "recovered".
Proof. repeat split; reflexivity. Qed.

(** C8, amended.  A field whose value is falsy ([undefined], [null],
    [false], [NaN] or 0) counts as 0: replacing it by 0 changes the result of
    neither copy of [calculateState], in any view mode. *)
Theorem falsy_field_counts_as_zero
  (zone : gmap string Value) (field : string) (mapType : Argument) :
  Js.ToBoolean (zone !!! field) = false ->
  HeatmapView.calculateState (<[field := Num (Fin 0)]> zone) mapType
  = HeatmapView.calculateState zone mapType
  /\ ZoneInspector.calculateState (<[field := Num (Fin 0)]> zone) mapType
     = ZoneInspector.calculateState zone mapType.
Proof.
  intros Hfalsy. to_net.
  rewrite netScore_insert_falsy by (assumption || reflexivity).
  split; reflexivity.
Qed.

Lemma falsy_field_counts_as_zero_witness :
  Js.ToBoolean (zoneWithNullDebt !!! "vape_debt") = false
  /\ HeatmapView.calculateState
       (<["vape_debt" := Num (Fin 0)]> zoneWithNullDebt) "vape"
     = HeatmapView.calculateState zoneWithNullDebt "vape"
  /\ ZoneInspector.calculateState
       (<["vape_debt" := Num (Fin 0)]> zoneWithNullDebt) "vape"
     = ZoneInspector.calculateState zoneWithNullDebt "vape".
Proof.
  split; [reflexivity|].
  apply (falsy_field_counts_as_zero zoneWithNullDebt "vape_debt" "vape").
  reflexivity.
Defined.

(** C9.  On every zone and every map type the two copies of [calculateState]
    return the same state; the two components hold the same colour table and
    the same message table, with the colours #F4D03F, #52BE80, #5DADE2 and
    the messages of the three states; and the colour and the message each
    component shows for a zone are the same. *)
Theorem calculateState_replicas_agree
  (zone : gmap string Value) (mapType : Argument) :
  HeatmapView.calculateState zone mapType
  = ZoneInspector.calculateState zone mapType
  /\ HeatmapView.stateColors = ZoneInspector.stateColors
  /\ HeatmapView.stateMessages = ZoneInspector.stateMessages
  /\ HeatmapView.renderZone_color zone mapType
     = Some (ZoneInspector.show_stateColor zone mapType)
  /\ HeatmapView.handleZoneTap_message
       (HeatmapView.calculateState zone mapType)
     = Some (ZoneInspector.show_message zone mapType)
  /\ HeatmapView.stateColors !! "needs_restoration" = Some "#F4D03F"
  /\ HeatmapView.stateColors !! "healing" = Some "#52BE80"
  /\ HeatmapView.stateColors !! "recovered" = Some "#5DADE2"
  /\ HeatmapView.stateMessages !! "needs_restoration"
     = Some "This space needs care"
  /\ HeatmapView.stateMessages !! "healing" = Some "This space is healing"
  /\ HeatmapView.stateMessages !! "recovered"
     = Some "This space has recovered".
Proof.
  unfold HeatmapView.renderZone_color, HeatmapView.handleZoneTap_message,
    ZoneInspector.show_stateColor, ZoneInspector.show_message.
  to_net.
  split; [reflexivity|]. split; [reflexivity|]. split; [reflexivity|].
  split; [apply stateColors_stateOfNet|].
  split; [apply stateMessages_stateOfNet|].
  repeat split; reflexivity.
Qed.

(** C10.  Each score is read as [zone.snake_case || zone.camelCase || 0]: the
    snake_case value when it is truthy, otherwise the camelCase value when
    that is truthy, otherwise 0; both copies of [calculateState] classify the
    net score of the scores read this way.  With [vape_debt] 0 and
    [vapeDebt] 7 the vape debt is 7. *)
Theorem calculateState_field_precedence :
  (forall (zone : gmap string Value) (snake camel : string),
      (zone !!! snake || zone !!! camel || 0)%js = score zone snake camel
      /\ (Js.ToBoolean (zone !!! snake) = true ->
          score zone snake camel = zone !!! snake)
      /\ (Js.ToBoolean (zone !!! snake) = false ->
          Js.ToBoolean (zone !!! camel) = true ->
          score zone snake camel = zone !!! camel)
      /\ (Js.ToBoolean (zone !!! snake) = false ->
          Js.ToBoolean (zone !!! camel) = false ->
          score zone snake camel = Num (Fin 0)))
  /\ (forall (zone : gmap string Value) (mapType : Argument),
         HeatmapView.calculateState zone mapType
         = stateOfNet (netScore zone mapType)
         /\ ZoneInspector.calculateState zone mapType
            = stateOfNet (netScore zone mapType))
  /\ vapeDebt zoneWithBothNames = Num (Fin 7)
  /\ netScore zoneWithBothNames "vape" = Fin (-7)
  /\ HeatmapView.calculateState zoneWithBothNames "vape"
     = HeatmapView.calculateState (zoneOf 7 0 0 0) "vape"
  /\ ZoneInspector.calculateState zoneWithBothNames "vape"
     = ZoneInspector.calculateState (zoneOf 7 0 0 0) "vape".
Proof.
  split; [|split].
  - intros zone snake camel. split; [apply or_chain_score|].
    unfold score. repeat split; intros; repeat
      match goal with H : Js.ToBoolean _ = _ |- _ => rewrite H; clear H end;
      reflexivity.
  - intros zone mapType. split.
    + apply HeatmapView_calculateState_net.
    + apply ZoneInspector_calculateState_net.
  - repeat split; reflexivity.
Qed.

Lemma calculateState_field_precedence_witness :
  Js.ToBoolean (zoneWithBothNames !!! "vape_debt") = false
  /\ Js.ToBoolean (zoneWithBothNames !!! "vapeDebt") = true
  /\ score zoneWithBothNames "vape_debt" "vapeDebt"
     = zoneWithBothNames !!! "vapeDebt".
Proof.
  assert (Hs : Js.ToBoolean (zoneWithBothNames !!! "vape_debt") = false)
    by reflexivity.
  assert (Hc : Js.ToBoolean (zoneWithBothNames !!! "vapeDebt") = true)
    by reflexivity.
  split; [exact Hs|]. split; [exact Hc|].
  exact (proj1 (proj2 (proj2
           (proj1 calculateState_field_precedence
              zoneWithBothNames "vape_debt" "vapeDebt"))) Hs Hc).
Defined.

(** * Further properties of the code *)

(** ** The points shown are the points needed *)

Lemma stateOfNet_zoneOf_mode (vd vr sd sr : Z) (mapType : Argument) :
  safeInteger (vd + sd) -> safeInteger (vr + sr) ->
  stateOfNet (netScore (zoneOf vd vr sd sr) mapType)
  = stateOfNet (Fin (exactNet mapType vd vr sd sr)).
Proof.
  unfold safeInteger. intros Hd Hr. unfold netScore, exactNet.
  destruct (selected_zoneOf vd vr sd sr mapType) as [-> ->].
  destruct (Js.strict_eq mapType "smoke");
    [rewrite sub_Fin; apply stateOfNet_nearest|].
  destruct (Js.strict_eq mapType "all");
    rewrite ?nearest_small by lia; rewrite sub_Fin;
    apply stateOfNet_nearest.
Qed.

Lemma exactNet_raiseRestore (mapType : Argument) (d vd vr sd sr : Z) :
  smallScores vd vr sd sr -> 0 <= d <= 2 ^ 52 + 21 ->
  stateOfNet (netScore (raiseRestore mapType d vd vr sd sr) mapType)
  = stateOfNet (Fin (exactNet mapType vd vr sd sr + d)).
Proof.
  intros (Hvd & Hvr & Hsd & Hsr) Hd. unfold raiseRestore.
  destruct (Js.strict_eq mapType "smoke") eqn:Hs.
  - rewrite stateOfNet_zoneOf_mode by (unfold safeInteger; lia).
    unfold exactNet. rewrite Hs. f_equal. f_equal. lia.
  - rewrite stateOfNet_zoneOf_mode by (unfold safeInteger; lia).
    unfold exactNet. rewrite Hs.
    destruct (Js.strict_eq mapType "all"); f_equal; f_equal; lia.
Qed.

(** X1.  On a zone of the data model whose four scores are integers of
    magnitude at most 2^50, the numbers in the markup of
    [calculateProgressInfo] for the state [calculateState] returns are the
    least amounts by which the restore score must grow to change the state:
    in needs_restoration, raising it by the points to healing gives healing
    and by one less leaves needs_restoration; raising it by the points to
    recovered gives recovered and by one less gives healing.  Both numbers
    are at least 1 (the [max] with 0 never applies). *)
Theorem points_shown_are_minimal
  (vd vr sd sr : Z) (mapType : Argument) :
  smallScores vd vr sd sr ->
  let zone := zoneOf vd vr sd sr in
  let raised d := raiseRestore mapType d vd vr sd sr in
  exists toHealing toRecovered : Z,
    toHealing = -20 - exactNet mapType vd vr sd sr + 1
    /\ toRecovered = 20 - exactNet mapType vd vr sd sr + 1
    /\ (ZoneInspector.calculateState zone mapType = "needs_restoration" ->
        (exists netScore restore debt : string,
           ZoneInspector.calculateProgressInfo zone mapType
             "needs_restoration"
           = needsRestorationMarkup (pretty toHealing) (pretty toRecovered)
               netScore restore debt)
        /\ 1 <= toHealing < toRecovered
        /\ ZoneInspector.calculateState (raised toHealing) mapType = "healing"
        /\ ZoneInspector.calculateState (raised (toHealing - 1)) mapType
           = "needs_restoration"
        /\ ZoneInspector.calculateState (raised toRecovered) mapType
           = "recovered"
        /\ ZoneInspector.calculateState (raised (toRecovered - 1)) mapType
           = "healing")
    /\ (ZoneInspector.calculateState zone mapType = "healing" ->
        (exists netScore restore debt : string,
           ZoneInspector.calculateProgressInfo zone mapType "healing"
           = healingMarkup (pretty toRecovered) netScore restore debt)
        /\ 1 <= toRecovered
        /\ ZoneInspector.calculateState (raised toRecovered) mapType
           = "recovered"
        /\ ZoneInspector.calculateState (raised (toRecovered - 1)) mapType
           = "healing").
Proof.
  intros Hsmall. cbv zeta.
  pose proof (netScore_zoneOf_small vd vr sd sr mapType Hsmall) as Hn.
  set (n := exactNet mapType vd vr sd sr) in *.
  assert (Hrange : - 2 ^ 51 - 2 ^ 51 <= n <= 2 ^ 51 + 2 ^ 51).
  { destruct Hsmall as (Hvd & Hvr & Hsd & Hsr). unfold n, exactNet.
    destruct (Js.strict_eq mapType "smoke"); [lia|].
    destruct (Js.strict_eq mapType "all"); lia. }
  exists (-20 - n + 1), (20 - n + 1).
  split; [reflexivity|]. split; [reflexivity|].
  destruct (calculateProgressInfo_markup (zoneOf vd vr sd sr) mapType)
    as (Hneeds & Hhealing & _).
  rewrite Hneeds, Hhealing. to_net. rewrite Hn.
  destruct (points_Fin n ltac:(lia)) as [-> ->].
  rewrite stateOfNet_Fin.
  assert (Hraised : forall d, 0 <= d <= 2 ^ 52 + 21 ->
            stateOfNet
              (netScore (raiseRestore mapType d vd vr sd sr) mapType)
            = stateOfNet (Fin (n + d)))
    by (intros d Hd; now apply exactNet_raiseRestore).
  split; intros Hstate;
    repeat match goal with
      | H : context [Z_lt_dec ?a ?b] |- _ => destruct (Z_lt_dec a b)
      end; try discriminate;
    rewrite !Z.max_r by lia;
    rewrite !NumberToString_safe_integer by lia;
    (split; [do 3 eexists; reflexivity|]);
    rewrite !Hraised by lia; rewrite !stateOfNet_Fin;
    repeat match goal with
      | |- context [Z_lt_dec ?a ?b] => destruct (Z_lt_dec a b); try lia
      end; repeat split; try reflexivity; try lia.
Qed.

Lemma points_shown_are_minimal_witness :
  smallScores 25 0 0 0
  /\ exists toHealing toRecovered : Z,
       (exists netScore restore debt : string,
          ZoneInspector.calculateProgressInfo (zoneOf 25 0 0 0) "vape"
            "needs_restoration"
          = needsRestorationMarkup (pretty toHealing) (pretty toRecovered)
              netScore restore debt)
       /\ ZoneInspector.calculateState (zoneOf 25 (0 + toHealing) 0 0) "vape"
          = "healing"
       /\ ZoneInspector.calculateState (zoneOf 25 (0 + toRecovered) 0 0)
            "vape"
          = "recovered".
Proof.
  assert (Hsmall : smallScores 25 0 0 0) by (unfold smallScores; lia).
  split; [exact Hsmall|].
  destruct (points_shown_are_minimal 25 0 0 0 "vape" Hsmall)
    as (h & r & _ & _ & Hneeds & _).
  exists h, r.
  destruct (Hneeds ltac:(vm_compute; reflexivity))
    as (Hhtml & _ & Hh & _ & Hr & _).
  split; [exact Hhtml|]. split; [exact Hh|exact Hr].
Defined.


(** ** The bottom sheets *)

Lemma classList_add_lookup (e e' t : string) (cl : gmap string (gset string)) :
  Js.classList_add e t cl !!! e'
  = if decide (e = e') then {[t]} ∪ cl !!! e else cl !!! e'.
Proof.
  unfold Js.classList_add. destruct (decide (e = e')) as [<- | Hne].
  - now rewrite lookup_total_insert_eq.
  - now rewrite lookup_total_insert_ne.
Qed.

Lemma classList_remove_lookup (e e' t : string)
  (cl : gmap string (gset string)) :
  Js.classList_remove e t cl !!! e'
  = if decide (e = e') then cl !!! e ∖ {[t]} else cl !!! e'.
Proof.
  unfold Js.classList_remove. destruct (decide (e = e')) as [<- | Hne].
  - now rewrite lookup_total_insert_eq.
  - now rewrite lookup_total_insert_ne.
Qed.

Lemma closeAll_consistent (st : BottomSheetManager.State) :
  sheets_consistent st ->
  exists st', BottomSheetManager.closeAll st = Normal st'
              /\ sheets_consistent st'
              /\ BottomSheetManager.currentSheet st' = None
              /\ BottomSheetManager.sheets st' = BottomSheetManager.sheets st
              /\ BottomSheetManager.overlay st'
                 = BottomSheetManager.overlay st.
Proof.
  intros (o & Ho & Hno & Hcur & Hvis & Hov).
  unfold BottomSheetManager.closeAll.
  destruct (BottomSheetManager.currentSheet st) as [c|] eqn:Hc; simpl;
    rewrite Ho; eexists; (split; [reflexivity|]); simpl;
    (split; [|split; [simpl; congruence | split; [reflexivity | easy]]]);
    exists o; simpl;
    (split; [exact Ho|]); (split; [exact Hno|]); (split; [congruence|]).
  - split.
    + intros id e He. split; [discriminate|]. intros _.
      rewrite !classList_add_lookup.
      destruct (decide (o = e)) as [Hoe|]; [subst; now apply Hno in He|].
      destruct (decide (c = e)) as [Hce|]; [set_solver|].
      apply (Hvis _ _ He). congruence.
    + rewrite classList_add_lookup. destruct (decide (o = o)); set_solver.
  - split.
    + intros id e He. split; [congruence|]. intros _.
      rewrite classList_add_lookup.
      destruct (decide (o = e)) as [Hoe|]; [subst; now apply Hno in He|].
      apply (Hvis _ _ He). congruence.
    + rewrite classList_add_lookup. destruct (decide (o = o)); [|easy].
      split; [congruence | set_solver].
Qed.

Lemma triggerUpdate_fields (id : string) (st : BottomSheetManager.State) :
  BottomSheetManager.overlay (BottomSheetManager.triggerUpdate id st)
  = BottomSheetManager.overlay st
  /\ BottomSheetManager.currentSheet (BottomSheetManager.triggerUpdate id st)
     = BottomSheetManager.currentSheet st
  /\ BottomSheetManager.sheets (BottomSheetManager.triggerUpdate id st)
     = BottomSheetManager.sheets st
  /\ BottomSheetManager.classes (BottomSheetManager.triggerUpdate id st)
     = BottomSheetManager.classes st.
Proof.
  unfold BottomSheetManager.triggerUpdate.
  now destruct (_ && _)%bool.
Qed.

Lemma sheets_consistent_ext (st st' : BottomSheetManager.State) :
  BottomSheetManager.overlay st' = BottomSheetManager.overlay st ->
  BottomSheetManager.currentSheet st' = BottomSheetManager.currentSheet st ->
  BottomSheetManager.sheets st' = BottomSheetManager.sheets st ->
  BottomSheetManager.classes st' = BottomSheetManager.classes st ->
  sheets_consistent st -> sheets_consistent st'.
Proof.
  unfold sheets_consistent. now intros -> -> -> ->.
Qed.

Lemma open_unknown (id : string) (st : BottomSheetManager.State) :
  BottomSheetManager.sheets st !! id = None ->
  BottomSheetManager.open id st = Normal st.
Proof.
  unfold BottomSheetManager.open. now intros ->.
Qed.

Lemma open_consistent (id sheet : string) (st : BottomSheetManager.State) :
  sheets_consistent st ->
  BottomSheetManager.sheets st !! id = Some sheet ->
  exists st', BottomSheetManager.open id st = Normal st'
              /\ sheets_consistent st'
              /\ BottomSheetManager.currentSheet st' = Some sheet
              /\ BottomSheetManager.sheets st' = BottomSheetManager.sheets st
              /\ BottomSheetManager.overlay st'
                 = BottomSheetManager.overlay st.
Proof.
  intros (o & Ho & Hno & Hcur & Hvis & Hov) Hs.
  unfold BottomSheetManager.open. rewrite Hs.
  assert (Hso : sheet <> o) by exact (Hno _ _ Hs).
  set (st1 := match BottomSheetManager.currentSheet st with
              | Some current => _
              | None => st
              end).
  assert (H1 : BottomSheetManager.overlay st1 = Some o
               /\ BottomSheetManager.sheets st1 = BottomSheetManager.sheets st
               /\ forall e, e <> sheet -> e <> o ->
                   ("hidden" ∈ BottomSheetManager.classes st1 !!! e
                    <-> (BottomSheetManager.currentSheet st = Some e
                         \/ "hidden" ∈ BottomSheetManager.classes st !!! e))).
  { subst st1. destruct (BottomSheetManager.currentSheet st) as [c|]; simpl.
    - repeat split; trivial.
      + rewrite classList_add_lookup. destruct (decide (c = e)) as [Hce|Hce].
        * subst. now left.
        * now right.
      + rewrite classList_add_lookup. destruct (decide (c = e)) as [Hce|Hce].
        * subst. set_solver.
        * intros [[=]|]; [congruence | trivial].
    - repeat split; trivial; [now right | now intros [|]]. }
  clearbody st1. destruct H1 as (Ho1 & Hs1 & Hc1). rewrite Ho1.
  eexists; split; [reflexivity|].
  destruct (triggerUpdate_fields id
    (BottomSheetManager.with_currentSheet (Some sheet)
       (BottomSheetManager.with_classes (Js.classList_remove sheet "hidden")
          (BottomSheetManager.with_classes (Js.classList_remove o "hidden")
             st1)))) as (E1 & E2 & E3 & E4).
  split; [|split; [now rewrite E2 | split; [now rewrite E3 |]]];
    [|rewrite E1; simpl; congruence].
  eapply sheets_consistent_ext; [exact E1 | exact E2 | exact E3 | exact E4 |].
  exists o; simpl. split; [exact Ho1|]. rewrite Hs1.
  split; [exact Hno|]. split; [intros c [= <-]; now exists id|]. split.
  - intros id' e He. rewrite !classList_remove_lookup.
    destruct (decide (sheet = e)) as [Hse|Hse].
    + subst. split; [set_solver | congruence].
    + assert (Heo : e <> o) by exact (Hno _ _ He).
      destruct (decide (o = e)); [congruence|].
      rewrite Hc1 by congruence. split; [congruence|]. intros _.
      destruct (decide (BottomSheetManager.currentSheet st = Some e));
        [now left | right; now apply (Hvis _ _ He)].
  - rewrite !classList_remove_lookup.
    destruct (decide (sheet = o)); [congruence|].
    destruct (decide (o = o)); [|congruence].
    split; [set_solver | discriminate].
Qed.

Lemma handleSheetEvent_consistent (event : SheetEvent)
  (st : BottomSheetManager.State) :
  sheets_consistent st ->
  exists st', handleSheetEvent event st = Normal st'
              /\ sheets_consistent st'
              /\ BottomSheetManager.sheets st' = BottomSheetManager.sheets st
              /\ BottomSheetManager.overlay st'
                 = BottomSheetManager.overlay st.
Proof.
  intros Hst. destruct event as [id| |target]; simpl.
  - destruct (BottomSheetManager.sheets st !! id) as [sheet|] eqn:Hs.
    + destruct (open_consistent id sheet st Hst Hs)
        as (st' & E & ? & _ & ? & ?).
      rewrite E. now exists st'.
    + rewrite (open_unknown _ _ Hs). now exists st.
  - destruct (closeAll_consistent st Hst) as (st' & E & ? & _ & ? & ?).
    rewrite E. now exists st'.
  - unfold BottomSheetManager.overlayClick. case_bool_decide.
    + destruct (closeAll_consistent st Hst) as (st' & E & ? & _ & ? & ?).
      rewrite E. now exists st'.
    + now exists st.
Qed.

Lemma runSheetEvents_consistent (events : list SheetEvent)
  (st : BottomSheetManager.State) :
  sheets_consistent st ->
  sheets_consistent (runSheetEvents events st)
  /\ BottomSheetManager.sheets (runSheetEvents events st)
     = BottomSheetManager.sheets st
  /\ BottomSheetManager.overlay (runSheetEvents events st)
     = BottomSheetManager.overlay st.
Proof.
  revert st. induction events as [|event events IH]; intros st Hst; [easy|].
  destruct (handleSheetEvent_consistent event st Hst)
    as (st' & E & Hst' & Hs & Ho).
  unfold runSheetEvents; simpl. rewrite E; simpl.
  destruct (IH st' Hst') as (? & Hs' & Ho'). split; [easy|].
  unfold runSheetEvents in Hs', Ho'. rewrite Hs', Ho'. now split.
Qed.

Lemma init_sheets (document : gset string)
  (classes : gmap string (gset string)) (hps : bool) (id e : string) :
  "bottom-sheet-overlay" ∈ document ->
  BottomSheetManager.sheets
    (BottomSheetManager.init document
       (BottomSheetManager.constructor classes hps)) !! id = Some e ->
  e ∈ document
  /\ ((id = "points" /\ e = "points-panel")
      \/ (id = "zone" /\ e = "zone-inspector-panel")
      \/ (id = "actions" /\ e = "actions-panel")).
Proof.
  intros Ho. unfold BottomSheetManager.init, Js.getElementById.
  rewrite (bool_decide_eq_true_2 _ Ho).
  repeat case_bool_decide; simpl;
    rewrite ?lookup_insert_Some, ?lookup_empty; intros Hl;
    repeat match goal with
           | H : _ \/ _ |- _ => destruct H
           | H : _ /\ _ |- _ => destruct H
           | H : ∅ !! _ = Some _ |- _ => now rewrite lookup_empty in H
           | H : <[_ := _]> _ !! _ = Some _ |- _ =>
               rewrite lookup_insert_Some in H
           end; subst; try discriminate; split; trivial; tauto.
Qed.

Lemma init_consistent (document : gset string)
  (classes : gmap string (gset string)) (hps : bool) :
  "bottom-sheet-overlay" ∈ document ->
  (forall e, e ∈ sheetElements -> e ∈ document -> "hidden" ∈ classes !!! e) ->
  let st := BottomSheetManager.init document
              (BottomSheetManager.constructor classes hps) in
  sheets_consistent st
  /\ BottomSheetManager.overlay st = Some "bottom-sheet-overlay".
Proof.
  intros Ho Hh st.
  assert (Hst : BottomSheetManager.overlay st = Some "bottom-sheet-overlay"
                /\ BottomSheetManager.currentSheet st = None
                /\ BottomSheetManager.classes st = classes).
  { subst st. unfold BottomSheetManager.init, Js.getElementById.
    rewrite (bool_decide_eq_true_2 _ Ho).
    now repeat case_bool_decide. }
  destruct Hst as (E1 & E2 & E3). split; [|exact E1].
  exists "bottom-sheet-overlay". rewrite E1, E2, E3.
  split; [reflexivity|]. split.
  { intros id e He. apply init_sheets in He; [|exact Ho].
    destruct He as [_ [[_ ->]|[[_ ->]|[_ ->]]]]; discriminate. }
  split; [discriminate|]. split.
  - intros id e He. apply init_sheets in He; [|exact Ho].
    destruct He as [Hd He]. split; [discriminate|]. intros _.
    apply Hh; [|exact Hd]. unfold sheetElements.
    destruct He as [[_ ->]|[[_ ->]|[_ ->]]]; set_solver.
  - split; [reflexivity|]. intros _. apply Hh; [|exact Ho].
    unfold sheetElements. set_solver.
Qed.

(** X2.  Only one sheet is visible at a time.  On a page that has the
    overlay, and where the overlay and the panels that exist start with the
    class [hidden], after [init] and any sequence of [open] (with any
    identifier), [closeAll] and clicks on the overlay: no handler throws; a
    registered sheet is visible exactly when it is the current sheet, so no
    two registered sheets are visible together; the overlay is visible
    exactly when [isOpen] holds; and [open] with an identifier other than
    [points], [zone] and [actions] returns without changing anything. *)
Theorem one_sheet_at_a_time (document : gset string)
  (classes : gmap string (gset string)) (hasPointsSummary : bool)
  (events : list SheetEvent) :
  "bottom-sheet-overlay" ∈ document ->
  (forall e, e ∈ sheetElements -> e ∈ document -> "hidden" ∈ classes !!! e) ->
  let st := runSheetEvents events
              (BottomSheetManager.init document
                 (BottomSheetManager.constructor classes hasPointsSummary)) in
  (forall event, exists st', handleSheetEvent event st = Normal st')
  /\ (forall id e, BottomSheetManager.sheets st !! id = Some e ->
        visible e st = true <-> BottomSheetManager.currentSheet st = Some e)
  /\ (forall id e id' e',
        BottomSheetManager.sheets st !! id = Some e ->
        BottomSheetManager.sheets st !! id' = Some e' ->
        visible e st = true -> visible e' st = true -> e = e')
  /\ visible "bottom-sheet-overlay" st = BottomSheetManager.isOpen st
  /\ (forall id, id ∉ ["points"; "zone"; "actions"] ->
        BottomSheetManager.open id st = Normal st).
Proof.
  intros Ho Hh st.
  destruct (init_consistent document classes hasPointsSummary Ho Hh)
    as [Hinit Hov0].
  destruct (runSheetEvents_consistent events _ Hinit)
    as (Hst & Hsheets & Hoverlay).
  fold st in Hst, Hsheets, Hoverlay. rewrite Hov0 in Hoverlay.
  assert (Hvis : forall id e, BottomSheetManager.sheets st !! id = Some e ->
            visible e st = true <-> BottomSheetManager.currentSheet st = Some e).
  { intros id e He. destruct Hst as (o & _ & _ & _ & Hvis & _).
    unfold visible, Js.classList_contains. rewrite negb_true_iff.
    rewrite bool_decide_eq_false. specialize (Hvis id e He).
    destruct (decide (BottomSheetManager.currentSheet st = Some e)); tauto. }
  split; [|split; [exact Hvis|split; [|split]]].
  - intros event.
    destruct (handleSheetEvent_consistent event st Hst) as (st' & E & _).
    now exists st'.
  - intros id e id' e' He He' Hv Hv'.
    apply (Hvis _ _ He) in Hv. apply (Hvis _ _ He') in Hv'. congruence.
  - destruct Hst as (o & Hov & _ & _ & _ & Hhid).
    assert (o = "bottom-sheet-overlay") as -> by congruence.
    unfold visible, Js.classList_contains, BottomSheetManager.isOpen.
    destruct (BottomSheetManager.currentSheet st) as [c|].
    + rewrite negb_true_iff, bool_decide_eq_false. intros Hin.
      now apply Hhid in Hin.
    + rewrite negb_false_iff, bool_decide_eq_true. now apply Hhid.
  - intros id Hid. apply open_unknown. rewrite Hsheets.
    destruct (_ !! id) as [e|] eqn:He; [|reflexivity].
    apply init_sheets in He; [|exact Ho].
    destruct He as [_ [[-> _]|[[-> _]|[-> _]]]]; set_solver.
Qed.

Lemma one_sheet_at_a_time_witness :
  let st := runSheetEvents [Open "points"; Open "zone"]
              (BottomSheetManager.init exampleDocument
                 (BottomSheetManager.constructor exampleClasses true)) in
  BottomSheetManager.sheets st !! "points" = Some "points-panel"
  /\ visible "zone-inspector-panel" st = true
  /\ visible "points-panel" st = false
  /\ visible "bottom-sheet-overlay" st = BottomSheetManager.isOpen st.
Proof.
  assert (Ho : "bottom-sheet-overlay" ∈ exampleDocument)
    by (apply (bool_decide_unpack _); vm_compute; exact I).
  assert (Hh : forall e, e ∈ sheetElements -> e ∈ exampleDocument ->
                 "hidden" ∈ exampleClasses !!! e).
  { intros e He Hd. unfold sheetElements in He.
    rewrite !elem_of_cons, elem_of_nil in He.
    destruct He as [->|[->|[->|[->|[]]]]];
      solve [ apply (bool_decide_unpack _); vm_compute; exact I
            | exfalso; revert Hd; apply (proj1 (bool_decide_eq_false _));
              vm_compute; reflexivity ]. }
  intros st.
  destruct (one_sheet_at_a_time exampleDocument exampleClasses true
              [Open "points"; Open "zone"] Ho Hh)
    as (_ & Hvis & _ & Hov & _).
  fold st in Hvis, Hov.
  assert (Hp : BottomSheetManager.sheets st !! "points" = Some "points-panel")
    by (vm_compute; reflexivity).
  assert (Hz : BottomSheetManager.sheets st !! "zone"
               = Some "zone-inspector-panel") by (vm_compute; reflexivity).
  split; [exact Hp|]. split; [|split; [|exact Hov]].
  - apply (Hvis _ _ Hz). vm_compute; reflexivity.
  - destruct (visible "points-panel" st) eqn:E; [|reflexivity].
    apply (Hvis _ _ Hp) in E. vm_compute in E. discriminate E.
Defined.

(** X3.  On a page without the overlay element [init] returns before it
    registers a sheet, so the manager stays as constructed whatever happens:
    [open] returns without showing anything, for every identifier, a click
    listener would do nothing, and every [closeAll] throws (it reads
    [classList] of [null]) and leaves the state as it was. *)
Theorem missing_overlay_disables_sheets (document : gset string)
  (classes : gmap string (gset string)) (hasPointsSummary : bool)
  (events : list SheetEvent) :
  "bottom-sheet-overlay" ∉ document ->
  let st0 := BottomSheetManager.constructor classes hasPointsSummary in
  BottomSheetManager.init document st0 = st0
  /\ runSheetEvents events st0 = st0
  /\ (forall id, BottomSheetManager.open id st0 = Normal st0)
  /\ (forall target, BottomSheetManager.overlayClick target st0 = Normal st0)
  /\ BottomSheetManager.closeAll st0 = Throw st0.
Proof.
  intros Ho st0.
  assert (Hev : forall event, stateAfter (handleSheetEvent event st0) = st0)
    by now intros [].
  split; [|split; [|easy]].
  - unfold BottomSheetManager.init, Js.getElementById.
    now rewrite (bool_decide_eq_false_2 _ Ho).
  - induction events as [|event events IH]; [reflexivity|].
    unfold runSheetEvents; simpl. rewrite Hev. exact IH.
Qed.

Lemma missing_overlay_disables_sheets_witness :
  runSheetEvents [Open "zone"; CloseAll]
    (BottomSheetManager.init {["zone-inspector-panel"]}
       (BottomSheetManager.constructor ∅ false))
  = BottomSheetManager.constructor ∅ false.
Proof.
  assert (Ho : "bottom-sheet-overlay" ∉ ({["zone-inspector-panel"]} : gset string))
    by (apply (proj1 (bool_decide_eq_false _)); vm_compute; reflexivity).
  destruct (missing_overlay_disables_sheets {["zone-inspector-panel"]} ∅ false
              [Open "zone"; CloseAll] Ho) as (Hi & Hr & _).
  rewrite Hi. exact Hr.
Defined.

(** ** The zone inspector *)

Lemma netScore_defaultZoneData (zoneInfo : ZoneInfo.t) (mapType : Argument) :
  netScore (Zone.fields (ZoneInspector.defaultZoneData zoneInfo)) mapType
  = Fin 0.
Proof.
  unfold_selection. unfold score. simpl.
  destruct (strict_eq_spec mapType "smoke") as [->|?]; [reflexivity|].
  destruct (strict_eq_spec mapType "all") as [->|?]; reflexivity.
Qed.

Lemma show_message_net (fields : gmap string Value) (mapType : Argument) :
  HeatmapView.stateMessages !! HeatmapView.calculateState fields mapType
  = Some (ZoneInspector.show_message fields mapType).
Proof.
  unfold ZoneInspector.show_message. to_net. apply stateMessages_stateOfNet.
Qed.

Lemma show_message_default (zoneInfo : ZoneInfo.t) (mapType : Argument) :
  ZoneInspector.show_message
    (Zone.fields (ZoneInspector.defaultZoneData zoneInfo)) mapType
  = "This space is healing".
Proof.
  unfold ZoneInspector.show_message. to_net.
  now rewrite netScore_defaultZoneData.
Qed.

Lemma show_resume_normal (zoneInfo current : ZoneInfo.t)
  (response : Fetch.Response) (this : ZoneInspector.t) (element : string) :
  ZoneInspector.container this = Some element ->
  ZoneInspector.currentZone this = Some current ->
  response <> Fetch.NotOk ->
  ZoneInspector.show_resume zoneInfo response this
  = Normal
      {| ZoneInspector.containerId := ZoneInspector.containerId this;
         ZoneInspector.container := Some element;
         ZoneInspector.currentZone := Some current;
         ZoneInspector.classList := ZoneInspector.classList this ∖ {["hidden"]};
         ZoneInspector.display := "block";
         ZoneInspector.innerHTML :=
           ZoneInspector.render_html (resumedMessage zoneInfo response)
             (Js.ToString_argument (ZoneInfo.zoneId current)) |}.
Proof.
  intros Hc Hz Hr.
  unfold ZoneInspector.show_resume, resumedMessage, reportedZone.
  destruct response as [| |zones]; [|congruence|].
  - cbv beta iota zeta. rewrite show_message_default.
    unfold ZoneInspector.render. rewrite Hc, Hz.
    cbn -[ZoneInspector.render_html]. now rewrite ?Hc, ?Hz.
  - destruct (find _ zones) as [zone|]; cbv beta iota zeta;
      rewrite ?show_message_default; unfold ZoneInspector.render;
      rewrite Hc, Hz;
      cbn -[ZoneInspector.render_html ZoneInspector.show_message];
      now rewrite ?Hc, ?Hz.
Qed.

Lemma show_resume_not_ok (zoneInfo : ZoneInfo.t) (this : ZoneInspector.t) :
  ZoneInspector.show_resume zoneInfo Fetch.NotOk this = Throw this.
Proof. reflexivity. Qed.

Lemma show_resume_closed (zoneInfo : ZoneInfo.t) (response : Fetch.Response)
  (this : ZoneInspector.t) (element : string) :
  ZoneInspector.container this = Some element ->
  ZoneInspector.currentZone this = None ->
  ZoneInspector.show_resume zoneInfo response this = Throw this.
Proof.
  intros Hc Hz. unfold ZoneInspector.show_resume.
  destruct response as [| |zones]; [|reflexivity|];
    [|destruct (find _ zones)]; unfold ZoneInspector.render;
    now rewrite Hc, Hz.
Qed.

Lemma show_begin_accepts (zoneInfo : ZoneInfo.t) (this : ZoneInspector.t)
  (element : string) :
  ZoneInspector.container this = Some element ->
  Js.truthy (ZoneInfo.state zoneInfo) = true ->
  ZoneInspector.show_begin (Some zoneInfo) this
  = ({| ZoneInspector.containerId := ZoneInspector.containerId this;
        ZoneInspector.container := Some element;
        ZoneInspector.currentZone := Some zoneInfo;
        ZoneInspector.classList := ZoneInspector.classList this;
        ZoneInspector.display := ZoneInspector.display this;
        ZoneInspector.innerHTML := ZoneInspector.innerHTML this |},
     Some zoneInfo).
Proof.
  intros Hc Ht. unfold ZoneInspector.show_begin. now rewrite Hc, Ht.
Qed.

Lemma isVisible_shown (this : ZoneInspector.t) (element : string) :
  ZoneInspector.container this = Some element ->
  "hidden" ∉ ZoneInspector.classList this ->
  ZoneInspector.display this = "block" ->
  ZoneInspector.isVisible this = true.
Proof.
  intros Hc Hh Hd. unfold ZoneInspector.isVisible. rewrite Hc, Hd.
  now rewrite (bool_decide_eq_false_2 _ Hh).
Qed.

Lemma resumedMessage_cases (zoneInfo : ZoneInfo.t)
  (response : Fetch.Response) :
  match reportedZone (ZoneInfo.zoneId zoneInfo) response with
  | Some zone =>
      HeatmapView.handleZoneTap_message
        (HeatmapView.calculateState (Zone.fields zone)
           (ZoneInfo.mapType zoneInfo))
      = Some (resumedMessage zoneInfo response)
  | None => resumedMessage zoneInfo response = "This space is healing"
  end.
Proof.
  unfold resumedMessage.
  destruct (reportedZone _ response) as [zone|]; [|reflexivity].
  apply show_message_net.
Qed.

(** X4.  What [show] displays.  For an inspector that has its container
    and a tap whose [state] is truthy: when the response is not OK, [show]
    throws after it stored the tap, and the content and the visibility of
    the container stay as they were; otherwise the inspector becomes
    visible and shows the identifier of the tap with a message that does
    not depend on the state or the message of the tap: the message the map
    has for the state it computes from the zone the response reports under
    the map type of the tap, never the default text, and "This space is
    healing" when the request failed or the list has no zone with this
    identifier. *)
Theorem show_displays_fetched_state (zoneInfo : ZoneInfo.t)
  (response : Fetch.Response) (this : ZoneInspector.t) (element : string) :
  ZoneInspector.container this = Some element ->
  Js.truthy (ZoneInfo.state zoneInfo) = true ->
  let shows message :=
    exists this',
      ZoneInspector.show (Some zoneInfo) response this = Normal this'
      /\ ZoneInspector.innerHTML this'
         = ZoneInspector.render_html message
             (Js.ToString_argument (ZoneInfo.zoneId zoneInfo))
      /\ ZoneInspector.isVisible this' = true
      /\ ZoneInspector.getCurrentZone this' = Some zoneInfo in
  match response, reportedZone (ZoneInfo.zoneId zoneInfo) response with
  | Fetch.NotOk, _ =>
      exists this',
        ZoneInspector.show (Some zoneInfo) response this = Throw this'
        /\ ZoneInspector.innerHTML this' = ZoneInspector.innerHTML this
        /\ ZoneInspector.isVisible this' = ZoneInspector.isVisible this
        /\ ZoneInspector.getCurrentZone this' = Some zoneInfo
  | _, Some zone =>
      exists message,
        HeatmapView.handleZoneTap_message
          (HeatmapView.calculateState (Zone.fields zone)
             (ZoneInfo.mapType zoneInfo)) = Some message
        /\ message <> "Zone information unavailable"
        /\ shows message
  | _, None => shows "This space is healing"
  end.
Proof.
  intros Hc Ht shows.
  assert (Hshow : response <> Fetch.NotOk ->
                  shows (resumedMessage zoneInfo response)).
  { intros Hr. unfold shows, ZoneInspector.show.
    rewrite (show_begin_accepts _ _ _ Hc Ht).
    erewrite show_resume_normal; [|reflexivity|reflexivity|exact Hr].
    eexists; split; [reflexivity|]. simpl. split; [reflexivity|].
    split; [|reflexivity].
    eapply isVisible_shown; [reflexivity| |reflexivity]. simpl. set_solver. }
  pose proof (resumedMessage_cases zoneInfo response) as Hm.
  destruct response as [| |zones].
  - simpl in *. rewrite <- Hm. now apply Hshow.
  - simpl. unfold ZoneInspector.show.
    rewrite (show_begin_accepts _ _ _ Hc Ht), show_resume_not_ok.
    eexists; split; [reflexivity|]. simpl. split; [reflexivity|].
    split; [|reflexivity]. unfold ZoneInspector.isVisible; simpl.
    now rewrite Hc.
  - destruct (reportedZone _ (Fetch.Ok zones)) as [zone|] eqn:Hz.
    + exists (resumedMessage zoneInfo (Fetch.Ok zones)).
      split; [exact Hm|]. split; [|now apply Hshow].
      intros Hbad. rewrite Hbad in Hm.
      unfold HeatmapView.handleZoneTap_message in Hm. revert Hm. to_net.
      destruct (stateOfNet_total
                  (netScore (Zone.fields zone) (ZoneInfo.mapType zoneInfo)))
        as [-> | [-> | ->]]; discriminate.
    + rewrite <- Hm. now apply Hshow.
Qed.

Lemma show_displays_fetched_state_witness :
  exists this',
    ZoneInspector.show
      (Some (exampleZoneInfo "zone_1_2" "needs_restoration" "vape"))
      (Fetch.Ok [ {| Zone.id := Str "zone_1_2";
                     Zone.fields := zoneOf 0 30 0 0;
                     Zone.bounds := None |} ])
      exampleInspector = Normal this'
    /\ ZoneInspector.innerHTML this'
       = ZoneInspector.render_html "This space has recovered" "zone_1_2"
    /\ ZoneInspector.isVisible this' = true.
Proof.
  destruct (show_displays_fetched_state
              (exampleZoneInfo "zone_1_2" "needs_restoration" "vape")
              (Fetch.Ok [ {| Zone.id := Str "zone_1_2";
                             Zone.fields := zoneOf 0 30 0 0;
                     Zone.bounds := None |} ])
              exampleInspector "zone-inspector-container"
              eq_refl eq_refl)
    as (message & Hm & _ & this' & Hs & Hh & Hv & _).
  exists this'. split; [exact Hs|]. split; [|exact Hv].
  vm_compute in Hm. injection Hm as <-. exact Hh.
Defined.

Lemma netScore_empty (mapType : Argument) : netScore ∅ mapType = Fin 0.
Proof.
  unfold_selection. unfold score.
  destruct (strict_eq_spec mapType "smoke") as [->|?]; [reflexivity|].
  destruct (strict_eq_spec mapType "all") as [->|?]; reflexivity.
Qed.

Lemma resumedMessage_reported (zoneInfo : ZoneInfo.t)
  (response : Fetch.Response) :
  HeatmapView.handleZoneTap_message
    (HeatmapView.calculateState
       (reportedFields (ZoneInfo.zoneId zoneInfo) response)
       (ZoneInfo.mapType zoneInfo))
  = Some (resumedMessage zoneInfo response).
Proof.
  pose proof (resumedMessage_cases zoneInfo response) as Hm.
  unfold reportedFields.
  destruct (reportedZone _ response) as [zone|]; [exact Hm|].
  rewrite Hm. unfold HeatmapView.handleZoneTap_message. to_net.
  now rewrite netScore_empty.
Qed.

Lemma show_resume_current (zoneInfo current : ZoneInfo.t)
  (response : Fetch.Response) (this : ZoneInspector.t) (element : string) :
  ZoneInspector.container this = Some element ->
  ZoneInspector.currentZone this = Some current ->
  let after := stateAfter (ZoneInspector.show_resume zoneInfo response this) in
  ZoneInspector.container after = Some element
  /\ ZoneInspector.currentZone after = Some current.
Proof.
  intros Hc Hz after. subst after.
  assert (Hok : response <> Fetch.NotOk ->
            ZoneInspector.container
              (stateAfter (ZoneInspector.show_resume zoneInfo response this))
            = Some element
            /\ ZoneInspector.currentZone
                 (stateAfter
                    (ZoneInspector.show_resume zoneInfo response this))
               = Some current).
  { intros Hr. rewrite (show_resume_normal _ _ _ _ _ Hc Hz Hr).
    split; reflexivity. }
  destruct response as [| |zones];
    [apply Hok; discriminate | | apply Hok; discriminate].
  rewrite show_resume_not_ok. now split.
Qed.

(** X5.  Responses that arrive out of order.  A second tap comes while the
    request of the first is pending, and the request of the second settles
    first, whatever its outcome: the second zone is the current one.  A
    late response for the first tap then overwrites the display, unless it
    is a response that is not OK: when it is OK, or the request failed, the
    inspector shows the message computed from the data of the first zone
    next to the identifier of the second zone, which stays the current
    zone; when it is not OK, the rest of [show] throws and changes
    nothing. *)
Theorem late_response_shows_wrong_zone (first second : ZoneInfo.t)
  (firstResponse secondResponse : Fetch.Response)
  (this : ZoneInspector.t) (element : string) :
  ZoneInspector.container this = Some element ->
  Js.truthy (ZoneInfo.state first) = true ->
  Js.truthy (ZoneInfo.state second) = true ->
  let pending :=
    fst (ZoneInspector.show_begin (Some second)
           (fst (ZoneInspector.show_begin (Some first) this))) in
  let shown :=
    stateAfter (ZoneInspector.show_resume second secondResponse pending) in
  ZoneInspector.getCurrentZone shown = Some second
  /\ match firstResponse with
     | Fetch.NotOk =>
         ZoneInspector.show_resume first firstResponse shown = Throw shown
     | _ =>
         exists firstMessage overwritten,
           HeatmapView.handleZoneTap_message
             (HeatmapView.calculateState
                (reportedFields (ZoneInfo.zoneId first) firstResponse)
                (ZoneInfo.mapType first)) = Some firstMessage
           /\ ZoneInspector.show_resume first firstResponse shown
              = Normal overwritten
           /\ ZoneInspector.innerHTML overwritten
              = ZoneInspector.render_html firstMessage
                  (Js.ToString_argument (ZoneInfo.zoneId second))
           /\ ZoneInspector.getCurrentZone overwritten = Some second
           /\ ZoneInspector.isVisible overwritten = true
     end.
Proof.
  intros Hc H1 H2 pending shown.
  assert (Hshown : ZoneInspector.container shown = Some element
                   /\ ZoneInspector.currentZone shown = Some second).
  { subst shown pending.
    rewrite (show_begin_accepts _ _ _ Hc H1); cbn [fst].
    erewrite show_begin_accepts; [|reflexivity|exact H2]; cbn [fst].
    now apply show_resume_current. }
  destruct Hshown as [Hcs Hzs]. clearbody shown. clear pending.
  split; [exact Hzs|].
  assert (Hlate : firstResponse <> Fetch.NotOk ->
            exists firstMessage overwritten,
              HeatmapView.handleZoneTap_message
                (HeatmapView.calculateState
                   (reportedFields (ZoneInfo.zoneId first) firstResponse)
                   (ZoneInfo.mapType first)) = Some firstMessage
              /\ ZoneInspector.show_resume first firstResponse shown
                 = Normal overwritten
              /\ ZoneInspector.innerHTML overwritten
                 = ZoneInspector.render_html firstMessage
                     (Js.ToString_argument (ZoneInfo.zoneId second))
              /\ ZoneInspector.getCurrentZone overwritten = Some second
              /\ ZoneInspector.isVisible overwritten = true).
  { intros Hr1. exists (resumedMessage first firstResponse).
    rewrite (show_resume_normal first second firstResponse shown element
               Hcs Hzs Hr1).
    eexists. split; [apply resumedMessage_reported|].
    split; [reflexivity|]. split; [reflexivity|]. split; [reflexivity|].
    eapply isVisible_shown; [reflexivity| |reflexivity].
    cbn [ZoneInspector.classList]. set_solver. }
  destruct firstResponse as [| |zones];
    [apply Hlate; discriminate | apply show_resume_not_ok
    | apply Hlate; discriminate].
Qed.

Lemma late_response_shows_wrong_zone_witness :
  exists overwritten,
    ZoneInspector.show_resume
      (exampleZoneInfo "zone_1_2" "recovered" "vape")
      (Fetch.Ok [ {| Zone.id := Str "zone_1_2";
                     Zone.fields := zoneOf 0 30 0 0;
                     Zone.bounds := None |} ])
      (stateAfter
         (ZoneInspector.show_resume
            (exampleZoneInfo "zone_3_4" "healing" "vape") Fetch.Rejected
            (fst (ZoneInspector.show_begin
                    (Some (exampleZoneInfo "zone_3_4" "healing" "vape"))
                    (fst (ZoneInspector.show_begin
                            (Some (exampleZoneInfo "zone_1_2" "recovered"
                                     "vape"))
                            exampleInspector))))))
    = Normal overwritten
    /\ ZoneInspector.innerHTML overwritten
       = ZoneInspector.render_html "This space has recovered" "zone_3_4".
Proof.
  destruct (late_response_shows_wrong_zone
              (exampleZoneInfo "zone_1_2" "recovered" "vape")
              (exampleZoneInfo "zone_3_4" "healing" "vape")
              (Fetch.Ok [ {| Zone.id := Str "zone_1_2";
                             Zone.fields := zoneOf 0 30 0 0;
                     Zone.bounds := None |} ])
              Fetch.Rejected
              exampleInspector "zone-inspector-container"
              eq_refl eq_refl eq_refl)
    as (_ & m1 & overwritten & Hm & Ho & Hho & _).
  exists overwritten. split; [exact Ho|].
  vm_compute in Hm. injection Hm as <-. exact Hho.
Defined.

Lemma hide_closed (this : ZoneInspector.t) (element : string) :
  ZoneInspector.container this = Some element ->
  ZoneInspector.container (ZoneInspector.hide this) = Some element
  /\ ZoneInspector.currentZone (ZoneInspector.hide this) = None
  /\ ZoneInspector.isVisible (ZoneInspector.hide this) = false
  /\ ZoneInspector.innerHTML (ZoneInspector.hide this)
     = ZoneInspector.innerHTML this.
Proof.
  intros Hc. unfold ZoneInspector.hide, ZoneInspector.isVisible.
  rewrite Hc; simpl. repeat split; trivial.
  rewrite bool_decide_eq_true_2; [reflexivity | set_solver].
Qed.

(** X6.  A response that arrives after the inspector was closed is dropped:
    when [handleClose] runs while the request is pending, the rest of
    [show] throws when it renders, for every response, and the inspector
    stays hidden, without a current zone and with the content it had. *)
Theorem response_after_close_is_dropped {W : Type}
  (onClose : option ZoneInfo.t -> W -> Completion W) (w : W)
  (zoneInfo : ZoneInfo.t) (response : Fetch.Response)
  (this : ZoneInspector.t) (element : string) :
  ZoneInspector.container this = Some element ->
  Js.truthy (ZoneInfo.state zoneInfo) = true ->
  let pending := fst (ZoneInspector.show_begin (Some zoneInfo) this) in
  let closed := fst (ZoneInspector.handleClose onClose pending w) in
  ZoneInspector.getCurrentZone pending = Some zoneInfo
  /\ ZoneInspector.show_resume zoneInfo response closed = Throw closed
  /\ ZoneInspector.isVisible closed = false
  /\ ZoneInspector.innerHTML closed = ZoneInspector.innerHTML this
  /\ ZoneInspector.getCurrentZone closed = None.
Proof.
  intros Hc Ht pending closed. subst pending closed.
  rewrite (show_begin_accepts _ _ _ Hc Ht). simpl fst.
  split; [reflexivity|].
  match goal with
  | |- context [ZoneInspector.hide ?p] =>
      destruct (hide_closed p element eq_refl) as (Hc' & Hz & Hv & Hh)
  end.
  split; [exact (show_resume_closed _ _ _ _ Hc' Hz)|].
  split; [exact Hv|]. split; [exact Hh|exact Hz].
Qed.

Lemma response_after_close_is_dropped_witness :
  let pending :=
    fst (ZoneInspector.show_begin
           (Some (exampleZoneInfo "zone_1_2" "healing" "vape"))
           exampleInspector) in
  let closed := fst (ZoneInspector.handleClose logClose pending []) in
  ZoneInspector.show_resume (exampleZoneInfo "zone_1_2" "healing" "vape")
    Fetch.Rejected closed = Throw closed.
Proof.
  exact (proj1 (proj2 (response_after_close_is_dropped logClose []
                         (exampleZoneInfo "zone_1_2" "healing" "vape")
                         Fetch.Rejected exampleInspector
                         "zone-inspector-container" eq_refl eq_refl))).
Defined.

(** What the events keep true of an inspector: its container is the
    element of the document with its identifier, it has a current zone only
    when it has a container, and [onClose] was only called with [null]. *)
Lemma inspector_invariant (document : gset string)
  (events : list InspectorEvent)
  (st : ZoneInspector.t * list (option ZoneInfo.t)) :
  let good (st : ZoneInspector.t * list (option ZoneInfo.t)) :=
    (forall e, ZoneInspector.container (fst st) = Some e ->
       Js.getElementById document (ZoneInspector.containerId (fst st))
       = Some e)
    /\ (ZoneInspector.container (fst st) = None
        -> ZoneInspector.currentZone (fst st) = None)
    /\ Forall (fun z => z = None) (snd st) in
  good st -> good (runInspectorEvents document events st).
Proof.
  intros good. revert st.
  induction events as [|event events IH]; intros st Hst; [exact Hst|].
  unfold runInspectorEvents; simpl. apply IH. clear IH.
  destruct st as [this log]. destruct Hst as (Hj & Hz & Hlog).
  simpl in Hj, Hz, Hlog.
  assert (Hfin : forall this',
            ZoneInspector.containerId this' = ZoneInspector.containerId this ->
            ZoneInspector.container this' = ZoneInspector.container this ->
            (ZoneInspector.container this = None ->
             ZoneInspector.currentZone this' = None) ->
            forall log', Forall (fun z => z = None) log' ->
            good (this', log')).
  { intros this' E1 E2 E3 log' Hlog'. unfold good; simpl.
    rewrite E1, E2. now repeat split. }
  destruct event as [|zoneInfo|zoneInfo response| | |]; simpl.
  - unfold ZoneInspector.init; simpl.
    destruct (Js.getElementById document _) as [e|] eqn:He; simpl.
    + repeat split; simpl; trivial; congruence.
    + repeat split; simpl; trivial; [discriminate|].
      intros _. destruct (ZoneInspector.container this) as [e|] eqn:Hc;
        [|now apply Hz].
      specialize (Hj e eq_refl). congruence.
  - unfold ZoneInspector.show_begin.
    destruct (ZoneInspector.container this) as [e|] eqn:Hc; simpl;
      [|apply Hfin; auto].
    destruct zoneInfo as [zoneInfo|]; [|apply Hfin; auto; congruence].
    destruct (negb _); simpl; apply Hfin; simpl; auto; congruence.
  - unfold ZoneInspector.show_resume, ZoneInspector.render.
    destruct (match response with
              | Fetch.Ok zones => _
              | Fetch.NotOk => None
              | Fetch.Rejected => _
              end) as [zoneData|]; [|now repeat split].
    destruct (ZoneInspector.container this) as [e|] eqn:Hc; simpl;
      [|rewrite Hc; simpl; apply Hfin; auto].
    destruct (ZoneInspector.currentZone this) as [z|] eqn:Hcz; simpl;
      rewrite ?Hc; simpl; apply Hfin; simpl; auto; congruence.
  - unfold ZoneInspector.hide.
    destruct (ZoneInspector.container this) as [e|] eqn:Hc; simpl;
      apply Hfin; simpl; auto.
  - unfold ZoneInspector.handleClose, logClose, ZoneInspector.hide.
    destruct (ZoneInspector.container this) as [e|] eqn:Hc; simpl;
      (apply Hfin; simpl; auto;
       apply Forall_app; split; [exact Hlog|]; constructor; auto).
  - apply Hfin; simpl; auto.
Qed.

(** X7.  The callback [onClose] never sees the zone that was shown.  For an
    inspector as constructed, after any sequence of [init], calls and
    completions of [show], [hide], [handleClose] and [destroy] on a page:
    every call of [onClose] so far had [null] as its argument, the next
    [handleClose] passes [null] too, and an inspector with a current zone
    has its container. *)
Theorem onClose_always_receives_null (document : gset string)
  (options_containerId : option string) (classList : gset string)
  (display innerHTML : string) (events : list InspectorEvent) :
  let st :=
    runInspectorEvents document events
      (ZoneInspector.constructor options_containerId classList display
         innerHTML, []) in
  Forall (fun zoneInfo => zoneInfo = None) (snd st)
  /\ (forall (W : Type) (onClose : option ZoneInfo.t -> W -> Completion W)
        (w : W),
        snd (ZoneInspector.handleClose onClose (fst st) w) = onClose None w)
  /\ (forall zoneInfo,
        ZoneInspector.getCurrentZone (fst st) = Some zoneInfo ->
        exists element, ZoneInspector.container (fst st) = Some element).
Proof.
  intros st.
  destruct (inspector_invariant document events
              (ZoneInspector.constructor options_containerId classList
                 display innerHTML, [])) as (_ & Hz & Hlog).
  { repeat split; simpl; trivial; discriminate. }
  fold st in Hz, Hlog. split; [exact Hlog|]. split.
  - intros W onClose w. unfold ZoneInspector.handleClose; simpl.
    unfold ZoneInspector.hide.
    destruct (ZoneInspector.container (fst st)) as [e|] eqn:Hc; simpl;
      [reflexivity|].
    now rewrite (Hz eq_refl).
  - unfold ZoneInspector.getCurrentZone. intros zoneInfo Hcz.
    destruct (ZoneInspector.container (fst st)) as [e|]; [now exists e|].
    rewrite (Hz eq_refl) in Hcz. discriminate.
Qed.

(** ** A tap on the map, through the application *)

(** X8.  A tap on the highlight of the user's zone, for a zone that neither
    the application state nor the response knows: the map reports the state
    [needs_restoration] with the message "This space needs care", and the
    inspector opened with this report shows "This space is healing" when
    the response is OK or the request failed; when the response is not OK,
    [show] throws and the inspector keeps its content and its visibility. *)
Theorem user_zone_without_data (lat lng : float)
  (appZones : option (list Zone.t)) (mapType : Argument)
  (response : Fetch.Response) (this : ZoneInspector.t) (element : string) :
  let userZoneId := Str (HeatmapView.calculateZoneId lat lng) in
  ZoneInspector.container this = Some element ->
  reportedZone userZoneId
    (Fetch.Ok (HeatmapView.getCurrentZones appZones)) = None ->
  reportedZone userZoneId response = None ->
  let zoneInfo := HeatmapView.highlightUserZone_click lat lng appZones mapType in
  ZoneInfo.state zoneInfo = Str "needs_restoration"
  /\ ZoneInfo.message zoneInfo = Some "This space needs care"
  /\ match response with
     | Fetch.NotOk =>
         exists this',
           ZoneInspector.show (Some zoneInfo) response this = Throw this'
           /\ ZoneInspector.innerHTML this' = ZoneInspector.innerHTML this
           /\ ZoneInspector.isVisible this' = ZoneInspector.isVisible this
     | _ =>
         exists this',
           ZoneInspector.show (Some zoneInfo) response this = Normal this'
           /\ ZoneInspector.innerHTML this'
              = ZoneInspector.render_html "This space is healing"
                  (HeatmapView.calculateZoneId lat lng)
           /\ ZoneInspector.isVisible this' = true
     end.
Proof.
  intros userZoneId Hc Happ Hresp zoneInfo.
  assert (Hinfo : zoneInfo
                  = HeatmapView.handleZoneTap mapType userZoneId
                      "needs_restoration").
  { subst zoneInfo. unfold HeatmapView.highlightUserZone_click.
    simpl in Happ. fold userZoneId. now rewrite Happ. }
  rewrite Hinfo. split; [reflexivity|]. split; [reflexivity|].
  assert (Hshows : response <> Fetch.NotOk ->
            exists this',
              ZoneInspector.show
                (Some (HeatmapView.handleZoneTap mapType userZoneId
                         "needs_restoration")) response this = Normal this'
              /\ ZoneInspector.innerHTML this'
                 = ZoneInspector.render_html "This space is healing"
                     (HeatmapView.calculateZoneId lat lng)
              /\ ZoneInspector.isVisible this' = true).
  { intros Hok. unfold ZoneInspector.show.
    rewrite (show_begin_accepts
               (HeatmapView.handleZoneTap mapType userZoneId
                  "needs_restoration") _ _ Hc eq_refl).
    erewrite show_resume_normal; [|reflexivity|reflexivity|exact Hok].
    eexists. split; [reflexivity|]. simpl. split.
    - unfold resumedMessage. simpl. fold userZoneId. now rewrite Hresp.
    - eapply isVisible_shown; [reflexivity| |reflexivity]. simpl.
      set_solver. }
  destruct response as [| |zones];
    [apply Hshows; discriminate | | apply Hshows; discriminate].
  unfold ZoneInspector.show.
  rewrite (show_begin_accepts
             (HeatmapView.handleZoneTap mapType userZoneId
                "needs_restoration") _ _ Hc eq_refl).
  rewrite show_resume_not_ok.
  eexists. split; [reflexivity|]. split; [reflexivity|].
  unfold ZoneInspector.isVisible.
  cbn [ZoneInspector.container ZoneInspector.classList
         ZoneInspector.display]. now rewrite Hc.
Qed.

Lemma user_zone_without_data_witness :
  ZoneInfo.message
    (HeatmapView.highlightUserZone_click 37.7749 (-122.4194) None "vape")
  = Some "This space needs care"
  /\ exists this',
       ZoneInspector.show
         (Some (HeatmapView.highlightUserZone_click 37.7749 (-122.4194)
                  None "vape"))
         Fetch.Rejected exampleInspector = Normal this'
       /\ ZoneInspector.innerHTML this'
          = ZoneInspector.render_html "This space is healing"
              (HeatmapView.calculateZoneId 37.7749 (-122.4194)).
Proof.
  destruct (user_zone_without_data 37.7749 (-122.4194) None "vape"
              Fetch.Rejected exampleInspector "zone-inspector-container"
              eq_refl eq_refl eq_refl)
    as (_ & Hm & this' & Hs & Hh & _).
  split; [exact Hm|]. exists this'. split; [exact Hs | exact Hh].
Defined.

Lemma onZoneTap_opens (zoneInfo : ZoneInfo.t) (app : App.t)
  (inspector : ZoneInspector.t) (manager : BottomSheetManager.State)
  (element panel : string) :
  App.zoneInspector app = Some inspector ->
  App.bottomSheetManager app = Some manager ->
  ZoneInspector.container inspector = Some element ->
  sheets_consistent manager ->
  BottomSheetManager.sheets manager !! "zone" = Some panel ->
  Js.truthy (ZoneInfo.state zoneInfo) = true ->
  exists manager',
    BottomSheetManager.open "zone" manager = Normal manager'
    /\ sheets_consistent manager'
    /\ BottomSheetManager.currentSheet manager' = Some panel
    /\ BottomSheetManager.sheets manager' = BottomSheetManager.sheets manager
    /\ App.onZoneTap zoneInfo app
       = Normal
           (App.with_sheets
              (Some (fst (ZoneInspector.show_begin (Some zoneInfo) inspector)))
              (Some manager')
              (App.updateSelectedZone (Some (ZoneInfo.zoneId zoneInfo)) app),
            Some zoneInfo).
Proof.
  intros Hi Hm Hc Hs Hz Ht.
  destruct (open_consistent "zone" panel manager Hs Hz)
    as (manager' & Ho & Hs' & Hcur & Hsh & _).
  exists manager'. repeat (split; [assumption|]).
  unfold App.onZoneTap. simpl. rewrite Hi, Hm.
  rewrite (show_begin_accepts _ _ _ Hc Ht). now rewrite Ho.
Qed.

(** X9.  A tap on the map when the zone list cannot be fetched.  With the
    inspector hidden in its container and a sheet registered for [zone],
    [onZoneTap] selects the zone and opens the sheet at once; when the
    response then is not OK the rest of [show] throws, and the page is left
    with the sheet open and visible, the inspector inside it hidden and its
    content unchanged, and the zone selected. *)
Theorem failed_request_opens_an_empty_sheet (zoneInfo : ZoneInfo.t)
  (app : App.t) (inspector : ZoneInspector.t)
  (manager : BottomSheetManager.State) (element panel : string) :
  App.zoneInspector app = Some inspector ->
  App.bottomSheetManager app = Some manager ->
  ZoneInspector.container inspector = Some element ->
  ZoneInspector.isVisible inspector = false ->
  sheets_consistent manager ->
  BottomSheetManager.sheets manager !! "zone" = Some panel ->
  Js.truthy (ZoneInfo.state zoneInfo) = true ->
  exists tapped failed inspector' manager',
    App.onZoneTap zoneInfo app = Normal (tapped, Some zoneInfo)
    /\ App.onZoneTap_settled zoneInfo Fetch.NotOk tapped = Throw failed
    /\ App.selectedZone failed = Some (ZoneInfo.zoneId zoneInfo)
    /\ App.bottomSheetManager failed = Some manager'
    /\ BottomSheetManager.isOpen manager' = true
    /\ visible panel manager' = true
    /\ App.zoneInspector failed = Some inspector'
    /\ ZoneInspector.isVisible inspector' = false
    /\ ZoneInspector.innerHTML inspector' = ZoneInspector.innerHTML inspector.
Proof.
  intros Hi Hm Hc Hv Hs Hz Ht.
  destruct (onZoneTap_opens zoneInfo app inspector manager element panel
              Hi Hm Hc Hs Hz Ht)
    as (manager' & _ & Hs' & Hcur & Hsh & Htap).
  rewrite Htap. do 2 eexists. exists
    (fst (ZoneInspector.show_begin (Some zoneInfo) inspector)), manager'.
  split; [reflexivity|]. unfold App.onZoneTap_settled. simpl.
  split; [reflexivity|]. simpl. split; [reflexivity|].
  split; [reflexivity|].
  split; [unfold BottomSheetManager.isOpen; now rewrite Hcur|].
  split.
  { destruct Hs' as (o & _ & _ & _ & Hvis & _).
    rewrite <- Hsh in Hz. specialize (Hvis _ _ Hz).
    unfold visible, Js.classList_contains.
    rewrite bool_decide_eq_false_2; [reflexivity|]. intros Hin.
    apply Hvis in Hin. now apply Hin. }
  split; [reflexivity|].
  rewrite (show_begin_accepts _ _ _ Hc Ht). simpl.
  split; [|reflexivity].
  revert Hv. unfold ZoneInspector.isVisible. now rewrite Hc.
Qed.

(** X10.  Two ways of closing.  After a tap whose data arrived, closing the
    sheet with its close button or a click on the overlay hides the sheet
    but leaves the zone selected in the application state and the inspector
    visible with its current zone; closing through the inspector
    ([handleClose]) hides both and clears the selection. *)
Theorem closing_the_sheet_keeps_the_selection (zoneInfo : ZoneInfo.t)
  (response : Fetch.Response) (app : App.t) (inspector : ZoneInspector.t)
  (manager : BottomSheetManager.State) (element panel : string) :
  App.zoneInspector app = Some inspector ->
  App.bottomSheetManager app = Some manager ->
  ZoneInspector.container inspector = Some element ->
  sheets_consistent manager ->
  BottomSheetManager.sheets manager !! "zone" = Some panel ->
  Js.truthy (ZoneInfo.state zoneInfo) = true ->
  response <> Fetch.NotOk ->
  exists tapped shown bySheet byInspector,
    App.onZoneTap zoneInfo app = Normal (tapped, Some zoneInfo)
    /\ App.onZoneTap_settled zoneInfo response tapped = Normal shown
    /\ App.sheetClose shown = Normal bySheet
    /\ App.inspectorClose shown = Normal byInspector
    /\ (exists inspector' manager',
          App.zoneInspector bySheet = Some inspector'
          /\ App.bottomSheetManager bySheet = Some manager'
          /\ BottomSheetManager.isOpen manager' = false
          /\ visible panel manager' = false
          /\ App.selectedZone bySheet = Some (ZoneInfo.zoneId zoneInfo)
          /\ ZoneInspector.getCurrentZone inspector' = Some zoneInfo
          /\ ZoneInspector.isVisible inspector' = true)
    /\ (exists inspector' manager',
          App.zoneInspector byInspector = Some inspector'
          /\ App.bottomSheetManager byInspector = Some manager'
          /\ BottomSheetManager.isOpen manager' = false
          /\ visible panel manager' = false
          /\ App.selectedZone byInspector = None
          /\ ZoneInspector.getCurrentZone inspector' = None
          /\ ZoneInspector.isVisible inspector' = false).
Proof.
  intros Hi Hm Hc Hs Hz Ht Hr.
  destruct (onZoneTap_opens zoneInfo app inspector manager element panel
              Hi Hm Hc Hs Hz Ht)
    as (manager' & _ & Hs' & Hcur & Hsh & Htap).
  destruct (closeAll_consistent manager' Hs')
    as (closed & Hclose & Hsc & Hcc & Hshc & _).
  assert (Hhidden : visible panel closed = false).
  { destruct Hsc as (o & _ & _ & _ & Hvis & _).
    rewrite <- Hsh, <- Hshc in Hz. specialize (Hvis _ _ Hz).
    unfold visible, Js.classList_contains.
    rewrite bool_decide_eq_true_2; [reflexivity|]. apply Hvis.
    rewrite Hcc. discriminate. }
  assert (Hclosed : BottomSheetManager.isOpen closed = false)
    by (unfold BottomSheetManager.isOpen; now rewrite Hcc).
  rewrite Htap. rewrite (show_begin_accepts _ _ _ Hc Ht). simpl fst.
  do 4 eexists. split; [reflexivity|].
  unfold App.onZoneTap_settled. simpl.
  erewrite show_resume_normal; [|reflexivity|reflexivity|exact Hr].
  split; [reflexivity|].
  unfold App.sheetClose, App.inspectorClose, App.onClose,
    ZoneInspector.handleClose. simpl. rewrite Hclose.
  split; [reflexivity|]. split; [reflexivity|]. split.
  - do 2 eexists. simpl. repeat (split; [reflexivity|]).
    split; [exact Hclosed|]. split; [exact Hhidden|].
    repeat (split; [reflexivity|]).
    eapply isVisible_shown; [reflexivity| |reflexivity]. simpl. set_solver.
  - do 2 eexists. simpl. repeat (split; [reflexivity|]).
    split; [exact Hclosed|]. split; [exact Hhidden|].
    repeat (split; [reflexivity|]).
    unfold ZoneInspector.isVisible. simpl.
    rewrite bool_decide_eq_true_2; [reflexivity | set_solver].
Qed.

(** ** The navigation bar and the views *)

Lemma highlightActiveView_fields (view : Argument) (bar : NavigationBar.t) :
  NavigationBar.containerId (NavigationBar.highlightActiveView view bar)
  = NavigationBar.containerId bar
  /\ NavigationBar.currentView (NavigationBar.highlightActiveView view bar)
     = NavigationBar.currentView bar
  /\ NavigationBar.container (NavigationBar.highlightActiveView view bar)
     = NavigationBar.container bar.
Proof.
  unfold NavigationBar.highlightActiveView.
  destruct (NavigationBar.container bar) eqn:Hc; simpl; repeat split;
    congruence.
Qed.

Ltac class_sets :=
  apply set_eq; intros ?x;
  rewrite ?elem_of_union, ?elem_of_difference, ?elem_of_union,
    ?elem_of_singleton;
  destruct (decide (x = "active")); tauto.

Lemma highlightActiveView_twice (view view' : Argument)
  (bar : NavigationBar.t) :
  NavigationBar.buttons
    (NavigationBar.highlightActiveView view
       (NavigationBar.highlightActiveView view' bar))
  = NavigationBar.buttons (NavigationBar.highlightActiveView view bar).
Proof.
  unfold NavigationBar.highlightActiveView.
  destruct (NavigationBar.container bar) as [e|] eqn:Hc; simpl;
    [|now rewrite Hc].
  rewrite map_map. apply map_ext. intros button.
  destruct (Js.strict_eq view' (NavigationBar.dataView button));
    cbn [NavigationBar.dataView NavigationBar.classList
         NavigationBar.ariaLabel NavigationBar.iconSpan
         NavigationBar.labelSpan NavigationBar.ariaCurrent];
    destruct (Js.strict_eq view (NavigationBar.dataView button));
    f_equal; class_sets.
Qed.

Lemma highlightActiveView_buttons (view : Argument) (bar : NavigationBar.t)
  (element : string) :
  NavigationBar.container bar = Some element ->
  NavigationBar.buttons (NavigationBar.highlightActiveView view bar)
  = List.map (highlighted view) (NavigationBar.buttons bar).
Proof.
  intros Hc. unfold NavigationBar.highlightActiveView. rewrite Hc. simpl.
  apply map_ext. intros button. unfold highlighted.
  now destruct (Js.strict_eq view _).
Qed.

Lemma highlighted_twice (view view' : Argument)
  (button : NavigationBar.Button) :
  highlighted view (highlighted view' button) = highlighted view button.
Proof.
  unfold highlighted; simpl.
  destruct (Js.strict_eq view' _), (Js.strict_eq view _); f_equal;
    class_sets.
Qed.

Lemma highlight_rendered (view : Argument) (bar : NavigationBar.t)
  (element : string) :
  NavigationBar.container bar = Some element ->
  NavigationBar.currentView bar = view ->
  List.map (highlighted view) (NavigationBar.buttons bar)
  = List.map (highlighted view)
      (List.map NavigationBar.createNavItem NavigationBar.navItems) ->
  rendered (NavigationBar.highlightActiveView view bar)
  /\ NavigationBar.currentView (NavigationBar.highlightActiveView view bar)
     = view.
Proof.
  intros Hc Hv Hb.
  destruct (highlightActiveView_fields view bar) as (_ & E2 & E3).
  pose proof (highlightActiveView_buttons view bar element Hc) as E4.
  split; [|now rewrite E2]. split.
  - exists element. now rewrite E3.
  - now rewrite E4, E2, Hv.
Qed.

Lemma render_rendered (bar : NavigationBar.t) (element : string) :
  NavigationBar.container bar = Some element ->
  rendered (NavigationBar.render bar)
  /\ NavigationBar.currentView (NavigationBar.render bar)
     = NavigationBar.currentView bar.
Proof.
  intros Hc. unfold NavigationBar.render. rewrite Hc.
  now apply (highlight_rendered _ _ element).
Qed.

Lemma change_rendered (view : Argument) (bar : NavigationBar.t) :
  rendered bar ->
  let bar' :=
    NavigationBar.highlightActiveView view
      {| NavigationBar.containerId := NavigationBar.containerId bar;
         NavigationBar.currentView := view;
         NavigationBar.container := NavigationBar.container bar;
         NavigationBar.buttons := NavigationBar.buttons bar |} in
  rendered bar' /\ NavigationBar.currentView bar' = view.
Proof.
  intros [[element Hc] Hb] bar'. subst bar'.
  apply (highlight_rendered _ _ element); [exact Hc|reflexivity|].
  cbn [NavigationBar.buttons]. rewrite Hb, map_map. apply map_ext.
  intros item. apply highlighted_twice.
Qed.

Lemma handleNavigationEvent_rendered (event : NavigationEvent)
  (bar : NavigationBar.t) :
  rendered bar ->
  rendered (handleNavigationEvent event bar)
  /\ (NavigationBar.currentView (handleNavigationEvent event bar)
      = NavigationBar.currentView bar
      \/ Js.includes NavigationBar.validViews
           (NavigationBar.currentView (handleNavigationEvent event bar))
         = true).
Proof.
  intros Hr.
  assert (Hh : forall view,
            rendered (fst (NavigationBar.handleViewChange view bar))
            /\ (NavigationBar.currentView
                  (fst (NavigationBar.handleViewChange view bar))
                = NavigationBar.currentView bar
                \/ Js.includes NavigationBar.validViews
                     (NavigationBar.currentView
                        (fst (NavigationBar.handleViewChange view bar)))
                   = true)).
  { intros view. unfold NavigationBar.handleViewChange.
    destruct (Js.includes NavigationBar.validViews view) eqn:Hv; simpl;
      [|now split; [|left]].
    destruct (Js.strict_equals view _); simpl; [now split; [|left]|].
    destruct (change_rendered view bar Hr) as [Hr' Hcv].
    split; [exact Hr'|]. right. now rewrite Hcv. }
  destruct event as [button|view|view]; simpl.
  - unfold NavigationBar.click. destruct (negb _); [apply Hh|].
    simpl. now split; [|left].
  - apply Hh.
  - unfold NavigationBar.setCurrentView.
    destruct (Js.includes NavigationBar.validViews view) eqn:Hv; simpl;
      [|now split; [|left]].
    destruct (change_rendered view bar Hr) as [Hr' Hcv].
    split; [exact Hr'|]. right. now rewrite Hcv.
Qed.

Lemma runNavigationEvents_rendered (events : list NavigationEvent)
  (bar : NavigationBar.t) :
  rendered bar -> rendered (runNavigationEvents events bar).
Proof.
  revert bar. induction events as [|event events IH]; intros bar Hr;
    [exact Hr|].
  unfold runNavigationEvents; simpl. apply IH.
  now apply handleNavigationEvent_rendered.
Qed.

Lemma init_rendered (document : gset string)
  (options_containerId : option string) (options_currentView : Argument) :
  Js.or_string options_containerId "navigation-bar" ∈ document ->
  let bar :=
    NavigationBar.init document
      (NavigationBar.constructor options_containerId options_currentView) in
  rendered bar
  /\ NavigationBar.currentView bar
     = Js.or_argument options_currentView (Str "report").
Proof.
  intros Hd bar. subst bar. unfold NavigationBar.init, Js.getElementById.
  cbn [NavigationBar.containerId NavigationBar.constructor].
  rewrite (bool_decide_eq_true_2 _ Hd).
  cbn [NavigationBar.container].
  match goal with
  | |- context [NavigationBar.render ?b] =>
      exact (render_rendered b _ eq_refl)
  end.
Qed.

Lemma isActive_highlighted (view : Argument) (item : NavigationBar.Item) :
  isActive (highlighted view (NavigationBar.createNavItem item))
  = Js.strict_eq view (NavigationBar.id item).
Proof.
  unfold isActive, highlighted; simpl.
  destruct (Js.strict_eq view (NavigationBar.id item)).
  - apply bool_decide_eq_true_2. set_solver.
  - apply bool_decide_eq_false_2. set_solver.
Qed.

(** X11.  The buttons of the navigation bar.  On a page that has the
    container, after [init] and any sequence of clicks on buttons and calls
    of [handleViewChange] and [setCurrentView] with any arguments: the bar
    has its five buttons in order; a button has the class [active] exactly
    when its view is the current view, and [aria-current] exactly when it
    is active; so exactly one button is active when the current view is one
    of the five, and none otherwise (a bar constructed with another view
    highlights nothing). *)
Theorem one_active_button (document : gset string)
  (options_containerId : option string) (options_currentView : Argument)
  (events : list NavigationEvent) :
  Js.or_string options_containerId "navigation-bar" ∈ document ->
  let bar :=
    runNavigationEvents events
      (NavigationBar.init document
         (NavigationBar.constructor options_containerId
            options_currentView)) in
  List.map NavigationBar.dataView (NavigationBar.buttons bar)
  = NavigationBar.validViews
  /\ (forall button, button ∈ NavigationBar.buttons bar ->
        (isActive button = true
         <-> NavigationBar.currentView bar
             = Str (NavigationBar.dataView button))
        /\ (NavigationBar.ariaCurrent button = Some "page"
            <-> isActive button = true))
  /\ length (List.filter isActive (NavigationBar.buttons bar))
     = (if Js.includes NavigationBar.validViews
             (NavigationBar.currentView bar)
        then 1 else 0)%nat.
Proof.
  intros Hd bar.
  destruct (init_rendered document options_containerId options_currentView
              Hd) as [Hr0 _].
  pose proof (runNavigationEvents_rendered events _ Hr0) as [_ Hb].
  fold bar in Hb. rewrite Hb. clear Hb Hr0.
  generalize (NavigationBar.currentView bar). intros view. clear.
  split; [|split].
  - rewrite !map_map. reflexivity.
  - intros button Hin. rewrite list_elem_of_In, in_map_iff in Hin.
    destruct Hin as (created & <- & Hin). rewrite in_map_iff in Hin.
    destruct Hin as (item & <- & _). rewrite isActive_highlighted.
    unfold highlighted; simpl. split.
    + destruct (strict_eq_spec view (NavigationBar.id item));
        split; congruence.
    + destruct (Js.strict_eq view (NavigationBar.id item));
        split; congruence.
  - rewrite map_map.
    assert (Hcount : forall items,
              length (List.filter isActive
                        (List.map (fun item =>
                                     highlighted view
                                       (NavigationBar.createNavItem item))
                           items))
              = length (List.filter (fun item =>
                                  Js.strict_eq view (NavigationBar.id item))
                          items)).
    { induction items as [|item items IH]; [reflexivity|]. simpl.
      rewrite isActive_highlighted.
      destruct (Js.strict_eq view _); simpl; now rewrite IH. }
    rewrite Hcount. destruct view as [s|v]; [|reflexivity].
    unfold NavigationBar.navItems, NavigationBar.validViews, Js.includes.
    simpl.
    destruct (String.eqb_spec s "report") as [->|H1]; [reflexivity|].
    destruct (String.eqb_spec s "actions") as [->|H2]; [reflexivity|].
    destruct (String.eqb_spec s "heatmap") as [->|H3]; [reflexivity|].
    destruct (String.eqb_spec s "community") as [->|H4]; [reflexivity|].
    destruct (String.eqb_spec s "mypoints") as [->|H5]; [reflexivity|].
    rewrite bool_decide_eq_false_2; [reflexivity|].
    rewrite !elem_of_cons, elem_of_nil. tauto.
Qed.

Lemma updateNavigationHighlight_fields (app : App.t) :
  App.currentView (App.updateNavigationHighlight app) = App.currentView app
  /\ App.calls (App.updateNavigationHighlight app) = App.calls app
  /\ App.classes (App.updateNavigationHighlight app) = App.classes app
  /\ App.navigationBar (App.updateNavigationHighlight app)
     = match App.navigationBar app with
       | Some bar =>
           Some (NavigationBar.setCurrentView (App.currentView app) bar)
       | None => None
       end.
Proof.
  unfold App.updateNavigationHighlight.
  now destruct (App.navigationBar app).
Qed.

Lemma renderCurrentView_fields (app : App.t) :
  App.currentView (App.renderCurrentView app) = App.currentView app
  /\ App.navigationBar (App.renderCurrentView app)
     = match App.navigationBar app with
       | Some bar =>
           Some (NavigationBar.setCurrentView (App.currentView app) bar)
       | None => None
       end.
Proof.
  unfold App.renderCurrentView. cbv zeta.
  set (hidden := fold_left _ _ app).
  assert (Hfold : App.currentView hidden = App.currentView app
                  /\ App.navigationBar hidden = App.navigationBar app).
  { subst hidden. generalize app.
    induction ["report"; "map"; "community"] as [|view views IH];
      intros app0; [now split|].
    cbn [fold_left]. destruct (Js.getElementById _ _);
      match goal with
      | |- context [fold_left _ views ?a] => destruct (IH a) as [-> ->]
      end; now split. }
  clearbody hidden.
  match goal with
  | |- context [App.updateNavigationHighlight ?a] => set (final := a)
  end.
  assert (Hfinal : App.currentView final = App.currentView hidden
                   /\ App.navigationBar final = App.navigationBar hidden).
  { subst final.
    repeat match goal with
           | |- context [match Js.getElementById ?d ?i with _ => _ end] =>
               destruct (Js.getElementById d i)
           | |- context [if ?c then _ else _] => destruct c
           end; now split. }
  clearbody final.
  destruct (updateNavigationHighlight_fields final) as (E1 & _ & _ & E4).
  rewrite E1, E4. destruct Hfinal as [-> ->]. destruct Hfold as [-> ->].
  now split.
Qed.

Lemma strict_equals_Str (s : string) (a : Argument) :
  Js.strict_equals (Str s) a = true <-> a = Str s.
Proof.
  destruct a as [t|v]; simpl; [|split; discriminate].
  destruct (String.eqb_spec s t); split; congruence.
Qed.

Lemma updateView_rejected (view : Argument) (app : App.t) :
  Js.includes ["report"; "map"; "community"] view = false ->
  App.updateView view app = app.
Proof. intros Hv. unfold App.updateView. now rewrite Hv. Qed.

Lemma updateView_accepted (view : Argument) (app : App.t) :
  Js.includes ["report"; "map"; "community"] view = true ->
  App.currentView (App.updateView view app) = view
  /\ App.navigationBar (App.updateView view app)
     = match App.navigationBar app with
       | Some bar => Some (NavigationBar.setCurrentView view bar)
       | None => None
       end.
Proof.
  intros Hv. unfold App.updateView. rewrite Hv. cbn [negb]. cbv zeta.
  match goal with
  | |- context [App.renderCurrentView ?a] =>
      destruct (renderCurrentView_fields a) as [E1 E2]; rewrite E1, E2
  end.
  now split.
Qed.

Lemma setCurrentView_currentView (view : Argument) (bar : NavigationBar.t) :
  NavigationBar.currentView (NavigationBar.setCurrentView view bar)
  = if Js.includes NavigationBar.validViews view then view
    else NavigationBar.currentView bar.
Proof.
  unfold NavigationBar.setCurrentView.
  destruct (Js.includes _ view); simpl; [|reflexivity].
  match goal with
  | |- context [NavigationBar.highlightActiveView ?v ?b] =>
      now destruct (highlightActiveView_fields v b) as (_ & -> & _)
  end.
Qed.

Lemma click_outcome (button : NavigationBar.Button) (bar : NavigationBar.t) :
  (NavigationBar.click button bar = (bar, None)
   /\ (NavigationBar.dataView button ∉ NavigationBar.validViews
       \/ NavigationBar.currentView bar
          = Str (NavigationBar.dataView button)))
  \/ (exists bar',
        NavigationBar.click button bar
        = (bar', Some (Str (NavigationBar.dataView button)))
        /\ NavigationBar.currentView bar'
           = Str (NavigationBar.dataView button)
        /\ NavigationBar.dataView button ∈ NavigationBar.validViews
        /\ NavigationBar.currentView bar
           <> Str (NavigationBar.dataView button)).
Proof.
  unfold NavigationBar.click.
  generalize (NavigationBar.dataView button). intros view.
  destruct (String.eqb_spec view "") as [Hempty|Hempty]; cbn [negb].
  { left. split; [reflexivity|]. left. rewrite Hempty.
    unfold NavigationBar.validViews. rewrite !elem_of_cons, elem_of_nil.
    intros [|[|[|[|[|[]]]]]]; discriminate. }
  unfold NavigationBar.handleViewChange, Js.includes.
  case_bool_decide as Hin; cbn [negb];
    [|left; split; [reflexivity|now left]].
  destruct (Js.strict_equals (Str view) (NavigationBar.currentView bar))
    eqn:Hsame.
  { apply strict_equals_Str in Hsame. left. split; [reflexivity|now right]. }
  right. eexists. split; [reflexivity|].
  match goal with
  | |- context [NavigationBar.highlightActiveView ?v ?b] =>
      destruct (highlightActiveView_fields v b) as (_ & E & _); rewrite E
  end.
  split; [reflexivity|]. split; [exact Hin|]. intros Heq.
  apply strict_equals_Str in Heq. congruence.
Qed.

(** X12.  The bar and the application accept different views.  A click on a
    button of the bar for another view than its current one always moves
    the bar to that view; for [actions], [heatmap] and [mypoints] the
    application rejects the view, so its current view, the classes of the
    view elements and the calls it made stay as they were; a click changes
    the view of the application only to [report] or [community].  The
    third view of the application, [map], is accepted by [updateView] and
    rejected by the bar, which stays as it was. *)
Theorem bar_and_application_accept_different_views (app : App.t)
  (bar : NavigationBar.t) (button : NavigationBar.Button) :
  App.navigationBar app = Some bar ->
  let view := NavigationBar.dataView button in
  let app' := App.navigationClick button app in
  (view ∈ NavigationBar.validViews ->
   NavigationBar.currentView bar <> Str view ->
   exists bar',
     App.navigationBar app' = Some bar'
     /\ NavigationBar.currentView bar' = Str view)
  /\ (view ∈ ["actions"; "heatmap"; "mypoints"] ->
      App.currentView app' = App.currentView app
      /\ App.calls app' = App.calls app
      /\ App.classes app' = App.classes app)
  /\ (App.currentView app' = App.currentView app
      \/ (App.currentView app' = Str view
          /\ view ∈ ["report"; "community"]))
  /\ (let shown := App.updateView (Str "map") app in
      App.currentView shown = Str "map"
      /\ App.navigationBar shown = Some bar).
Proof.
  intros Hbar view app'. subst view.
  assert (Hmap : App.currentView (App.updateView (Str "map") app) = Str "map"
                 /\ App.navigationBar (App.updateView (Str "map") app)
                    = Some bar).
  { destruct (updateView_accepted (Str "map") app eq_refl) as [E1 E2].
    split; [exact E1|]. now rewrite E2, Hbar. }
  assert (Happ : app' = match NavigationBar.click button bar with
                        | (bar', Some called) =>
                            App.updateView called
                              (App.with_navigation (App.navItems app)
                                 (Some bar') app)
                        | (bar', None) =>
                            App.with_navigation (App.navItems app)
                              (Some bar') app
                        end).
  { subst app'. unfold App.navigationClick. rewrite Hbar.
    now destruct (NavigationBar.click button bar) as [bar' [called|]]. }
  clearbody app'.
  destruct (click_outcome button bar)
    as [[Hclick Hwhy] | (bar' & Hclick & Hcv & Hin & Hne)];
    rewrite Hclick in Happ; clear Hclick;
    set (view := NavigationBar.dataView button) in *; clearbody view.
  - (* the bar ignores the click *)
    subst app'. split; [|split; [|split]].
    + intros Hin Hne. destruct Hwhy; contradiction.
    + intros _. split; [reflexivity|]. split; reflexivity.
    + left. reflexivity.
    + exact Hmap.
  - (* the bar changes and calls the application *)
    destruct (Js.includes ["report"; "map"; "community"] (Str view))
      eqn:Hvalid.
    + destruct (updateView_accepted (Str view)
                  (App.with_navigation (App.navItems app) (Some bar') app)
                  Hvalid) as [E1 E2].
      rewrite <- Happ in E1, E2.
      cbn [App.navigationBar App.with_navigation] in E2.
      assert (Hrc : view ∈ ["report"; "community"]).
      { unfold Js.includes in Hvalid. apply bool_decide_eq_true in Hvalid.
        unfold NavigationBar.validViews in Hin.
        rewrite !elem_of_cons, elem_of_nil in Hvalid.
        rewrite !elem_of_cons, elem_of_nil in Hin.
        rewrite !elem_of_cons, elem_of_nil.
        destruct Hvalid as [E|[E|[E|[]]]]; auto.
        rewrite E in Hin.
        destruct Hin as [|[|[|[|[|[]]]]]]; discriminate. }
      split; [|split; [|split]].
      * intros _ _. eexists. split; [exact E2|].
        rewrite setCurrentView_currentView.
        unfold Js.includes. now rewrite (bool_decide_eq_true_2 _ Hin).
      * intros Hother. exfalso.
        rewrite !elem_of_cons, elem_of_nil in Hother.
        rewrite !elem_of_cons, elem_of_nil in Hrc.
        destruct Hrc as [E|[E|[]]]; rewrite E in Hother;
          destruct Hother as [|[|[|[]]]]; discriminate.
      * right. now split.
      * exact Hmap.
    + rewrite (updateView_rejected _ _ Hvalid) in Happ. subst app'.
      split; [|split; [|split]].
      * intros _ _. exists bar'. split; [reflexivity | exact Hcv].
      * intros _. split; [reflexivity|]. split; reflexivity.
      * left. reflexivity.
      * exact Hmap.
Qed.

(** ** The example page *)

Lemma exampleManager_consistent :
  sheets_consistent exampleManager
  /\ BottomSheetManager.sheets exampleManager !! "zone"
     = Some "zone-inspector-panel".
Proof.
  split; [|vm_compute; reflexivity].
  apply init_consistent.
  - apply (bool_decide_unpack _); vm_compute; exact I.
  - intros e He Hd. unfold sheetElements in He.
    rewrite !elem_of_cons, elem_of_nil in He.
    destruct He as [->|[->|[->|[->|[]]]]];
      solve [ apply (bool_decide_unpack _); vm_compute; exact I
            | exfalso; revert Hd; apply (proj1 (bool_decide_eq_false _));
              vm_compute; reflexivity ].
Qed.

Lemma failed_request_opens_an_empty_sheet_witness :
  exists tapped failed inspector manager,
    App.onZoneTap (exampleZoneInfo "zone_1_2" "healing" "vape") exampleApp
    = Normal (tapped, Some (exampleZoneInfo "zone_1_2" "healing" "vape"))
    /\ App.onZoneTap_settled (exampleZoneInfo "zone_1_2" "healing" "vape")
         Fetch.NotOk tapped = Throw failed
    /\ App.bottomSheetManager failed = Some manager
    /\ BottomSheetManager.isOpen manager = true
    /\ App.zoneInspector failed = Some inspector
    /\ ZoneInspector.isVisible inspector = false.
Proof.
  destruct exampleManager_consistent as [Hs Hz].
  destruct (failed_request_opens_an_empty_sheet
              (exampleZoneInfo "zone_1_2" "healing" "vape") exampleApp
              exampleInspector exampleManager "zone-inspector-container"
              "zone-inspector-panel" eq_refl eq_refl eq_refl eq_refl Hs Hz
              eq_refl)
    as (tapped & failed & inspector & manager
        & Ht & Hf & _ & Hm & Ho & _ & Hi & Hv & _).
  exists tapped, failed, inspector, manager. repeat split; assumption.
Defined.

Lemma closing_the_sheet_keeps_the_selection_witness :
  exists tapped shown bySheet byInspector,
    App.onZoneTap (exampleZoneInfo "zone_1_2" "healing" "vape") exampleApp
    = Normal (tapped, Some (exampleZoneInfo "zone_1_2" "healing" "vape"))
    /\ App.onZoneTap_settled (exampleZoneInfo "zone_1_2" "healing" "vape")
         Fetch.Rejected tapped = Normal shown
    /\ App.sheetClose shown = Normal bySheet
    /\ App.inspectorClose shown = Normal byInspector
    /\ App.selectedZone bySheet = Some (Str "zone_1_2")
    /\ App.selectedZone byInspector = None.
Proof.
  destruct exampleManager_consistent as [Hs Hz].
  destruct (closing_the_sheet_keeps_the_selection
              (exampleZoneInfo "zone_1_2" "healing" "vape") Fetch.Rejected
              exampleApp exampleInspector exampleManager
              "zone-inspector-container" "zone-inspector-panel"
              eq_refl eq_refl eq_refl Hs Hz eq_refl)
    as (tapped & shown & bySheet & byInspector & Ht & Hsh & Hbs & Hbi
        & (i1 & m1 & _ & _ & _ & _ & Hsel1 & _)
        & (i2 & m2 & _ & _ & _ & _ & Hsel2 & _)); [discriminate|].
  exists tapped, shown, bySheet, byInspector. repeat split; assumption.
Defined.

Lemma one_active_button_witness :
  let bar :=
    runNavigationEvents [ButtonClick heatmapButton; SetCurrentView "map"]
      (NavigationBar.init {["navigation-bar"]}
         (NavigationBar.constructor None "report")) in
  List.map NavigationBar.dataView (NavigationBar.buttons bar)
  = NavigationBar.validViews
  /\ length (List.filter isActive (NavigationBar.buttons bar)) = 1%nat.
Proof.
  assert (Hd : Js.or_string None "navigation-bar"
               ∈ ({["navigation-bar"]} : gset string))
    by (apply (bool_decide_unpack _); vm_compute; exact I).
  destruct (one_active_button {["navigation-bar"]} None "report"
              [ButtonClick heatmapButton; SetCurrentView "map"] Hd)
    as (Hv & _ & Hn).
  split; [exact Hv | exact Hn].
Defined.

Lemma bar_and_application_accept_different_views_witness :
  (exists bar,
     App.navigationBar (App.navigationClick heatmapButton exampleApp)
     = Some bar
     /\ NavigationBar.currentView bar = Str "heatmap")
  /\ App.currentView (App.navigationClick heatmapButton exampleApp)
     = Str "report".
Proof.
  destruct (bar_and_application_accept_different_views exampleApp _
              heatmapButton eq_refl) as (Hbar & Happ & _).
  split.
  - apply Hbar.
    + apply (bool_decide_unpack _); vm_compute; exact I.
    + discriminate.
  - apply Happ. apply (bool_decide_unpack _); vm_compute; exact I.
Defined.

(** ** Points *)

(** X13.  The summary message for integer totals.  A total of 0 asks
    whether the user is ready; 1 to 20 gives the first praise; 21 to 50
    names the number of spaces helped, which is half the number of actions
    rounded down but never less than 1, with the singular exactly when the
    actions are at most 3; every other total gets the highest praise: totals
    above 50, but also negative totals and totals that are no number. *)
Theorem summary_message_bands (total actions : Z) (other : Value) :
  let message := PointsSummary.getSummaryMessage (Fin total) (Fin actions) in
  (total = 0 -> message = "Ready to help the air heal today?")
  /\ (1 <= total <= 20 -> message = "Small actions add up—nice work.")
  /\ (21 <= total <= 50 ->
      message
      = "You helped " +:+ Js.NumberToString (Fin (Z.max 1 (actions / 2)))
          +:+ " " +:+ (if decide (actions <= 3) then "space" else "spaces")
          +:+ " start healing today.")
  /\ (total < 0 \/ 50 < total ->
      message = "Amazing effort! The community feels your impact.")
  /\ PointsSummary.getSummaryMessage (Num NaN) other
     = "Amazing effort! The community feels your impact."
  /\ PointsSummary.getSummaryMessage Undefined other
     = "Amazing effort! The community feels your impact.".
Proof.
  intros message. subst message.
  unfold PointsSummary.getSummaryMessage, Js.ge, Js.le, Js.strict_eq_value.
  cbn [Js.ToNumber Js.Number_leb Js.Number_ltb negb Js.Math_floor_half].
  rewrite Math_max_Fin. cbn [Js.ToString].
  split; [|split; [|split; [|split; [|split; reflexivity]]]].
  - intros ->. reflexivity.
  - intros Ht. rewrite bool_decide_eq_false_2 by (intros [= E]; lia).
    destruct (Z.ltb_spec total 1), (Z.ltb_spec 20 total);
      try lia; reflexivity.
  - intros Ht. rewrite bool_decide_eq_false_2 by (intros [= E]; lia).
    destruct (Z.ltb_spec total 1), (Z.ltb_spec 20 total),
      (Z.ltb_spec total 21), (Z.ltb_spec 50 total); try lia.
    cbn [negb andb].
    destruct (decide (actions <= 3)) as [Ha|Ha].
    + rewrite bool_decide_eq_true_2; [reflexivity|].
      do 2 f_equal.
      assert (actions / 2 < 2) by (apply Z.div_lt_upper_bound; lia). lia.
    + rewrite bool_decide_eq_false_2; [reflexivity|]. intros [= E].
      assert (2 <= actions / 2) by (apply Z.div_le_lower_bound; lia). lia.
  - intros Ht. rewrite bool_decide_eq_false_2 by (intros [= E]; lia).
    destruct (Z.ltb_spec total 1), (Z.ltb_spec 20 total),
      (Z.ltb_spec total 21), (Z.ltb_spec 50 total); try lia; reflexivity.
Qed.

Lemma summary_message_bands_witness :
  PointsSummary.getSummaryMessage (Fin 30) (Fin 5)
  = "You helped 2 spaces start healing today."
  /\ PointsSummary.getSummaryMessage (Fin (-5)) (Fin 1)
     = "Amazing effort! The community feels your impact.".
Proof.
  destruct (summary_message_bands 30 5 Undefined) as (_ & _ & H & _).
  destruct (summary_message_bands (-5) 1 Undefined) as (_ & _ & _ & H' & _).
  split; [rewrite H by lia; reflexivity | apply H'; lia].
Defined.

Lemma or_undefined_l (a : Value) : Js.or Undefined a = a.
Proof. reflexivity. Qed.

Lemma or_zero_idem (a : Value) :
  Js.or (Js.or a (Num (Fin 0))) (Num (Fin 0)) = Js.or a (Num (Fin 0)).
Proof. unfold Js.or. destruct (Js.ToBoolean a) eqn:E; [now rewrite E|reflexivity]. Qed.

Lemma strict_eq_value_undefined (a : Value) :
  Js.strict_eq_value a Undefined = bool_decide (a = Undefined).
Proof. destruct a as [| | |[]]; reflexivity. Qed.

(** What [render] reads from the object [updatePoints] stores is what it
    reads from the object itself, for a property with one spelling. *)
Lemma converted_read (fields : gmap string Value) (snake camel : string) :
  fields !!! snake = Undefined \/ fields !!! camel = Undefined ->
  Js.or
    (Js.or
       (if negb (Js.strict_eq_value (fields !!! snake) Undefined)
        then fields !!! snake
        else Js.or (fields !!! camel) (Num (Fin 0)))
       Undefined)
    (Num (Fin 0))
  = Js.or (Js.or (fields !!! camel) (fields !!! snake)) (Num (Fin 0)).
Proof.
  rewrite strict_eq_value_undefined.
  intros [Hs|Hc].
  - rewrite Hs. simpl. unfold Js.or.
    destruct (Js.ToBoolean (fields !!! camel)) eqn:E; simpl; rewrite ?E;
      reflexivity.
  - rewrite Hc. rewrite or_undefined_l.
    case_bool_decide as Hs; simpl.
    + rewrite Hs. reflexivity.
    + unfold Js.or. destruct (Js.ToBoolean (fields !!! snake)) eqn:E;
        simpl; rewrite ?E; reflexivity.
Qed.

Lemma stored_lookups (total actions vape smoke : Value) :
  let stored : gmap string Value :=
    {[ "totalPoints" := total; "actionsCompleted" := actions;
       "vapePoints" := vape; "smokePoints" := smoke ]} in
  stored !!! "totalPoints" = total /\ stored !!! "total_points" = Undefined
  /\ stored !!! "actionsCompleted" = actions
  /\ stored !!! "actions_completed" = Undefined
  /\ stored !!! "vapePoints" = vape /\ stored !!! "vape_points" = Undefined
  /\ stored !!! "smokePoints" = smoke
  /\ stored !!! "smoke_points" = Undefined.
Proof. repeat split; reflexivity. Qed.

(** X14.  [updatePoints] does not change what the summary displays.  For a
    points object in which each of the four numbers has one spelling (snake
    case as the API sends it, or camel case as the state keeps it), the
    markup [render] writes for the state [updatePoints] stored is the markup
    it writes for the object itself. *)
Theorem updatePoints_keeps_the_display (points : UserPoints.t) (app : App.t)
  (summary : PointsSummary.t) :
  (forall snake camel, (snake, camel) ∈ pointNames ->
     UserPoints.fields points !!! snake = Undefined
     \/ UserPoints.fields points !!! camel = Undefined) ->
  PointsSummary.render
    (App.userPoints (App.updatePoints (Some points) app)) summary
  = PointsSummary.render (Some points) summary.
Proof.
  intros Hone.
  assert (H1 := converted_read (UserPoints.fields points) _ _
                  (Hone "total_points" "totalPoints" ltac:(set_solver))).
  assert (H2 := converted_read (UserPoints.fields points) _ _
                  (Hone "actions_completed" "actionsCompleted"
                     ltac:(set_solver))).
  assert (H3 := converted_read (UserPoints.fields points) _ _
                  (Hone "vape_points" "vapePoints" ltac:(set_solver))).
  assert (H4 := converted_read (UserPoints.fields points) _ _
                  (Hone "smoke_points" "smokePoints" ltac:(set_solver))).
  unfold PointsSummary.render.
  destruct (PointsSummary.container summary); [|reflexivity].
  cbv zeta.
  unfold App.updatePoints, App.call.
  cbn [App.userPoints UserPoints.fields].
  match goal with
  | |- context [insert "totalPoints" ?v1
                  (insert "actionsCompleted" ?v2
                     (insert "vapePoints" ?v3
                        (singletonM "smokePoints" ?v4)))] =>
      destruct (stored_lookups v1 v2 v3 v4)
        as (E1 & E2 & E3 & E4 & E5 & E6 & E7 & E8)
  end.
  cbv zeta in E1, E2, E3, E4, E5, E6, E7, E8.
  rewrite E1, E2, E3, E4, E5, E6, E7, E8, H1, H2, H3, H4.
  reflexivity.
Qed.

Lemma updatePoints_keeps_the_display_witness :
  PointsSummary.render
    (App.userPoints (App.updatePoints (Some (apiPoints 30 5 20 10))
                       exampleApp))
    exampleSummary
  = PointsSummary.render (Some (apiPoints 30 5 20 10)) exampleSummary.
Proof.
  apply updatePoints_keeps_the_display.
  intros snake camel Hin. right. unfold pointNames in Hin.
  rewrite !elem_of_cons, elem_of_nil in Hin.
  destruct Hin as [[= -> ->]|[[= -> ->]|[[= -> ->]|[[= -> ->]|[]]]]];
    reflexivity.
Defined.

(** ** The actions view *)

Lemma prepend_fields (className message : string) (this : ActionsView.t) :
  let after := stateAfter (ActionsView.prepend className message this) in
  ActionsView.selectedContext after = ActionsView.selectedContext this
  /\ ActionsView.selectedType after = ActionsView.selectedType this
  /\ ActionsView.currentZoneId after = ActionsView.currentZoneId this
  /\ ActionsView.suggestions after = ActionsView.suggestions this
  /\ ActionsView.requests after = ActionsView.requests this
  /\ ActionsView.container after = ActionsView.container this.
Proof.
  unfold ActionsView.prepend.
  destruct (ActionsView.container this) eqn:Hc; cbn; rewrite ?Hc;
    repeat split; reflexivity.
Qed.

Lemma renderActions_fields (toUpperCase capitalize : string -> string)
  (this : ActionsView.t) :
  let after :=
    stateAfter (ActionsView.renderActions toUpperCase capitalize this) in
  ActionsView.selectedContext after = ActionsView.selectedContext this
  /\ ActionsView.selectedType after = ActionsView.selectedType this
  /\ ActionsView.currentZoneId after = ActionsView.currentZoneId this
  /\ ActionsView.suggestions after = ActionsView.suggestions this
  /\ ActionsView.requests after = ActionsView.requests this
  /\ ActionsView.container after = ActionsView.container this.
Proof.
  unfold ActionsView.renderActions.
  destruct (ActionsView.container this) eqn:Hc; [|cbn; now rewrite Hc].
  destruct (_ =? _)%nat; [cbn; now rewrite Hc|].
  destruct (ActionsView.renderActions_cards _ _ _); cbn; now rewrite Hc.
Qed.

Lemma loadActions_fields (toUpperCase capitalize : string -> string)
  (context : Argument) (respond : string -> ActionsView.Response)
  (this : ActionsView.t) :
  let after :=
    stateAfter
      (ActionsView.loadActions toUpperCase capitalize context respond
         this) in
  ActionsView.selectedContext after = context
  /\ ActionsView.selectedType after = ActionsView.selectedType this
  /\ ActionsView.currentZoneId after = ActionsView.currentZoneId this
  /\ ActionsView.container after = ActionsView.container this.
Proof.
  unfold ActionsView.loadActions. cbv zeta.
  cbn [ActionsView.currentZoneId ActionsView.selectedType
       ActionsView.requests].
  destruct (ActionsView.loadActions_loop _ _ _ _ _ _ _)
    as [requested [allSuggestions|]].
  - match goal with
    | |- context [ActionsView.renderActions _ _ ?a] =>
        destruct (renderActions_fields toUpperCase capitalize a)
          as (E1 & E2 & E3 & _ & _ & E6);
        destruct (ActionsView.renderActions toUpperCase capitalize a)
          as [shown|failed];
        cbn [stateAfter] in E1, E2, E3, E6
    end.
    + cbn [stateAfter]. now rewrite E1, E2, E3, E6.
    + unfold ActionsView.showError.
      match goal with
      | |- context [ActionsView.prepend ?c ?m ?a] =>
          destruct (prepend_fields c m a) as (F1 & F2 & F3 & _ & _ & F6)
      end.
      cbv zeta in F1, F2, F3, F6.
      now rewrite F1, F2, F3, F6, E1, E2, E3, E6.
  - unfold ActionsView.showError.
    match goal with
    | |- context [ActionsView.prepend ?c ?m ?a] =>
        destruct (prepend_fields c m a) as (F1 & F2 & F3 & _ & _ & F6)
    end.
    cbv zeta in F1, F2, F3, F6.
    now rewrite F1, F2, F3, F6.
Qed.

(** X15.  Actions loaded for the context [any] are never reloaded.  After
    the user chose [any] and the browser gave a position, the view holds the
    zone identifier the heat map computes for that position and the context
    [null], whatever the server answered; so [update] returns without a
    request and leaves the view as it is.  (Here and below, whatever the
    string methods of the labels give.) *)
Theorem any_context_is_never_reloaded
  (toUpperCase capitalize : string -> string) (latitude longitude : float)
  (respond respond' : string -> ActionsView.Response)
  (this : ActionsView.t) (element : string) :
  ActionsView.container this = Some element ->
  let after :=
    stateAfter
      (ActionsView.handleContextSelection toUpperCase capitalize
         (Str "any") (ActionsView.Position latitude longitude) respond
         this) in
  ActionsView.selectedContext after = Other Null
  /\ ActionsView.currentZoneId after
     = Some (HeatmapView.calculateZoneId latitude longitude)
  /\ ActionsView.update toUpperCase capitalize respond' after = Normal after.
Proof.
  intros Hc after.
  assert (Hafter : ActionsView.selectedContext after = Other Null
                   /\ ActionsView.currentZoneId after
                      = Some (HeatmapView.calculateZoneId latitude
                                longitude)).
  { subst after. unfold ActionsView.handleContextSelection.
    rewrite Hc. cbn [ActionsView.getUserLocation].
    match goal with
    | |- context [ActionsView.loadActions _ _ ?c ?r ?a] =>
        destruct (loadActions_fields toUpperCase capitalize c r a)
          as (E1 & _ & E3 & _)
    end.
    cbv zeta in E1, E3. split; [exact E1|]. rewrite E3. reflexivity. }
  destruct Hafter as [Hctx Hzone]. split; [exact Hctx|].
  split; [exact Hzone|].
  unfold ActionsView.update. rewrite Hctx.
  now destruct (0 <? _)%nat.
Qed.

Lemma any_context_is_never_reloaded_witness :
  let after :=
    stateAfter
      (ActionsView.handleContextSelection Js.ascii_toUpperCase
         Js.ascii_capitalize (Str "any")
         (ActionsView.Position 37.7749 (-122.4194))
         (fun _ => ActionsView.NotOk) exampleActions) in
  ActionsView.currentZoneId after = Some "zone_3777_-12242"
  /\ ActionsView.update Js.ascii_toUpperCase Js.ascii_capitalize smokeOnly
       after
     = Normal after.
Proof.
  intros after.
  destruct (any_context_is_never_reloaded Js.ascii_toUpperCase
              Js.ascii_capitalize 37.7749 (-122.4194)
              (fun _ => ActionsView.NotOk) smokeOnly exampleActions
              "actions-container" eq_refl) as (_ & Hz & Hu).
  split; [|exact Hu]. fold after in Hz. rewrite Hz.
  vm_compute. reflexivity.
Defined.

(** X16.  A failed load.  When the first request of [loadActions] is
    rejected, or its body has no list of suggestions, no further request is
    made (also for [both]), the suggestions and the list on the page stay as
    they were and the error message is put before the content; the selected
    context was overwritten before the request. *)
Theorem failed_load_keeps_the_list (toUpperCase capitalize : string -> string)
  (context : Argument) (respond : string -> ActionsView.Response)
  (this : ActionsView.t) (element : string) :
  ActionsView.container this = Some element ->
  throwsInLoad
    (respond
       (ActionsView.loadActions_url (ActionsView.currentZoneId this)
          (firstType (ActionsView.selectedType this)) context)) = true ->
  exists after,
    ActionsView.loadActions toUpperCase capitalize context respond this
    = Normal after
    /\ ActionsView.suggestions after = ActionsView.suggestions this
    /\ ActionsView.listContainer (ActionsView.content after)
       = ActionsView.listContainer (ActionsView.content this)
    /\ ActionsView.messages (ActionsView.content after)
       = loadError :: ActionsView.messages (ActionsView.content this)
    /\ ActionsView.selectedContext after = context
    /\ ActionsView.requests after
       = (ActionsView.requests this
          ++ [ActionsView.loadActions_url (ActionsView.currentZoneId this)
                (firstType (ActionsView.selectedType this)) context])%list.
Proof.
  intros Hc Hfail. unfold ActionsView.loadActions, firstType in *.
  cbv zeta.
  cbn [ActionsView.currentZoneId ActionsView.selectedType
       ActionsView.requests].
  set (url := ActionsView.loadActions_url _ _ _) in Hfail.
  assert (Hloop : forall types,
            ActionsView.loadActions_loop respond
              (ActionsView.currentZoneId this)
              (ActionsView.selectedType this) context
              ((if Js.strict_eq (ActionsView.selectedType this) "both"
                then Str "vape" else ActionsView.selectedType this)
               :: types)
              (ActionsView.requests this) []
            = ((ActionsView.requests this ++ [url])%list, None)).
  { intros types. cbn [ActionsView.loadActions_loop]. fold url.
    destruct (respond url) as [| |[l|]]; try discriminate; reflexivity. }
  assert (Hres : ActionsView.loadActions_loop respond
                   (ActionsView.currentZoneId this)
                   (ActionsView.selectedType this) context
                   (if Js.strict_eq (ActionsView.selectedType this) "both"
                    then [Str "vape"; Str "smoke"]
                    else [ActionsView.selectedType this])
                   (ActionsView.requests this) []
                 = ((ActionsView.requests this ++ [url])%list, None)).
  { destruct (Js.strict_eq (ActionsView.selectedType this) "both") eqn:Hb.
    - exact (Hloop [Str "smoke"]).
    - exact (Hloop []). }
  rewrite Hres. unfold ActionsView.showError, ActionsView.prepend.
  cbn [ActionsView.container]. rewrite Hc.
  eexists. split; [reflexivity|]. cbn. repeat split; reflexivity.
Qed.

Lemma failed_load_keeps_the_list_witness :
  exists after,
    ActionsView.loadActions Js.ascii_toUpperCase Js.ascii_capitalize
      (Other Null) (fun _ => ActionsView.Rejected) exampleActions
    = Normal after
    /\ ActionsView.suggestions after = []
    /\ ActionsView.messages (ActionsView.content after) = [loadError].
Proof.
  destruct (failed_load_keeps_the_list Js.ascii_toUpperCase
              Js.ascii_capitalize (Other Null)
              (fun _ => ActionsView.Rejected) exampleActions
              "actions-container" eq_refl eq_refl)
    as (after & H & Hs & _ & Hm & _).
  exists after. split; [exact H|]. split; [exact Hs | exact Hm].
Defined.

Lemma loadActions_loop_labels (respond : string -> ActionsView.Response)
  (zone : option string) (selectedType context : Argument) (label : Argument)
  (types : list Argument) :
  (forall url, throwsInLoad (respond url) = false) ->
  Forall (fun type =>
            (if Js.strict_eq selectedType "both" then Str "both" else type)
            = label) types ->
  forall requests allSuggestions,
    Forall (fun s => ActionsView.actionType s = label) allSuggestions ->
    exists loaded,
      ActionsView.loadActions_loop respond zone selectedType context types
        requests allSuggestions
      = ((requests
          ++ List.map
               (fun type => ActionsView.loadActions_url zone type context)
               types)%list,
         Some loaded)
      /\ Forall (fun s => ActionsView.actionType s = label) loaded.
Proof.
  intros Hok. induction types as [|type types IH];
    intros Hlabel requests allSuggestions Hall.
  - exists allSuggestions. cbn. now rewrite app_nil_r.
  - apply Forall_cons in Hlabel. destruct Hlabel as [Htype Hlabel].
    cbn [ActionsView.loadActions_loop List.map].
    specialize (Hok (ActionsView.loadActions_url zone type context)) as Hr.
    destruct (respond _) as [| |[suggestions|]]; try discriminate.
    + destruct (IH Hlabel
                  (requests
                   ++ [ActionsView.loadActions_url zone type context])%list
                  allSuggestions Hall) as (loaded & E & Hl).
      exists loaded. rewrite E. now rewrite <- app_assoc.
    + match goal with
      | |- context [ActionsView.loadActions_loop _ _ _ _ _ ?r ?a] =>
          destruct (IH Hlabel r a) as (loaded & E & Hl)
      end.
      { apply Forall_app. split; [exact Hall|].
        apply Forall_forall. intros s Hs.
        apply list_elem_of_In, in_map_iff in Hs.
        destruct Hs as (s0 & <- & _). exact Htype. }
      exists loaded. rewrite E. now rewrite <- app_assoc.
Qed.

Lemma renderActions_cards_strings (toUpperCase capitalize : string -> string)
  (type : string) (suggestions : list ActionsView.Suggestion) :
  Forall (fun s => ActionsView.actionType s = Str type) suggestions ->
  exists cards,
    ActionsView.renderActions_cards toUpperCase capitalize suggestions
    = Some cards.
Proof.
  induction suggestions as [|action suggestions IH]; intros Hall.
  - now exists "".
  - apply Forall_cons in Hall. destruct Hall as [Ha Hall].
    destruct (IH Hall) as (cards & E).
    cbn [ActionsView.renderActions_cards]. rewrite E.
    unfold ActionsView.renderActions_card. rewrite Ha.
    eexists. reflexivity.
Qed.

(** X17.  The type of the loaded actions.  With a string as the selected
    type and a server whose answers decode, [loadActions] returns normally
    without a message: it makes one request for the type, or two for
    [both] (vape, then smoke), skips the answers that are not OK, and every
    suggestion it keeps carries the selected type, [both] included, which
    [renderActions] can print. *)
Theorem loaded_actions_carry_the_selected_type
  (toUpperCase capitalize : string -> string) (type : string)
  (context : Argument) (respond : string -> ActionsView.Response)
  (this : ActionsView.t) (element : string) :
  ActionsView.container this = Some element ->
  ActionsView.selectedType this = Str type ->
  (forall url, throwsInLoad (respond url) = false) ->
  exists after,
    ActionsView.loadActions toUpperCase capitalize context respond this
    = Normal after
    /\ Forall (fun s => ActionsView.actionType s = Str type)
         (ActionsView.suggestions after)
    /\ ActionsView.requests after
       = (ActionsView.requests this
          ++ List.map
               (fun type =>
                  ActionsView.loadActions_url
                    (ActionsView.currentZoneId this) type context)
               (if String.eqb type "both" then [Str "vape"; Str "smoke"]
                else [Str type]))%list
    /\ ActionsView.messages (ActionsView.content after)
       = ActionsView.messages (ActionsView.content this)
    /\ ActionsView.selectedContext after = context.
Proof.
  intros Hc Ht Hok. unfold ActionsView.loadActions. cbv zeta.
  cbn [ActionsView.currentZoneId ActionsView.selectedType
       ActionsView.requests].
  rewrite Ht. cbn [Js.strict_eq].
  match goal with
  | |- context [ActionsView.loadActions_loop ?r ?z ?t ?c ?ts ?rq ?a] =>
      destruct (loadActions_loop_labels r z t c (Str type) ts Hok)
        with (requests := rq) (allSuggestions := a)
        as (loaded & E & Hl)
  end.
  { cbn [Js.strict_eq].
    destruct (String.eqb_spec type "both") as [->|Hne];
      repeat constructor. }
  { constructor. }
  rewrite E.
  destruct (renderActions_cards_strings toUpperCase capitalize type loaded
              Hl) as (cards & Ecards).
  unfold ActionsView.renderActions.
  cbn [ActionsView.container ActionsView.suggestions
       ActionsView.currentZoneId].
  rewrite Hc, Ecards.
  destruct (length loaded =? 0)%nat; eexists;
    (split; [reflexivity|]); cbn; repeat split; assumption || reflexivity.
Qed.

Lemma loaded_actions_carry_the_selected_type_witness :
  let selected :=
    {| ActionsView.containerId := ActionsView.containerId exampleActions;
       ActionsView.container := ActionsView.container exampleActions;
       ActionsView.content := ActionsView.content exampleActions;
       ActionsView.currentLocation := None;
       ActionsView.currentZoneId := Some "zone_1_2";
       ActionsView.suggestions := [];
       ActionsView.selectedType := Str "both";
       ActionsView.selectedContext := Other Undefined;
       ActionsView.requests := [] |} in
  exists after,
    ActionsView.loadActions Js.ascii_toUpperCase Js.ascii_capitalize
      (Str "indoor") smokeOnly selected
    = Normal after
    /\ List.map ActionsView.actionType (ActionsView.suggestions after)
       = [Str "both"]
    /\ length (ActionsView.requests after) = 2%nat.
Proof.
  intros selected.
  destruct (loaded_actions_carry_the_selected_type Js.ascii_toUpperCase
              Js.ascii_capitalize "both" (Str "indoor")
              smokeOnly selected "actions-container" eq_refl eq_refl)
    as (after & H & _ & Hr & _).
  { intros url. unfold smokeOnly. now destruct (String.eqb url _). }
  exists after. split; [exact H|]. split.
  - vm_compute in H. injection H as <-. reflexivity.
  - rewrite Hr. reflexivity.
Defined.

(** ** The overlays of the heat map *)

Lemma renderZone_fields (zone : Zone.t) (mapType : Argument)
  (this : HeatmapView.t) :
  HeatmapView.map (HeatmapView.renderZone zone mapType this)
  = HeatmapView.map this
  /\ HeatmapView.mapType (HeatmapView.renderZone zone mapType this)
     = HeatmapView.mapType this.
Proof.
  unfold HeatmapView.renderZone.
  destruct (HeatmapView.map this) eqn:Hm; cbn [negb]; [|now rewrite Hm].
  destruct (Zone.bounds zone); cbn; now rewrite ?Hm.
Qed.

Lemma Map_set_Forall {V : Type} (P : Argument * V -> Prop)
  (key : Argument) (value : V) (entries : list (Argument * V)) :
  Forall P entries ->
  (forall k, Js.same_value_zero k key = true -> P (k, value)) ->
  Forall P (Js.Map_set key value entries).
Proof.
  intros Hall Hnew. induction entries as [|[k v] entries IH]; cbn.
  - constructor; [|constructor]. apply Hnew.
    destruct key as [s|w]; cbn; [apply String.eqb_refl|].
    now apply bool_decide_eq_true_2.
  - apply Forall_cons in Hall. destruct Hall as [Hk Hall].
    destruct (Js.same_value_zero k key) eqn:E.
    + constructor; [now apply Hnew | exact Hall].
    + constructor; [exact Hk | now apply IH].
Qed.

Lemma renderZones_overlays (zones : list Zone.t) (mapType : Argument)
  (seen : list Zone.t) (this : HeatmapView.t) :
  HeatmapView.map this = true ->
  Forall (overlayOf (seen ++ zones) mapType) (HeatmapView.zoneOverlays this) ->
  Forall (overlayOf (seen ++ zones) mapType)
    (HeatmapView.zoneOverlays
       (fold_left (fun this zone => HeatmapView.renderZone zone mapType this)
          zones this)).
Proof.
  revert seen this. induction zones as [|zone zones IH];
    intros seen this Hm Hall; [exact Hall|].
  cbn [fold_left].
  replace (seen ++ zone :: zones)%list with ((seen ++ [zone]) ++ zones)%list
    in * by now rewrite <- app_assoc.
  apply IH.
  - now rewrite (proj1 (renderZone_fields zone mapType this)).
  - unfold HeatmapView.renderZone. rewrite Hm. cbn [negb].
    destruct (Zone.bounds zone) as [bounds|] eqn:Hb; [|exact Hall].
    cbn [HeatmapView.zoneOverlays].
    apply Map_set_Forall; [exact Hall|].
    intros k Hk. rewrite HeatmapView_calculateState_net.
    assert (Hin : zone ∈ ((seen ++ [zone]) ++ zones)%list) by set_solver.
    unfold overlayOf, HeatmapView.rectangle_click, HeatmapView.handleZoneTap.
    cbn [fst snd HeatmapView.latLngs HeatmapView.color
         HeatmapView.fillColor HeatmapView.click_zoneId
         HeatmapView.click_state].
    pose (state := stateOfNet (netScore (Zone.fields zone) mapType)).
    assert (Hlook :
      exists colour message,
        (state, (colour, message)) ∈ stateLooks
        /\ HeatmapView.stateColors !! state = Some colour
        /\ HeatmapView.stateMessages !! state = Some message).
    { unfold stateLooks. subst state.
      destruct (stateOfNet_total (netScore (Zone.fields zone) mapType))
        as [-> | [-> | ->]].
      - exists "#F4D03F", "This space needs care".
        split; [set_solver|]. split; reflexivity.
      - exists "#52BE80", "This space is healing".
        split; [set_solver|]. split; reflexivity.
      - exists "#5DADE2", "This space has recovered".
        split; [set_solver|]. split; reflexivity. }
    destruct Hlook as (colour & message & Hlook & Hcolour & Hmessage).
    fold state. exists zone, bounds, colour, message.
    fold state. rewrite Hcolour, Hmessage.
    split; [exact Hin|]. split; [exact Hb|]. split; [exact Hk|].
    split; [reflexivity|]. split; [exact Hlook|].
    split; [reflexivity|]. split; [reflexivity|].
    intros later. reflexivity.
Qed.

Lemma Map_set_keeps_keys {V : Type} (id key : Argument) (value : V)
  (entries : list (Argument * V)) :
  (exists entry, entry ∈ entries /\ Js.same_value_zero (fst entry) id = true) ->
  exists entry,
    entry ∈ Js.Map_set key value entries
    /\ Js.same_value_zero (fst entry) id = true.
Proof.
  intros (entry & Hin & Hid).
  induction entries as [|[k v] entries IH]; [set_solver|]. cbn.
  apply elem_of_cons in Hin. destruct Hin as [->|Hin].
  - destruct (Js.same_value_zero k key);
      eexists; (split; [apply elem_of_cons; left; reflexivity | exact Hid]).
  - destruct (Js.same_value_zero k key).
    + exists entry. split; [apply elem_of_cons; now right | exact Hid].
    + destruct (IH Hin) as (entry' & Hin' & Hid').
      exists entry'. split; [apply elem_of_cons; now right | exact Hid'].
Qed.

Lemma same_value_zero_refl (a : Argument) : Js.same_value_zero a a = true.
Proof.
  destruct a as [s|v]; cbn; [apply String.eqb_refl|].
  now apply bool_decide_eq_true_2.
Qed.

Lemma Map_set_has_key {V : Type} (key : Argument) (value : V)
  (entries : list (Argument * V)) :
  exists entry,
    entry ∈ Js.Map_set key value entries
    /\ Js.same_value_zero (fst entry) key = true.
Proof.
  induction entries as [|[k v] entries IH]; cbn.
  - exists (key, value). split; [set_solver | apply same_value_zero_refl].
  - destruct (Js.same_value_zero k key) eqn:E.
    + exists (k, value). split; [set_solver | exact E].
    + destruct IH as (entry & Hin & Hid). exists entry.
      split; [apply elem_of_cons; now right | exact Hid].
Qed.

Lemma renderZones_tracks (zones : list Zone.t) (mapType : Argument)
  (this : HeatmapView.t) (id : Argument) :
  HeatmapView.map this = true ->
  (exists entry, entry ∈ HeatmapView.zoneOverlays this
                 /\ Js.same_value_zero (fst entry) id = true)
  \/ (exists zone bounds, zone ∈ zones /\ Zone.bounds zone = Some bounds
                          /\ Zone.id zone = id) ->
  exists entry,
    entry ∈ HeatmapView.zoneOverlays
              (fold_left
                 (fun this zone => HeatmapView.renderZone zone mapType this)
                 zones this)
    /\ Js.same_value_zero (fst entry) id = true.
Proof.
  revert this. induction zones as [|zone zones IH]; intros this Hm Hcase.
  - destruct Hcase as [H|(zone & bounds & Hin & _)]; [exact H|].
    now apply elem_of_nil in Hin.
  - cbn [fold_left]. apply IH.
    + now rewrite (proj1 (renderZone_fields zone mapType this)).
    + unfold HeatmapView.renderZone. rewrite Hm. cbn [negb].
      destruct Hcase as [H|(zone' & bounds & Hin & Hb & Hid)].
      * left. destruct (Zone.bounds zone); [|exact H].
        cbn [HeatmapView.zoneOverlays]. now apply Map_set_keeps_keys.
      * apply elem_of_cons in Hin. destruct Hin as [->|Hin].
        -- left. rewrite Hb. cbn [HeatmapView.zoneOverlays]. subst id.
           apply Map_set_has_key.
        -- right. now exists zone', bounds.
Qed.

(** X18.  What [renderZones] leaves.  Without a map it does nothing.  With
    a map, every rectangle the [Map] tracks afterwards belongs to a zone of
    the list that has bounds and the identifier it is tracked under: it has
    the bounds of that zone and, as line and fill colour, the colour of the
    state of the zone's net score for the map type (#F4D03F for
    needs_restoration, #52BE80 for healing, #5DADE2 for recovered); a click
    on it reports that zone and that state with its message, under the map
    type the view has at the time of the click.  And every zone of the list
    that has bounds is tracked under its identifier. *)
Theorem overlays_show_the_state_of_their_zone (zones : list Zone.t)
  (mapType : Argument) (this : HeatmapView.t) :
  let after := HeatmapView.renderZones zones mapType this in
  (HeatmapView.map this = false -> after = this)
  /\ (HeatmapView.map this = true ->
      (forall entry, entry ∈ HeatmapView.zoneOverlays after ->
         overlayOf zones mapType entry)
      /\ (forall zone bounds,
            zone ∈ zones -> Zone.bounds zone = Some bounds ->
            exists entry,
              entry ∈ HeatmapView.zoneOverlays after
              /\ Js.same_value_zero (fst entry) (Zone.id zone) = true)).
Proof.
  intros after. subst after. unfold HeatmapView.renderZones.
  split; [now intros ->|]. intros Hm. rewrite Hm. cbn [negb]. cbv zeta.
  split.
  - intros entry Hin.
    pose proof (renderZones_overlays zones mapType []
                  (HeatmapView.clearZoneOverlays this) Hm
                  ltac:(constructor)) as Hall.
    rewrite Forall_forall in Hall. exact (Hall entry Hin).
  - intros zone bounds Hin Hb.
    apply renderZones_tracks; [exact Hm|]. right. now exists zone, bounds.
Qed.

Lemma overlays_show_the_state_of_their_zone_witness :
  exists entry,
    entry ∈ HeatmapView.zoneOverlays
              (HeatmapView.renderZones
                 [exampleZone "zone_1_2" 0 30; exampleZone "zone_3_4" 25 0]
                 "vape" (emptyMap "vape"))
    /\ Js.same_value_zero (fst entry) (Str "zone_3_4") = true.
Proof.
  apply (proj2 (proj2 (overlays_show_the_state_of_their_zone
                         [exampleZone "zone_1_2" 0 30;
                          exampleZone "zone_3_4" 25 0] "vape"
                         (emptyMap "vape")) eq_refl)
           (exampleZone "zone_3_4" 25 0) exampleBounds).
  - apply elem_of_cons. right. apply elem_of_cons. now left.
  - reflexivity.
Defined.

Lemma leftOnMap_app (calls calls' : list HeatmapView.LeafletCall) :
  leftOnMap (calls ++ calls') = fold_left applyCall calls' (leftOnMap calls).
Proof. unfold leftOnMap. apply fold_left_app. Qed.

Lemma removeLayers_all (layers : list nat) :
  NoDup layers ->
  fold_left applyCall (List.map HeatmapView.removeLayer layers) layers = [].
Proof.
  assert (H : forall (ls L : list nat),
            (forall l, l ∈ L -> l ∈ ls) ->
            fold_left applyCall (List.map HeatmapView.removeLayer ls) L = []).
  { induction ls as [|l ls IH]; intros L Hsub.
    - destruct L as [|x L]; [reflexivity|].
      specialize (Hsub x ltac:(set_solver)). now apply elem_of_nil in Hsub.
    - cbn [List.map fold_left applyCall]. apply IH. intros x Hx.
      apply list_elem_of_In, filter_In in Hx. destruct Hx as [Hx Hne].
      apply list_elem_of_In in Hx. specialize (Hsub x Hx).
      apply elem_of_cons in Hsub. destruct Hsub as [->|Hsub]; [|exact Hsub].
      now rewrite Nat.eqb_refl in Hne. }
  intros _. now apply H.
Qed.

Lemma removeLayers_keep (layer : nat) (layers L : list nat) :
  layer ∈ L -> layer ∉ layers ->
  layer ∈ fold_left applyCall (List.map HeatmapView.removeLayer layers) L.
Proof.
  revert L. induction layers as [|l layers IH]; intros L HL Hnot;
    [exact HL|].
  cbn [List.map fold_left applyCall]. apply IH.
  - apply list_elem_of_In, filter_In. split; [now apply list_elem_of_In|].
    destruct (Nat.eqb_spec layer l) as [->|]; [|reflexivity].
    exfalso. apply Hnot. set_solver.
  - set_solver.
Qed.

Lemma Map_set_fresh {V : Type} (key : Argument) (value : V)
  (entries : list (Argument * V)) :
  Forall (fun entry => Js.same_value_zero (fst entry) key = false) entries ->
  Js.Map_set key value entries = (entries ++ [(key, value)])%list.
Proof.
  induction entries as [|[k v] entries IH]; intros Hall; [reflexivity|].
  apply Forall_cons in Hall. destruct Hall as [Hk Hall]. cbn in Hk |- *.
  now rewrite Hk, IH.
Qed.

(** The layers of a [Map] after [set]: the old ones without at most one,
    and the new one. *)
Lemma Map_set_layers (key : Argument) (value : HeatmapView.Rectangle)
  (entries : list (Argument * HeatmapView.Rectangle)) (layer : nat) :
  layer ∈ List.map (fun entry => HeatmapView.layer (snd entry))
            (Js.Map_set key value entries) ->
  layer = HeatmapView.layer value
  \/ layer ∈ List.map (fun entry => HeatmapView.layer (snd entry)) entries.
Proof.
  induction entries as [|[k v] entries IH]; cbn.
  - intros Hin. apply elem_of_cons in Hin.
    destruct Hin as [->|Hin]; [now left | now right].
  - destruct (Js.same_value_zero k key); cbn; intros Hin;
      apply elem_of_cons in Hin; destruct Hin as [->|Hin].
    + now left.
    + right. apply elem_of_cons. now right.
    + right. apply elem_of_cons. now left.
    + destruct (IH Hin) as [->|H]; [now left|].
      right. apply elem_of_cons. now right.
Qed.

Lemma clearZoneOverlays_on_map (this : HeatmapView.t) :
  overlays_on_map this ->
  overlays_on_map (HeatmapView.clearZoneOverlays this)
  /\ HeatmapView.zoneOverlays (HeatmapView.clearZoneOverlays this) = []
  /\ HeatmapView.rectangles (HeatmapView.clearZoneOverlays this)
     = HeatmapView.rectangles this.
Proof.
  intros ([Hm Hlt] & Hleft & Hnd).
  unfold HeatmapView.clearZoneOverlays. rewrite Hm.
  split; [|split; reflexivity].
  split; [split; [reflexivity | constructor]|].
  unfold tracked. cbn [HeatmapView.leaflet HeatmapView.zoneOverlays List.map].
  split; [|constructor].
  rewrite leftOnMap_app, Hleft.
  replace (List.map (fun entry => HeatmapView.removeLayer
                                    (HeatmapView.layer (snd entry)))
             (HeatmapView.zoneOverlays this))
    with (List.map HeatmapView.removeLayer (tracked this))
    by (unfold tracked; now rewrite map_map).
  now apply removeLayers_all.
Qed.

Lemma renderZone_on_map (zone : Zone.t) (mapType : Argument)
  (this : HeatmapView.t) :
  overlays_on_map this ->
  Forall (fun entry =>
            Js.same_value_zero (fst entry) (Zone.id zone) = false)
    (HeatmapView.zoneOverlays this) ->
  overlays_on_map (HeatmapView.renderZone zone mapType this)
  /\ (HeatmapView.zoneOverlays (HeatmapView.renderZone zone mapType this)
      = HeatmapView.zoneOverlays this
      \/ exists rectangle,
           HeatmapView.zoneOverlays (HeatmapView.renderZone zone mapType this)
           = (HeatmapView.zoneOverlays this
              ++ [(Zone.id zone, rectangle)])%list).
Proof.
  intros ([Hm Hlt] & Hleft & Hnd) Hfresh.
  unfold HeatmapView.renderZone. rewrite Hm. cbn [negb]. cbv zeta.
  destruct (Zone.bounds zone) as [bounds|];
    [|split; [now repeat split | now left]].
  rewrite (Map_set_fresh _ _ _ Hfresh).
  split; [|right; eexists; reflexivity].
  assert (Hnew : HeatmapView.rectangles this ∉ tracked this).
  { intros Hin. rewrite Forall_forall in Hlt. specialize (Hlt _ Hin). lia. }
  unfold overlays_on_map, created_before, tracked in *.
  cbn [HeatmapView.map HeatmapView.zoneOverlays HeatmapView.leaflet
       HeatmapView.rectangles].
  rewrite map_app. cbn [List.map snd HeatmapView.layer].
  split; [split; [first [exact Hm | reflexivity]|]|split].
  - apply Forall_app. split; [|constructor; [lia|constructor]].
    eapply Forall_impl; [exact Hlt|]. cbn. intros; lia.
  - rewrite leftOnMap_app, Hleft. cbn [fold_left applyCall].
    now rewrite bool_decide_eq_false_2.
  - apply NoDup_app. split; [exact Hnd|]. split.
    + intros x Hx Hx'. apply list_elem_of_singleton in Hx'. now subst x.
    + apply NoDup_singleton.
Qed.

Lemma renderZones_on_map (zones : list Zone.t) (mapType : Argument)
  (this : HeatmapView.t) :
  distinctIds zones = true ->
  overlays_on_map this ->
  Forall (fun entry =>
            Forall (fun zone =>
                      Js.same_value_zero (fst entry) (Zone.id zone) = false)
              zones)
    (HeatmapView.zoneOverlays this) ->
  overlays_on_map
    (fold_left (fun this zone => HeatmapView.renderZone zone mapType this)
       zones this).
Proof.
  revert this. induction zones as [|zone zones IH];
    intros this Hd Hinv Hfresh; [exact Hinv|].
  cbn [fold_left]. cbn [distinctIds] in Hd.
  apply andb_true_iff in Hd. destruct Hd as [Hzone Hd].
  rewrite forallb_forall in Hzone.
  destruct (renderZone_on_map zone mapType this Hinv) as [Hinv' Hover].
  { eapply Forall_impl; [exact Hfresh|]. cbn. intros entry Hall.
    now apply Forall_cons in Hall. }
  apply IH; [exact Hd | exact Hinv' |].
  assert (Hold : Forall
                   (fun entry =>
                      Forall (fun zone =>
                                Js.same_value_zero (fst entry) (Zone.id zone)
                                = false) zones)
                   (HeatmapView.zoneOverlays this)).
  { eapply Forall_impl; [exact Hfresh|]. cbn. intros entry Hall.
    now apply Forall_cons in Hall. }
  destruct Hover as [->|(rectangle & ->)]; [exact Hold|].
  apply Forall_app. split; [exact Hold|]. constructor; [|constructor].
  cbn [fst]. apply Forall_forall. intros other Hother.
  apply list_elem_of_In in Hother. specialize (Hzone other Hother).
  now apply negb_true_iff in Hzone.
Qed.

Lemma runOverlayEvents_on_map (events : list OverlayEvent)
  (this : HeatmapView.t) :
  Forall (fun event => distinctIds (eventZones event) = true) events ->
  overlays_on_map this ->
  overlays_on_map (runOverlayEvents events this).
Proof.
  revert this. induction events as [|event events IH];
    intros this Hd Hinv; [exact Hinv|].
  apply Forall_cons in Hd. destruct Hd as [Hevent Hd].
  unfold runOverlayEvents. cbn [fold_left]. apply IH; [exact Hd|].
  destruct event as [zones mapType|]; cbn [handleOverlayEvent].
  - unfold HeatmapView.renderZones.
    rewrite (proj1 (proj1 Hinv)). cbn [negb]. cbv zeta.
    destruct (clearZoneOverlays_on_map this Hinv) as (Hclear & Hempty & _).
    apply renderZones_on_map; [exact Hevent | exact Hclear |].
    rewrite Hempty. constructor.
  - now apply clearZoneOverlays_on_map.
Qed.

(** X19.  The rectangles on the map are the tracked ones.  Starting from a
    map without overlays, after any sequence of [renderZones] and
    [clearZoneOverlays] in which no list has two zones with the same
    identifier: what the calls of [addTo] and [removeLayer] have left on the
    Leaflet map are exactly the rectangles the [Map] tracks, each once. *)
Theorem tracked_overlays_are_the_rectangles_on_the_map (mapType : Argument)
  (events : list OverlayEvent) :
  Forall (fun event => distinctIds (eventZones event) = true) events ->
  let this := runOverlayEvents events (emptyMap mapType) in
  leftOnMap (HeatmapView.leaflet this) = tracked this
  /\ NoDup (tracked this).
Proof.
  intros Hd this.
  assert (Hinv : overlays_on_map this).
  { apply runOverlayEvents_on_map; [exact Hd|].
    repeat split; constructor. }
  destruct Hinv as (_ & Hleft & Hnd). now split.
Qed.

Lemma tracked_overlays_are_the_rectangles_on_the_map_witness :
  let this :=
    runOverlayEvents
      [RenderZones [exampleZone "zone_1_2" 0 30; exampleZone "zone_3_4" 25 0]
         "vape";
       RenderZones [exampleZone "zone_3_4" 25 0] "smoke"]
      (emptyMap "vape") in
  leftOnMap (HeatmapView.leaflet this) = tracked this.
Proof.
  apply (tracked_overlays_are_the_rectangles_on_the_map "vape"
           [RenderZones [exampleZone "zone_1_2" 0 30;
                         exampleZone "zone_3_4" 25 0] "vape";
            RenderZones [exampleZone "zone_3_4" 25 0] "smoke"]).
  repeat constructor.
Defined.

Lemma same_value_zero_eq (a b : Argument) :
  Js.same_value_zero a b = true <-> a = b.
Proof.
  destruct a as [s|v], b as [t|w]; cbn; try (split; [discriminate|congruence]).
  - rewrite String.eqb_eq. split; congruence.
  - rewrite bool_decide_eq_true. split; congruence.
Qed.

Lemma Map_set_entry {V : Type} (key : Argument) (value : V)
  (entries : list (Argument * V)) (entry : Argument * V) :
  entry ∈ Js.Map_set key value entries ->
  entry ∈ entries \/ (snd entry = value /\ fst entry = key).
Proof.
  induction entries as [|[k v] entries IH]; cbn [Js.Map_set].
  - intros Hin. apply list_elem_of_singleton in Hin. subst entry. now right.
  - destruct (Js.same_value_zero k key) eqn:E; intros Hin;
      apply elem_of_cons in Hin; destruct Hin as [->|Hin].
    + right. split; [reflexivity|]. now apply same_value_zero_eq.
    + left. apply elem_of_cons. now right.
    + left. apply elem_of_cons. now left.
    + destruct (IH Hin) as [Hold|Hnew]; [|now right].
      left. apply elem_of_cons. now right.
Qed.

Lemma Map_set_keys {V : Type} (key : Argument) (value : V)
  (entries : list (Argument * V)) :
  NoDup (List.map fst entries) ->
  NoDup (List.map fst (Js.Map_set key value entries)).
Proof.
  induction entries as [|[k v] entries IH]; cbn [Js.Map_set List.map fst].
  - intros _. apply NoDup_singleton.
  - intros Hnd. apply NoDup_cons in Hnd. destruct Hnd as [Hk Hnd].
    destruct (Js.same_value_zero k key) eqn:E; cbn [List.map fst].
    + apply NoDup_cons. now split.
    + apply NoDup_cons. split; [|now apply IH].
      intros Hin. apply list_elem_of_In, in_map_iff in Hin.
      destruct Hin as (entry & Hfst & Hin). apply list_elem_of_In in Hin.
      apply Map_set_entry in Hin. destruct Hin as [Hold|[_ Hnew]].
      * apply Hk. apply list_elem_of_In, in_map_iff. exists entry.
        split; [exact Hfst | now apply list_elem_of_In].
      * rewrite Hnew in Hfst. subst k.
        now rewrite same_value_zero_refl in E.
Qed.

Lemma Map_set_replaces {V : Type} (key : Argument) (value : V)
  (entries : list (Argument * V)) (entry : Argument * V) :
  NoDup (List.map fst entries) ->
  entry ∈ Js.Map_set key value entries ->
  snd entry = value \/ (entry ∈ entries /\ fst entry <> key).
Proof.
  induction entries as [|[k v] entries IH]; cbn [Js.Map_set List.map fst].
  - intros _ Hin. apply list_elem_of_singleton in Hin. subst entry. now left.
  - intros Hnd. apply NoDup_cons in Hnd. destruct Hnd as [Hk Hnd].
    destruct (Js.same_value_zero k key) eqn:E; intros Hin;
      apply elem_of_cons in Hin; destruct Hin as [->|Hin].
    + now left.
    + right. split; [apply elem_of_cons; now right|].
      apply same_value_zero_eq in E. subst k. intros Hkey. apply Hk.
      apply list_elem_of_In, in_map_iff. exists entry.
      split; [exact Hkey | now apply list_elem_of_In].
    + right. split; [apply elem_of_cons; now left|]. cbn [fst].
      intros ->. now rewrite same_value_zero_refl in E.
    + destruct (IH Hnd Hin) as [Hnew|[Hold Hne]]; [now left|].
      right. split; [apply elem_of_cons; now right | exact Hne].
Qed.

Lemma tracked_entry (layer : nat) (this : HeatmapView.t) :
  layer ∈ tracked this <->
  exists entry, entry ∈ HeatmapView.zoneOverlays this
                /\ HeatmapView.layer (snd entry) = layer.
Proof.
  unfold tracked. rewrite list_elem_of_In, in_map_iff.
  split; intros (entry & H1 & H2); exists entry.
  - split; [now apply list_elem_of_In | exact H1].
  - split; [exact H2 | now apply list_elem_of_In].
Qed.

Lemma clearZoneOverlays_created (this : HeatmapView.t) :
  overlays_created this ->
  overlays_created (HeatmapView.clearZoneOverlays this).
Proof.
  intros ([Hm Hlt] & Hkeys & Hcalls).
  unfold overlays_created, created_before, tracked,
    HeatmapView.clearZoneOverlays.
  cbn [HeatmapView.map HeatmapView.zoneOverlays HeatmapView.leaflet
       HeatmapView.rectangles List.map].
  split; [split; [exact Hm | constructor]|]. split; [constructor|].
  apply Forall_app. split; [exact Hcalls|]. rewrite Hm.
  apply Forall_forall. intros call Hcall.
  apply list_elem_of_In, in_map_iff in Hcall.
  destruct Hcall as (entry & <- & Hin). cbn [callLayer].
  rewrite Forall_forall in Hlt. apply Hlt. apply tracked_entry.
  exists entry. split; [now apply list_elem_of_In | reflexivity].
Qed.

Lemma renderZone_created (zone : Zone.t) (mapType : Argument)
  (this : HeatmapView.t) :
  overlays_created this ->
  overlays_created (HeatmapView.renderZone zone mapType this).
Proof.
  intros Hinv. pose proof Hinv as ([Hm Hlt] & Hkeys & Hcalls).
  unfold HeatmapView.renderZone. rewrite Hm. cbn [negb]. cbv zeta.
  destruct (Zone.bounds zone) as [bounds|]; [|exact Hinv].
  unfold overlays_created, created_before.
  cbn [HeatmapView.map HeatmapView.zoneOverlays HeatmapView.leaflet
       HeatmapView.rectangles HeatmapView.layer].
  split; [split; [reflexivity|]|split].
  - apply Forall_forall. intros layer Hin. apply tracked_entry in Hin.
    cbn [HeatmapView.zoneOverlays] in Hin.
    destruct Hin as (entry & Hin & <-). apply Map_set_entry in Hin.
    destruct Hin as [Hold|[-> _]]; [|cbn [HeatmapView.layer]; lia].
    rewrite Forall_forall in Hlt.
    assert (HeatmapView.layer (snd entry) < HeatmapView.rectangles this)%nat;
      [|lia].
    apply Hlt. apply tracked_entry. now exists entry.
  - now apply Map_set_keys.
  - apply Forall_app. split; [|constructor; [cbn; lia | constructor]].
    eapply Forall_impl; [exact Hcalls|]. cbn beta. intros call Hcall. lia.
Qed.

Lemma renderZones_fold_created (zones : list Zone.t) (mapType : Argument)
  (this : HeatmapView.t) :
  overlays_created this ->
  overlays_created
    (fold_left (fun this zone => HeatmapView.renderZone zone mapType this)
       zones this).
Proof.
  revert this. induction zones as [|zone zones IH]; intros this Hinv;
    [exact Hinv|].
  cbn [fold_left]. apply IH. now apply renderZone_created.
Qed.

Lemma runOverlayEvents_created (events : list OverlayEvent)
  (this : HeatmapView.t) :
  overlays_created this -> overlays_created (runOverlayEvents events this).
Proof.
  revert this. induction events as [|event events IH]; intros this Hinv;
    [exact Hinv|].
  unfold runOverlayEvents. cbn [fold_left]. apply IH.
  destruct event as [zones mapType|]; cbn [handleOverlayEvent].
  - unfold HeatmapView.renderZones.
    rewrite (proj1 (proj1 Hinv)). cbn [negb]. cbv zeta.
    apply renderZones_fold_created. now apply clearZoneOverlays_created.
  - now apply clearZoneOverlays_created.
Qed.

Lemma renderZone_first (zone : Zone.t) (bounds : Zone.Bounds)
  (mapType : Argument) (this : HeatmapView.t) :
  Zone.bounds zone = Some bounds ->
  overlays_created this ->
  tracked_under (HeatmapView.rectangles this) (Zone.id zone)
    (HeatmapView.renderZone zone mapType this).
Proof.
  intros Hb Hinv. split; [now apply renderZone_created|].
  destruct Hinv as ([Hm Hlt] & Hkeys & Hcalls).
  unfold HeatmapView.renderZone. rewrite Hm, Hb. cbn [negb]. cbv zeta.
  cbn [HeatmapView.map HeatmapView.zoneOverlays HeatmapView.leaflet
       HeatmapView.rectangles HeatmapView.layer].
  split; [lia|]. split; [|split].
  - apply elem_of_app. right. apply list_elem_of_singleton. reflexivity.
  - intros Hin. apply elem_of_app in Hin. destruct Hin as [Hin|Hin].
    + rewrite Forall_forall in Hcalls. specialize (Hcalls _ Hin).
      cbn [callLayer] in Hcalls. lia.
    + apply list_elem_of_singleton in Hin. discriminate.
  - intros entry Hin Hlayer. apply Map_set_entry in Hin.
    destruct Hin as [Hold|[_ Hkey]]; [|exact Hkey].
    rewrite Forall_forall in Hlt.
    assert (HeatmapView.layer (snd entry) < HeatmapView.rectangles this)%nat;
      [|lia].
    apply Hlt. apply tracked_entry. now exists entry.
Qed.

Lemma renderZone_tracked_under (layer : nat) (key : Argument)
  (zone : Zone.t) (mapType : Argument) (this : HeatmapView.t) :
  tracked_under layer key this ->
  tracked_under layer key (HeatmapView.renderZone zone mapType this).
Proof.
  intros Hinv. pose proof Hinv as (Hcr & Hlt & Hadd & Hrem & Hkey).
  split; [now apply renderZone_created|].
  unfold HeatmapView.renderZone. rewrite (proj1 (proj1 Hcr)).
  cbn [negb]. cbv zeta.
  destruct (Zone.bounds zone) as [bounds|];
    [|now repeat split].
  cbn [HeatmapView.map HeatmapView.zoneOverlays HeatmapView.leaflet
       HeatmapView.rectangles HeatmapView.layer].
  split; [lia|]. split; [|split].
  - apply elem_of_app. now left.
  - intros Hin. apply elem_of_app in Hin. destruct Hin as [Hin|Hin];
      [now apply Hrem|].
    apply list_elem_of_singleton in Hin. discriminate.
  - intros entry Hin Hlayer. apply Map_set_entry in Hin.
    destruct Hin as [Hold|[Hnew _]]; [now apply Hkey|].
    rewrite Hnew in Hlayer. cbn [HeatmapView.layer] in Hlayer. lia.
Qed.

Lemma renderZone_second (layer : nat) (zone : Zone.t)
  (bounds : Zone.Bounds) (mapType : Argument) (this : HeatmapView.t) :
  Zone.bounds zone = Some bounds ->
  tracked_under layer (Zone.id zone) this ->
  untracked layer (HeatmapView.renderZone zone mapType this).
Proof.
  intros Hb (Hcr & Hlt & Hadd & Hrem & Hkey).
  pose proof Hcr as ([Hm _] & Hkeys & _).
  unfold untracked, leftBehind, HeatmapView.renderZone.
  rewrite Hm, Hb. cbn [negb]. cbv zeta.
  cbn [HeatmapView.map HeatmapView.zoneOverlays HeatmapView.leaflet
       HeatmapView.rectangles HeatmapView.layer].
  split; [lia|]. split; [|split].
  - apply elem_of_app. now left.
  - intros Hin. apply elem_of_app in Hin. destruct Hin as [Hin|Hin];
      [now apply Hrem|].
    apply list_elem_of_singleton in Hin. discriminate.
  - intros Hin. apply tracked_entry in Hin.
    cbn [HeatmapView.zoneOverlays] in Hin.
    destruct Hin as (entry & Hin & Hlayer).
    apply Map_set_replaces in Hin; [|exact Hkeys].
    destruct Hin as [Hnew|[Hold Hne]].
    + rewrite Hnew in Hlayer. cbn [HeatmapView.layer] in Hlayer. lia.
    + now apply Hne, Hkey.
Qed.

Lemma renderZone_untracked (layer : nat) (zone : Zone.t)
  (mapType : Argument) (this : HeatmapView.t) :
  untracked layer this ->
  untracked layer (HeatmapView.renderZone zone mapType this).
Proof.
  intros Hinv. pose proof Hinv as (Hlt & Hadd & Hrem & Hnot).
  unfold HeatmapView.renderZone.
  destruct (negb (HeatmapView.map this)); [exact Hinv|]. cbv zeta.
  destruct (Zone.bounds zone) as [bounds|]; [|exact Hinv].
  unfold untracked, leftBehind.
  cbn [HeatmapView.map HeatmapView.zoneOverlays HeatmapView.leaflet
       HeatmapView.rectangles HeatmapView.layer].
  split; [lia|]. split; [|split].
  - apply elem_of_app. now left.
  - intros Hin. apply elem_of_app in Hin. destruct Hin as [Hin|Hin];
      [now apply Hrem|].
    apply list_elem_of_singleton in Hin. discriminate.
  - intros Hin. apply tracked_entry in Hin.
    cbn [HeatmapView.zoneOverlays] in Hin.
    destruct Hin as (entry & Hin & Hlayer). apply Map_set_entry in Hin.
    destruct Hin as [Hold|[Hnew _]].
    + apply Hnot. apply tracked_entry. now exists entry.
    + rewrite Hnew in Hlayer. cbn [HeatmapView.layer] in Hlayer. lia.
Qed.

Lemma clearZoneOverlays_untracked (layer : nat) (this : HeatmapView.t) :
  untracked layer this ->
  untracked layer (HeatmapView.clearZoneOverlays this).
Proof.
  intros (Hlt & Hadd & Hrem & Hnot).
  unfold untracked, leftBehind, tracked, HeatmapView.clearZoneOverlays.
  cbn [HeatmapView.map HeatmapView.zoneOverlays HeatmapView.leaflet
       HeatmapView.rectangles List.map].
  split; [exact Hlt|]. split; [|split].
  - apply elem_of_app. now left.
  - intros Hin. apply elem_of_app in Hin. destruct Hin as [Hin|Hin];
      [now apply Hrem|].
    destruct (HeatmapView.map this); [|now apply elem_of_nil in Hin].
    apply list_elem_of_In, in_map_iff in Hin.
    destruct Hin as (entry & Heq & Hin). injection Heq as Heq.
    apply Hnot. apply tracked_entry. exists entry.
    split; [now apply list_elem_of_In | exact Heq].
  - apply not_elem_of_nil.
Qed.

Lemma renderZones_fold_tracked_under (layer : nat) (key : Argument)
  (zones : list Zone.t) (mapType : Argument) (this : HeatmapView.t) :
  tracked_under layer key this ->
  tracked_under layer key
    (fold_left (fun this zone => HeatmapView.renderZone zone mapType this)
       zones this).
Proof.
  revert this. induction zones as [|zone zones IH]; intros this Hinv;
    [exact Hinv|].
  cbn [fold_left]. apply IH. now apply renderZone_tracked_under.
Qed.

Lemma renderZones_fold_untracked (layer : nat) (zones : list Zone.t)
  (mapType : Argument) (this : HeatmapView.t) :
  untracked layer this ->
  untracked layer
    (fold_left (fun this zone => HeatmapView.renderZone zone mapType this)
       zones this).
Proof.
  revert this. induction zones as [|zone zones IH]; intros this Hinv;
    [exact Hinv|].
  cbn [fold_left]. apply IH. now apply renderZone_untracked.
Qed.

Lemma runOverlayEvents_untracked (layer : nat) (events : list OverlayEvent)
  (this : HeatmapView.t) :
  untracked layer this -> untracked layer (runOverlayEvents events this).
Proof.
  revert this. induction events as [|event events IH]; intros this Hinv;
    [exact Hinv|].
  unfold runOverlayEvents. cbn [fold_left]. apply IH.
  destruct event as [zones mapType|]; cbn [handleOverlayEvent].
  - unfold HeatmapView.renderZones.
    destruct (negb (HeatmapView.map this)); [exact Hinv|]. cbv zeta.
    apply renderZones_fold_untracked. now apply clearZoneOverlays_untracked.
  - now apply clearZoneOverlays_untracked.
Qed.

Lemma runOverlayEvents_app (events events' : list OverlayEvent)
  (this : HeatmapView.t) :
  runOverlayEvents (events ++ events') this
  = runOverlayEvents events' (runOverlayEvents events this).
Proof. unfold runOverlayEvents. apply fold_left_app. Qed.

Lemma never_removed_stays (layer : nat)
  (calls : list HeatmapView.LeafletCall) :
  HeatmapView.addTo layer ∈ calls ->
  HeatmapView.removeLayer layer ∉ calls ->
  layer ∈ leftOnMap calls.
Proof.
  induction calls as [|call calls IH] using rev_ind;
    [intros Hin; now apply elem_of_nil in Hin|].
  intros Hadd Hrem. rewrite leftOnMap_app. cbn [fold_left].
  assert (Hrem' : HeatmapView.removeLayer layer ∉ calls).
  { intros Hin. apply Hrem. apply elem_of_app. now left. }
  destruct call as [l|l]; cbn [applyCall].
  - case_bool_decide as Hl.
    + apply elem_of_app in Hadd. destruct Hadd as [Hadd|Hadd];
        [now apply IH|].
      apply list_elem_of_singleton in Hadd. injection Hadd as ->. exact Hl.
    + apply elem_of_app in Hadd. apply elem_of_app.
      destruct Hadd as [Hadd|Hadd]; [left; now apply IH|].
      right. apply list_elem_of_singleton in Hadd. injection Hadd as ->.
      now apply list_elem_of_singleton.
  - apply list_elem_of_In, filter_In. split.
    + apply list_elem_of_In. apply IH; [|exact Hrem'].
      apply elem_of_app in Hadd. destruct Hadd as [Hadd|Hadd]; [exact Hadd|].
      apply list_elem_of_singleton in Hadd. discriminate.
    + destruct (Nat.eqb_spec layer l) as [->|]; [|reflexivity].
      exfalso. apply Hrem. apply elem_of_app. right.
      now apply list_elem_of_singleton.
Qed.

(** X20.  A repeated identifier leaves a rectangle behind.  When a list
    given to [renderZones] has two zones with bounds and the same
    identifier, the rectangle of the first is added to the map and then
    replaced in the [Map] by that of the second: whatever [renderZones] and
    [clearZoneOverlays] are called before and after, there is a rectangle
    that was added to the map, was never removed from it and is not
    tracked, so it stays on the map. *)
Theorem duplicate_identifier_leaves_a_rectangle_behind
  (mapType type : Argument) (before after : list OverlayEvent)
  (zones1 zones2 zones3 : list Zone.t) (first second : Zone.t)
  (bounds1 bounds2 : Zone.Bounds) :
  Zone.bounds first = Some bounds1 ->
  Zone.bounds second = Some bounds2 ->
  Js.same_value_zero (Zone.id first) (Zone.id second) = true ->
  let zones := (zones1 ++ first :: zones2 ++ second :: zones3)%list in
  let this :=
    runOverlayEvents (before ++ RenderZones zones type :: after)
      (emptyMap mapType) in
  exists layer,
    leftBehind layer this /\ layer ∈ leftOnMap (HeatmapView.leaflet this).
Proof.
  intros Hb1 Hb2 Hid zones this. apply same_value_zero_eq in Hid.
  pose (start :=
          fold_left (fun this zone => HeatmapView.renderZone zone type this)
            zones1
            (HeatmapView.clearZoneOverlays
               (runOverlayEvents before (emptyMap mapType)))).
  assert (Hstart : overlays_created start).
  { apply renderZones_fold_created, clearZoneOverlays_created,
      runOverlayEvents_created.
    repeat split; constructor. }
  exists (HeatmapView.rectangles start).
  assert (Hinv : untracked (HeatmapView.rectangles start) this).
  { subst this. rewrite runOverlayEvents_app.
    unfold runOverlayEvents at 1. cbn [fold_left handleOverlayEvent].
    apply runOverlayEvents_untracked.
    unfold HeatmapView.renderZones.
    assert (Hm : HeatmapView.map (runOverlayEvents before (emptyMap mapType))
                 = true).
    { apply (runOverlayEvents_created before (emptyMap mapType)).
      repeat split; constructor. }
    rewrite Hm. cbn [negb]. cbv zeta. subst zones.
    rewrite fold_left_app. fold start. cbn [fold_left].
    rewrite fold_left_app. cbn [fold_left].
    apply renderZones_fold_untracked.
    apply (renderZone_second _ second bounds2); [exact Hb2|].
    rewrite <- Hid. apply renderZones_fold_tracked_under.
    now apply (renderZone_first first bounds1). }
  destruct Hinv as (_ & Hleft). split; [exact Hleft|].
  destruct Hleft as (Hadd & Hrem & _). now apply never_removed_stays.
Qed.

Lemma duplicate_identifier_leaves_a_rectangle_behind_witness :
  exists layer,
    leftBehind layer
      (runOverlayEvents
         [RenderZones [exampleZone "zone_1_2" 0 30;
                       exampleZone "zone_1_2" 25 0] "vape";
          ClearZoneOverlays]
         (emptyMap "vape"))
    /\ layer ∈ leftOnMap
                 (HeatmapView.leaflet
                    (runOverlayEvents
                       [RenderZones [exampleZone "zone_1_2" 0 30;
                                     exampleZone "zone_1_2" 25 0] "vape";
                        ClearZoneOverlays]
                       (emptyMap "vape"))).
Proof.
  apply (duplicate_identifier_leaves_a_rectangle_behind "vape" "vape"
           [] [ClearZoneOverlays] [] [] []
           (exampleZone "zone_1_2" 0 30) (exampleZone "zone_1_2" 25 0)
           exampleBounds exampleBounds);
    reflexivity.
Defined.

(** ** The map type toggle *)

Lemma renderZone_containers (zone : Zone.t) (mapType : Argument)
  (this : HeatmapView.t) :
  HeatmapView.mapType (HeatmapView.renderZone zone mapType this)
  = HeatmapView.mapType this
  /\ HeatmapView.toggleContainer (HeatmapView.renderZone zone mapType this)
     = HeatmapView.toggleContainer this
  /\ HeatmapView.legendContainer (HeatmapView.renderZone zone mapType this)
     = HeatmapView.legendContainer this.
Proof.
  unfold HeatmapView.renderZone.
  destruct (negb (HeatmapView.map this)); [now repeat split|]. cbv zeta.
  destruct (Zone.bounds zone); now repeat split.
Qed.

Lemma renderZones_containers (zones : list Zone.t) (mapType : Argument)
  (this : HeatmapView.t) :
  HeatmapView.mapType (HeatmapView.renderZones zones mapType this)
  = HeatmapView.mapType this
  /\ HeatmapView.toggleContainer (HeatmapView.renderZones zones mapType this)
     = HeatmapView.toggleContainer this
  /\ HeatmapView.legendContainer (HeatmapView.renderZones zones mapType this)
     = HeatmapView.legendContainer this.
Proof.
  unfold HeatmapView.renderZones.
  destruct (negb (HeatmapView.map this)); [now repeat split|]. cbv zeta.
  assert (Hfold : forall this',
            HeatmapView.mapType
              (fold_left
                 (fun this zone => HeatmapView.renderZone zone mapType this)
                 zones this') = HeatmapView.mapType this'
            /\ HeatmapView.toggleContainer
                 (fold_left
                    (fun this zone =>
                       HeatmapView.renderZone zone mapType this)
                    zones this') = HeatmapView.toggleContainer this'
            /\ HeatmapView.legendContainer
                 (fold_left
                    (fun this zone =>
                       HeatmapView.renderZone zone mapType this)
                    zones this') = HeatmapView.legendContainer this').
  { induction zones as [|zone zones IH]; intros this'; [now repeat split|].
    cbn [fold_left].
    destruct (IH (HeatmapView.renderZone zone mapType this'))
      as (-> & -> & ->).
    apply renderZone_containers. }
  exact (Hfold (HeatmapView.clearZoneOverlays this)).
Qed.

Lemma settled_containers (type : Argument) (response : Fetch.Response)
  (appZones : option (list Zone.t)) (this : HeatmapView.t) :
  let after :=
    fst (HeatmapView.handleMapTypeToggle_settled type response appZones
           this) in
  HeatmapView.mapType after = HeatmapView.mapType this
  /\ HeatmapView.toggleContainer after = HeatmapView.toggleContainer this
  /\ HeatmapView.legendContainer after = HeatmapView.legendContainer this.
Proof.
  unfold HeatmapView.handleMapTypeToggle_settled. cbn [fst].
  destruct response; apply renderZones_containers.
Qed.

Lemma strict_equals_differs (type other : Argument) (s : string) :
  type = Str s -> other <> type -> Js.strict_equals type other = false.
Proof.
  intros -> Hne. destruct other as [t|v]; [|reflexivity]. cbn.
  apply String.eqb_neq. congruence.
Qed.

(** X21.  The combined map type is not stored.  A toggle to one of the
    three types, other than the current one, issues the request and makes
    it the map type of the view, and the callback hands it to the
    application's [updateMapType]: for [vape] and [smoke] the application
    records it and saves the state, for [all] it rejects it and stays as it
    was. *)
Theorem combined_map_type_is_not_stored (type : Argument)
  (response : Fetch.Response) (appZones : option (list Zone.t))
  (this : HeatmapView.t) (app : App.t) :
  type = Str "vape" \/ type = Str "smoke" \/ type = Str "all" ->
  HeatmapView.getMapType this <> type ->
  let begun := HeatmapView.handleMapTypeToggle_begin type this in
  let settled :=
    HeatmapView.handleMapTypeToggle_settled type response appZones
      (fst begun) in
  let stored := App.updateMapType (snd settled) app in
  snd begun = true
  /\ HeatmapView.getMapType (fst settled) = type
  /\ (type = Str "all" -> stored = app)
  /\ (type <> Str "all" ->
      App.currentMapType stored = type
      /\ App.calls stored = (App.calls app ++ [App.saveStateToStorage])%list).
Proof.
  intros Htype Hne begun settled stored.
  assert (Hbegun : snd begun = true /\ HeatmapView.mapType (fst begun) = type).
  { subst begun. unfold HeatmapView.handleMapTypeToggle_begin.
    assert (Hdiff : Js.strict_equals type (HeatmapView.mapType this) = false).
    { destruct Htype as [H|[H|H]];
        exact (strict_equals_differs _ _ _ H Hne). }
    rewrite Hdiff.
    destruct Htype as [-> | [-> | ->]]; cbn [Js.strict_eq String.eqb Ascii.eqb
      Bool.eqb negb andb fst snd]; unfold HeatmapView.renderLegend;
      cbn [HeatmapView.legendContainer];
      destruct (HeatmapView.legendContainer this); now split. }
  destruct Hbegun as [Hissued Hmap]. split; [exact Hissued|].
  destruct (settled_containers type response appZones (fst begun))
    as (Hsettled & _ & _).
  cbv zeta in Hsettled. fold settled in Hsettled.
  split; [unfold HeatmapView.getMapType; now rewrite Hsettled|].
  subst stored. unfold HeatmapView.handleMapTypeToggle_settled in settled.
  subst settled. cbn [snd]. unfold App.updateMapType.
  split.
  - intros ->. reflexivity.
  - intros Hall. destruct Htype as [-> | [-> | ->]]; [| |contradiction];
      cbn [Js.strict_eq String.eqb Ascii.eqb Bool.eqb negb andb];
      now split.
Qed.

Lemma combined_map_type_is_not_stored_witness :
  let begun :=
    HeatmapView.handleMapTypeToggle_begin (Str "all") (exampleMap "vape") in
  let settled :=
    HeatmapView.handleMapTypeToggle_settled (Str "all") Fetch.Rejected None
      (fst begun) in
  HeatmapView.getMapType (fst settled) = Str "all"
  /\ App.updateMapType (snd settled) exampleApp = exampleApp.
Proof.
  destruct (combined_map_type_is_not_stored (Str "all") Fetch.Rejected None
              (exampleMap "vape") exampleApp)
    as (_ & Hmap & Hall & _).
  - right. right. reflexivity.
  - discriminate.
  - split; [exact Hmap | exact (Hall eq_refl)].
Defined.

Lemma renderToggleControl_buttons (this : HeatmapView.t) :
  HeatmapView.toggleContainer (HeatmapView.renderToggleControl this)
  = match HeatmapView.toggleContainer this with
    | Some _ => Some (freshButtons (HeatmapView.mapType this))
    | None => None
    end.
Proof.
  unfold HeatmapView.renderToggleControl.
  destruct (HeatmapView.toggleContainer this) eqn:Hc; [reflexivity|].
  exact Hc.
Qed.

Lemma renderToggleControl_mapType (this : HeatmapView.t) :
  HeatmapView.mapType (HeatmapView.renderToggleControl this)
  = HeatmapView.mapType this.
Proof.
  unfold HeatmapView.renderToggleControl.
  now destruct (HeatmapView.toggleContainer this).
Qed.

Lemma renderLegend_fields (this : HeatmapView.t) :
  HeatmapView.toggleContainer (HeatmapView.renderLegend this)
  = HeatmapView.toggleContainer this
  /\ HeatmapView.mapType (HeatmapView.renderLegend this)
     = HeatmapView.mapType this
  /\ HeatmapView.legendContainer
       (HeatmapView.renderLegend (HeatmapView.renderLegend this))
     = HeatmapView.legendContainer (HeatmapView.renderLegend this).
Proof.
  unfold HeatmapView.renderLegend.
  destruct (HeatmapView.legendContainer this) eqn:Hc;
    cbn [HeatmapView.legendContainer HeatmapView.toggleContainer
         HeatmapView.mapType]; rewrite ?Hc; now repeat split.
Qed.

Lemma toggle_sets (b : bool) :
  ({["active"]} ∪ (if b then {["toggle-button"; "active"]}
                   else {["toggle-button"]}) : gset string)
  = {["toggle-button"; "active"]}
  /\ ((if b then {["toggle-button"; "active"]} else {["toggle-button"]})
      ∖ {["active"]} : gset string)
     = {["toggle-button"]}.
Proof.
  split; apply set_eq; intros x.
  all: destruct b;
    rewrite ?elem_of_union, ?elem_of_difference, ?elem_of_union,
      ?elem_of_singleton;
    intuition (subst; try discriminate; auto).
Qed.

(** The loop of [handleMapTypeToggle] turns the buttons of any map type
    into those of the new one. *)
Lemma toggled_buttons (type old : Argument) :
  HeatmapView.handleMapTypeToggle_forEach type (freshButtons old)
  = freshButtons type.
Proof.
  unfold freshButtons, HeatmapView.handleMapTypeToggle_forEach.
  cbn [List.map HeatmapView.dataType HeatmapView.classList].
  repeat f_equal;
    match goal with
    | |- context [Js.strict_eq type ?d] =>
        rewrite (bool_decide_eq_true_2
                   ("toggle-button"
                    ∈ (if Js.strict_eq old d
                       then ({["toggle-button"; "active"]} : gset string)
                       else {["toggle-button"]})))
          by (destruct (Js.strict_eq old d); set_solver);
        cbn [negb];
        destruct (Js.strict_eq type d); f_equal;
        first [apply (proj1 (toggle_sets (Js.strict_eq old d)))
              |apply (proj2 (toggle_sets (Js.strict_eq old d)))]
    end.
Qed.

Lemma begin_follows (type : Argument) (this : HeatmapView.t) :
  followsMapType this ->
  followsMapType (fst (HeatmapView.handleMapTypeToggle_begin type this)).
Proof.
  intros [Htoggle Hlegend].
  unfold HeatmapView.handleMapTypeToggle_begin.
  destruct (negb (Js.strict_eq type "vape") && negb (Js.strict_eq type "smoke")
            && negb (Js.strict_eq type "all")); [now split|].
  destruct (Js.strict_equals type (HeatmapView.mapType this));
    [now split|].
  cbn [fst]. split; [|apply renderLegend_fields].
  rewrite renderToggleControl_buttons.
  destruct (renderLegend_fields
              {| HeatmapView.mapType := type;
                 HeatmapView.map := HeatmapView.map this;
                 HeatmapView.zoneOverlays := HeatmapView.zoneOverlays this;
                 HeatmapView.rectangles := HeatmapView.rectangles this;
                 HeatmapView.leaflet := HeatmapView.leaflet this;
                 HeatmapView.toggleContainer :=
                   match HeatmapView.toggleContainer this with
                   | Some toggleButtons =>
                       Some
                         (HeatmapView.handleMapTypeToggle_forEach type
                            toggleButtons)
                   | None => None
                   end;
                 HeatmapView.legendContainer :=
                   HeatmapView.legendContainer this |})
    as (Htc & Hmt & _).
  cbv zeta. rewrite Htc, Hmt.
  cbn [HeatmapView.toggleContainer HeatmapView.mapType].
  rewrite renderToggleControl_buttons in Htoggle.
  destruct (HeatmapView.toggleContainer this) as [buttons|];
    [|reflexivity].
  injection Htoggle as <-. now rewrite toggled_buttons.
Qed.

Lemma settled_follows (type : Argument) (response : Fetch.Response)
  (appZones : option (list Zone.t)) (this : HeatmapView.t) :
  followsMapType this ->
  followsMapType
    (fst (HeatmapView.handleMapTypeToggle_settled type response appZones
            this)).
Proof.
  intros [Htoggle Hlegend].
  destruct (settled_containers type response appZones this)
    as (Hmt & Htc & Hlc).
  cbv zeta in Hmt, Htc, Hlc.
  set (after := fst (HeatmapView.handleMapTypeToggle_settled type response
                       appZones this)) in *.
  rewrite renderToggleControl_buttons in Htoggle.
  split.
  - rewrite renderToggleControl_buttons, Htc, Hmt. exact Htoggle.
  - unfold HeatmapView.renderLegend in Hlegend |- *.
    rewrite Hlc, Hmt.
    destruct (HeatmapView.legendContainer this) eqn:Hl;
      cbn [HeatmapView.legendContainer] in Hlegend |- *;
      [exact Hlegend | exact Hlc].
Qed.

Lemma runToggleEvents_follows (events : list ToggleEvent)
  (this : HeatmapView.t) :
  followsMapType this -> followsMapType (runToggleEvents events this).
Proof.
  revert this. induction events as [|event events IH]; intros this Hinv;
    [exact Hinv|].
  unfold runToggleEvents. cbn [fold_left]. apply IH.
  destruct event as [type|type response appZones];
    cbn [handleToggleEvent];
    [now apply begin_follows | now apply settled_follows].
Qed.

(** X22.  The toggle buttons follow the map type.  For a view with its
    toggle container, after [renderToggleControl], [renderLegend] and any
    sequence of calls of [handleMapTypeToggle], with any argument, and of
    completions of their requests: the buttons and the legend are the ones
    a rendering for the current map type would write; there are the three
    buttons, and a button is active exactly when its type is the map type,
    and pressed exactly when it is active. *)
Theorem toggle_buttons_follow_the_map_type (events : list ToggleEvent)
  (this : HeatmapView.t) (container : list HeatmapView.ToggleButton) :
  HeatmapView.toggleContainer this = Some container ->
  let after :=
    runToggleEvents events
      (HeatmapView.renderLegend (HeatmapView.renderToggleControl this)) in
  followsMapType after
  /\ exists buttons,
       HeatmapView.toggleContainer after = Some buttons
       /\ List.map HeatmapView.dataType buttons = ["vape"; "smoke"; "all"]
       /\ forall button,
            button ∈ buttons ->
            ("active" ∈ HeatmapView.classList button
             <-> HeatmapView.getMapType after
                 = Str (HeatmapView.dataType button))
            /\ (HeatmapView.ariaPressed button = "true"
                <-> "active" ∈ HeatmapView.classList button)
            /\ "toggle-button" ∈ HeatmapView.classList button.
Proof.
  intros Hc after.
  assert (Hstart : followsMapType
                     (HeatmapView.renderLegend
                        (HeatmapView.renderToggleControl this))).
  { split; [|apply renderLegend_fields].
    rewrite renderToggleControl_buttons.
    destruct (renderLegend_fields (HeatmapView.renderToggleControl this))
      as (-> & -> & _).
    rewrite renderToggleControl_buttons, renderToggleControl_mapType.
    now destruct (HeatmapView.toggleContainer this). }
  pose proof (runToggleEvents_follows events _ Hstart) as Hafter.
  fold after in Hafter. split; [exact Hafter|].
  assert (Hsome : exists buttons',
            HeatmapView.toggleContainer after = Some buttons').
  { subst after. clear Hafter Hstart.
    assert (Hkeep : forall this',
              (exists b, HeatmapView.toggleContainer this' = Some b) ->
              exists b,
                HeatmapView.toggleContainer (runToggleEvents events this')
                = Some b).
    { induction events as [|event events IH]; intros this' Hb;
        [exact Hb|].
      unfold runToggleEvents. cbn [fold_left]. apply IH.
      destruct Hb as [b Hb].
      destruct event as [type|type response appZones];
        cbn [handleToggleEvent].
      - unfold HeatmapView.handleMapTypeToggle_begin.
        destruct (_ && _); [now exists b|].
        destruct (Js.strict_equals _ _); [now exists b|]. cbn [fst].
        rewrite (proj1 (renderLegend_fields _)).
        cbn [HeatmapView.toggleContainer]. rewrite Hb. eexists; reflexivity.
      - destruct (settled_containers type response appZones this')
          as (_ & Htc & _). cbv zeta in Htc. rewrite Htc. now exists b. }
    apply Hkeep.
    rewrite (proj1 (renderLegend_fields _)), renderToggleControl_buttons.
    rewrite Hc. eexists; reflexivity. }
  destruct Hsome as [buttons' Hb]. destruct Hafter as [Htoggle _].
  rewrite renderToggleControl_buttons, Hb in Htoggle.
  injection Htoggle as Hfresh.
  exists buttons'. split; [exact Hb|]. rewrite <- Hfresh.
  unfold HeatmapView.getMapType. split; [reflexivity|].
  intros button Hin. unfold freshButtons in Hin.
  cbn [List.map] in Hin.
  repeat (apply elem_of_cons in Hin; destruct Hin as [->|Hin]);
    try (now apply elem_of_nil in Hin);
    cbn [HeatmapView.classList HeatmapView.dataType HeatmapView.ariaPressed];
    match goal with
    | |- context [Js.strict_eq ?m ?d] =>
        destruct (strict_eq_spec m d) as [E|E]
    end;
    (split; [|split]; try split; intros; try reflexivity; try exact E;
     try discriminate; try set_solver).
Qed.

Lemma toggle_buttons_follow_the_map_type_witness :
  exists buttons,
    HeatmapView.toggleContainer
      (runToggleEvents
         [ToggleBegin (Str "smoke");
          ToggleBegin (Str "all");
          ToggleSettled (Str "all") Fetch.Rejected None;
          ToggleSettled (Str "smoke") Fetch.NotOk None]
         (exampleMap "vape"))
    = Some buttons
    /\ List.map HeatmapView.dataType buttons = ["vape"; "smoke"; "all"].
Proof.
  destruct (toggle_buttons_follow_the_map_type
              [ToggleBegin (Str "smoke");
               ToggleBegin (Str "all");
               ToggleSettled (Str "all") Fetch.Rejected None;
               ToggleSettled (Str "smoke") Fetch.NotOk None]
              {| HeatmapView.mapType := Str "vape";
                 HeatmapView.map := true;
                 HeatmapView.zoneOverlays := [];
                 HeatmapView.rectangles := 0;
                 HeatmapView.leaflet := [];
                 HeatmapView.toggleContainer := Some [];
                 HeatmapView.legendContainer := Some "" |} [] eq_refl)
    as (_ & buttons & Hb & Hd & _).
  exists buttons. split; [exact Hb | exact Hd].
Defined.

Lemma begin_accepted (type : Argument) (this : HeatmapView.t) :
  type = Str "vape" \/ type = Str "smoke" \/ type = Str "all" ->
  HeatmapView.mapType this <> type ->
  let begun := HeatmapView.handleMapTypeToggle_begin type this in
  snd begun = true
  /\ HeatmapView.mapType (fst begun) = type
  /\ HeatmapView.map (fst begun) = HeatmapView.map this.
Proof.
  intros Htype Hne begun. subst begun.
  unfold HeatmapView.handleMapTypeToggle_begin.
  assert (Hdiff : Js.strict_equals type (HeatmapView.mapType this) = false).
  { destruct Htype as [H|[H|H]];
      exact (strict_equals_differs _ _ _ H Hne). }
  rewrite Hdiff.
  destruct Htype as [-> | [-> | ->]];
    cbn [Js.strict_eq String.eqb Ascii.eqb Bool.eqb negb andb fst snd];
    unfold HeatmapView.renderLegend; cbn [HeatmapView.legendContainer];
    destruct (HeatmapView.legendContainer this); now repeat split.
Qed.

Lemma renderZones_map (zones : list Zone.t) (mapType : Argument)
  (this : HeatmapView.t) :
  HeatmapView.map (HeatmapView.renderZones zones mapType this)
  = HeatmapView.map this.
Proof.
  unfold HeatmapView.renderZones.
  destruct (negb (HeatmapView.map this)); [reflexivity|]. cbv zeta.
  assert (Hfold : forall this',
            HeatmapView.map
              (fold_left
                 (fun this zone => HeatmapView.renderZone zone mapType this)
                 zones this') = HeatmapView.map this').
  { induction zones as [|zone zones IH]; intros this'; [reflexivity|].
    cbn [fold_left]. rewrite IH. apply renderZone_fields. }
  now rewrite Hfold.
Qed.

Lemma renderZones_overlayOf (zones : list Zone.t) (mapType : Argument)
  (this : HeatmapView.t) :
  HeatmapView.map this = true ->
  Forall (overlayOf zones mapType)
    (HeatmapView.zoneOverlays (HeatmapView.renderZones zones mapType this)).
Proof.
  intros Hm. unfold HeatmapView.renderZones. rewrite Hm.
  cbn [negb]. cbv zeta.
  exact (renderZones_overlays zones mapType []
           (HeatmapView.clearZoneOverlays this) Hm ltac:(constructor)).
Qed.

Lemma settled_renders (type : Argument) (response : Fetch.Response)
  (appZones : option (list Zone.t)) (this : HeatmapView.t) :
  fst (HeatmapView.handleMapTypeToggle_settled type response appZones this)
  = HeatmapView.renderZones (renderedZones response appZones) type this.
Proof. now destruct response. Qed.

(** X23.  Zones that arrive late keep the old map type.  With a map, when
    a second toggle comes while the request of the first is pending and the
    request of the second settles first, the zones of the first request
    are rendered last and for the first type: the map type of the view is
    the second, while every overlay has the colour of the state of its
    zone's net score for the first type, and reports that state on a
    click. *)
Theorem late_zones_keep_the_old_map_type (first second : Argument)
  (firstResponse secondResponse : Fetch.Response)
  (appZones appZones' : option (list Zone.t)) (this : HeatmapView.t) :
  HeatmapView.map this = true ->
  first = Str "vape" \/ first = Str "smoke" \/ first = Str "all" ->
  second = Str "vape" \/ second = Str "smoke" \/ second = Str "all" ->
  HeatmapView.getMapType this <> first ->
  first <> second ->
  let begun :=
    fst (HeatmapView.handleMapTypeToggle_begin second
           (fst (HeatmapView.handleMapTypeToggle_begin first this))) in
  let settled :=
    fst (HeatmapView.handleMapTypeToggle_settled first firstResponse
           appZones'
           (fst (HeatmapView.handleMapTypeToggle_settled second
                   secondResponse appZones begun))) in
  HeatmapView.getMapType settled = second
  /\ forall entry,
       entry ∈ HeatmapView.zoneOverlays settled ->
       overlayOf (renderedZones firstResponse appZones') first entry.
Proof.
  intros Hm Hfirst Hsecond Hne1 Hne2 begun settled.
  destruct (begin_accepted first this Hfirst Hne1) as (_ & Ht1 & Hm1).
  cbv zeta in Ht1, Hm1.
  set (begun1 := fst (HeatmapView.handleMapTypeToggle_begin first this)) in *.
  destruct (begin_accepted second begun1 Hsecond) as (_ & Ht2 & Hm2);
    [now rewrite Ht1|].
  cbv zeta in Ht2, Hm2. fold begun in Ht2, Hm2.
  subst settled. rewrite !settled_renders.
  unfold HeatmapView.getMapType. split.
  - rewrite !(proj1 (renderZones_containers _ _ _)). exact Ht2.
  - apply Forall_forall, renderZones_overlayOf.
    now rewrite renderZones_map, Hm2, Hm1.
Qed.

Lemma late_zones_keep_the_old_map_type_witness :
  let settled :=
    fst (HeatmapView.handleMapTypeToggle_settled (Str "smoke")
           (Fetch.Ok [exampleZone "zone_1_2" 0 30]) None
           (fst (HeatmapView.handleMapTypeToggle_settled (Str "all")
                   (Fetch.Ok [exampleZone "zone_1_2" 0 30]) None
                   (fst (HeatmapView.handleMapTypeToggle_begin (Str "all")
                           (fst (HeatmapView.handleMapTypeToggle_begin
                                   (Str "smoke") (exampleMap "vape")))))))) in
  HeatmapView.getMapType settled = Str "all"
  /\ List.map (fun entry => HeatmapView.click_state (snd entry))
       (HeatmapView.zoneOverlays settled) = ["healing"].
Proof.
  intros settled.
  destruct (late_zones_keep_the_old_map_type (Str "smoke") (Str "all")
              (Fetch.Ok [exampleZone "zone_1_2" 0 30])
              (Fetch.Ok [exampleZone "zone_1_2" 0 30]) None None
              (exampleMap "vape") eq_refl)
    as (Hmap & _).
  - right. left. reflexivity.
  - right. right. reflexivity.
  - discriminate.
  - discriminate.
  - split; [exact Hmap|]. vm_compute. reflexivity.
Defined.
